(** * CouchDB client: view queries, error taxonomy, bulk update, documents

    A shallow embedding of the parts of [couchdb/exceptions.py],
    [couchdb/views.py] and [couchdb/client.py] that decide how HTTP status
    codes become exceptions, how [Database.query_view] encodes its options
    and decodes its response, how [Database.update] reports a bulk update,
    and how documents are fetched and inspected. *)

From Stdlib Require Import ZArith Ascii String List Bool Lia.
From stdpp Require Import base option list gmap strings pretty.

Set Warnings "-register-all".

Local Open Scope Z_scope.
Local Open Scope string_scope.
Local Open Scope list_scope.

(** ** Python values

    The values that travel through the client: what [json] decodes a
    response body to and what a caller passes as a query option.  Floats
    are left out; a dict keeps its keys in insertion order, as Python's
    does, and has string keys, as a decoded JSON object has. *)

Inductive pyval : Type :=
| PyNone
| PyBool (b : bool)
| PyInt (n : Z)
| PyStr (s : string)
| PyList (items : list pyval)
| PyDict (entries : list (string * pyval)).

Abbreviation pydict := (list (string * pyval)).

(** [bool(v)], the truth value of [v] as [if v:] uses it. *)
Definition truthy (v : pyval) : bool :=
  match v with
  | PyNone => false
  | PyBool b => b
  | PyInt n => negb (n =? 0)%Z
  | PyStr s => negb (String.eqb s "")
  | PyList items => match items with [] => false | _ => true end
  | PyDict entries => match entries with [] => false | _ => true end
  end.

(** [v is not None] *)
Definition is_not_None (v : pyval) : bool :=
  match v with PyNone => false | _ => true end.

(** *** Dictionaries *)

(** [d.get(k)] on the entries of a dict: [None] here is "no such key". *)
Fixpoint dict_lookup (k : string) (d : pydict) : option pyval :=
  match d with
  | [] => None
  | (k', v) :: rest => if String.eqb k k' then Some v else dict_lookup k rest
  end.

(** [d[k] = v]: an existing key keeps its place, a new one goes last. *)
Fixpoint dict_set (k : string) (v : pyval) (d : pydict) : pydict :=
  match d with
  | [] => [(k, v)]
  | (k', v') :: rest =>
      if String.eqb k k' then (k, v) :: rest else (k', v') :: dict_set k v rest
  end.

(** [k in d] *)
Definition dict_mem (k : string) (d : pydict) : bool :=
  match dict_lookup k d with Some _ => true | None => false end.

(** [d.get(k)] as a Python value: a missing key gives [None]. *)
Definition dict_get (k : string) (d : pydict) : pyval :=
  match dict_lookup k d with Some v => v | None => PyNone end.

(** [dict(pairs)]: later pairs overwrite earlier ones. *)
Definition dict_of_items (pairs : list (string * pyval)) : pydict :=
  fold_left (fun d kv => dict_set (fst kv) (snd kv) d) pairs [].

(** ** [json.dumps(data, ensure_ascii=False)] *)

Definition hex_digit (n : N) : ascii :=
  ascii_of_N (if (n <? 10)%N then 48 + n else 87 + n)%N.

(** The double-quote character, code 34. *)
Definition quote_char : string := String (ascii_of_N 34) "".

(** One character of a string literal, as [json.encoder.py_encode_basestring]
    writes it: the two-character escapes of [ESCAPE_DCT], [\u00XX] for the
    other control characters, everything else unchanged. *)
Definition escape_char (c : ascii) : string :=
  let n := N_of_ascii c in
  if (n =? 34)%N then "\" +:+ quote_char
  else if (n =? 92)%N then "\\"
  else if (n =? 8)%N then "\b"
  else if (n =? 12)%N then "\f"
  else if (n =? 10)%N then "\n"
  else if (n =? 13)%N then "\r"
  else if (n =? 9)%N then "\t"
  else if (n <? 32)%N then
    "\u00" +:+ String (hex_digit (n / 16)) (String (hex_digit (n mod 16)) "")
  else String c "".

Fixpoint escape_string (s : string) : string :=
  match s with
  | EmptyString => ""
  | String c rest => escape_char c +:+ escape_string rest
  end.

Definition dumps_str (s : string) : string :=
  quote_char +:+ escape_string s +:+ quote_char.

(** [", ".join(parts)] *)
Fixpoint join_comma (parts : list string) : string :=
  match parts with
  | [] => ""
  | [p] => p
  | p :: rest => p +:+ ", " +:+ join_comma rest
  end.

Fixpoint dumps (v : pyval) : string :=
  match v with
  | PyNone => "null"
  | PyBool true => "true"
  | PyBool false => "false"
  | PyInt n => pretty n
  | PyStr s => dumps_str s
  | PyList items => "[" +:+ join_comma (map dumps items) +:+ "]"
  | PyDict entries =>
      "{" +:+ join_comma
                (map (fun kv => dumps_str (fst kv) +:+ ": " +:+ dumps (snd kv))
                     entries)
          +:+ "}"
  end.

(** [client._jsons(data)] with the default [indent=None]. *)
Definition _jsons (data : pyval) : string := dumps data.

(** ** Exceptions ([couchdb/exceptions.py])

    [HTTPError] and its six subclasses share one constructor shape: an
    instance carries the class it was built from, [status_code] and
    [message]. *)

Inductive http_class : Type :=
| HTTPError
| HTTPBadRequest
| HTTPUnauthorized
| HTTPForbidden
| HTTPNotFound
| HTTPConflict
| HTTPPreconditionFailed.

#[global] Instance http_class_eq_dec : EqDecision http_class.
Proof. solve_decision. Defined.

Inductive exn : Type :=
| HTTPExn (cls : http_class) (status_code : Z) (message : string)
| CouchDBException (arg : pyval)
| UpdateConflict (arg : pyval)
| MissingDocument (arg : pyval)
| Timeout
| RequestsException
| TypeError
| ValueError
| KeyError (key : string)
| IndexError
| AttributeError
| AssertionError.

(** The class attribute [status_code] of each subclass. *)
Definition class_status_code (cls : http_class) : option Z :=
  match cls with
  | HTTPError => None
  | HTTPBadRequest => Some 400
  | HTTPUnauthorized => Some 401
  | HTTPForbidden => Some 403
  | HTTPNotFound => Some 404
  | HTTPConflict => Some 409
  | HTTPPreconditionFailed => Some 412
  end.

(** The default of the [message] parameter of each subclass's [__init__]. *)
Definition class_default_message (cls : http_class) : option string :=
  match cls with
  | HTTPError => None
  | HTTPBadRequest => Some "Bad Request"
  | HTTPUnauthorized => Some "Unauthorized"
  | HTTPForbidden => Some "Forbidden"
  | HTTPNotFound => Some "Not Found"
  | HTTPConflict => Some "Conflict"
  | HTTPPreconditionFailed => Some "Precondition failed"
  end.

(** [message or "HTTP error {status_code}".format(status_code=status_code)]:
    [None] and the empty string are both false. *)
Definition message_or_default (status_code : Z) (message : option string) : string :=
  match message with
  | Some m => if String.eqb m "" then "HTTP error " +:+ pretty status_code else m
  | None => "HTTP error " +:+ pretty status_code
  end.

(** [HTTPError.__init__(self, status_code, message=None)], run on an instance
    of class [cls]. *)
Definition HTTPError_init (cls : http_class) (status_code : Z)
    (message : option string) : exn :=
  HTTPExn cls status_code (message_or_default status_code message).

(** [cls()] for one of the six subclasses: its [__init__] passes the class
    attribute and its own default message on to [HTTPError.__init__].
    [HTTPError()] itself lacks its required argument. *)
Definition subclass_new (cls : http_class) : exn :=
  match class_status_code cls with
  | Some code => HTTPError_init cls code (class_default_message cls)
  | None => TypeError
  end.

Definition http_subclasses : list http_class :=
  [HTTPBadRequest; HTTPUnauthorized; HTTPForbidden; HTTPNotFound;
   HTTPConflict; HTTPPreconditionFailed].

(** [{exc.status_code: exc for exc in [...]}] *)
Definition _http_error_lookup : gmap Z http_class :=
  list_to_map
    (omap (fun exc => (fun code => (code, exc)) <$> class_status_code exc)
          http_subclasses).

Definition http_error_lookup (status_code : Z) (message : option string) : exn :=
  match _http_error_lookup !! status_code with
  | Some cls => subclass_new cls
  | None => HTTPError_init HTTPError status_code message
  end.

Definition exn_message (e : exn) : option string :=
  match e with HTTPExn _ _ m => Some m | _ => None end.

Definition exn_status_code (e : exn) : option Z :=
  match e with HTTPExn _ c _ => Some c | _ => None end.

Definition exn_class (e : exn) : option http_class :=
  match e with HTTPExn cls _ _ => Some cls | _ => None end.


(** ** Results and effects

    A call either returns or raises.  Calls that talk to the server or
    touch a caller's object run in a world: the store of mutable objects and
    the requests issued so far. *)

Inductive outcome (A : Type) : Type :=
| Return (a : A)
| Raise (e : exn).
Arguments Return {A} a.
Arguments Raise {A} e.

#[global] Instance outcome_ret : MRet outcome := fun A a => Return a.
#[global] Instance outcome_bind : MBind outcome := fun A B f c =>
  match c with
  | Return a => f a
  | Raise e => Raise e
  end.

(** A list comprehension whose element expression may raise. *)
Fixpoint comprehension {A B : Type} (f : A -> outcome B) (l : list A)
    : outcome (list B) :=
  match l with
  | [] => Return []
  | a :: rest => b ← f a; bs ← comprehension f rest; Return (b :: bs)
  end.

(** *** Operations on values that can raise *)

Definition is_str (s : string) (v : pyval) : bool :=
  match v with PyStr s' => String.eqb s s' | _ => false end.

(** [s in t] for two strings: [s] occurs in [t]. *)
Fixpoint substringb (s t : string) : bool :=
  String.prefix s t
  || match t with
     | EmptyString => false
     | String _ rest => substringb s rest
     end.

(** [for x in v]: the elements of a list, the keys of a dict, the
    characters of a string. *)
Definition iter_values (v : pyval) : outcome (list pyval) :=
  match v with
  | PyList items => Return items
  | PyDict entries => Return (map (fun kv => PyStr (fst kv)) entries)
  | PyStr s => Return (map (fun c => PyStr (String c "")) (list_ascii_of_string s))
  | _ => Raise TypeError
  end.

(** [k in v] for a string [k]. *)
Definition contains (k : string) (v : pyval) : outcome bool :=
  match v with
  | PyDict entries => Return (dict_mem k entries)
  | PyList items => Return (existsb (is_str k) items)
  | PyStr s => Return (substringb k s)
  | _ => Raise TypeError
  end.

(** [v[k]] for a string [k]. *)
Definition getitem (k : string) (v : pyval) : outcome pyval :=
  match v with
  | PyDict entries =>
      match dict_lookup k entries with
      | Some x => Return x
      | None => Raise (KeyError k)
      end
  | _ => Raise TypeError
  end.

(** [v.get(k, default)] *)
Definition get_method (k : string) (default : pyval) (v : pyval) : outcome pyval :=
  match v with
  | PyDict entries =>
      Return (match dict_lookup k entries with Some x => x | None => default end)
  | _ => Raise AttributeError
  end.

(** *** The world *)

Definition loc : Type := positive.

(** What a caller may hand over as a document: a dict (or a [Document],
    which is one), an object with an [items()] method, or something else. *)
Inductive pyobj : Type :=
| DictObj (d : pydict)
| ItemsObj (items : list (string * pyval))
| OtherObj.

(** How a path is put together with [furl]: the quoted database name, then
    [add] with a list (each element one segment) or with a string. *)
Inductive path_part : Type :=
| Quoted (name : string)
| Segment (s : string)
| Added (s : string).

Record request : Type := mkRequest {
  req_method : string;
  req_url : list path_part;
  req_params : gmap string pyval;
  req_json : option pyval
}.

Record world : Type := mkWorld {
  heap : gmap loc pyobj;
  sent : list request
}.

Definition M (A : Type) : Type := world -> outcome A * world.

#[global] Instance M_ret : MRet M := fun A a w => (Return a, w).
#[global] Instance M_bind : MBind M := fun A B f c w =>
  match c w with
  | (Return a, w') => f a w'
  | (Raise e, w') => (Raise e, w')
  end.

Definition lift {A : Type} (c : outcome A) : M A := fun w => (c, w).
Definition raise {A : Type} (e : exn) : M A := fun w => (Raise e, w).

(** [try: body except cls: handler] for an [HTTPError] subclass [cls]; none
    of the six has a subclass of its own, so the instances caught are those
    built from [cls]. *)
Definition try_except {A : Type} (body : M A) (cls : http_class)
    (handler : M A) : M A := fun w =>
  match body w with
  | (Raise (HTTPExn c code msg), w') =>
      if decide (c = cls) then handler w' else (Raise (HTTPExn c code msg), w')
  | r => r
  end.

(** ** [couchdb/views.py] *)

Module views.

(** [collections.namedtuple("Row", ["id", "key", "value", "doc"])] *)
Record Row : Type := mkRow {
  id : pyval;
  key : pyval;
  value : pyval;
  doc : pyval
}.

(** [Row(a, b, ...)]: the generated [__new__] takes exactly one positional
    argument per field and raises [TypeError] for any other count. *)
Definition Row_new (args : list pyval) : outcome Row :=
  match args with
  | [a; b; c; d] => Return (mkRow a b c d)
  | _ => Raise TypeError
  end.

Record ViewResult : Type := mkViewResult {
  rows : list Row;
  offset : pyval;
  total_rows : pyval
}.

(** [len(result)] *)
Definition __len__ (self : ViewResult) : nat := length (rows self).

End views.

(** ** The session ([client.Session])

    The transport below the session, [requests] with a base URL, answers a
    request with a response, a timeout or another failure.  A response
    carries its status code, its reason phrase and its body as [json()]
    decodes it. *)

Record response : Type := mkResponse {
  resp_status_code : Z;
  resp_reason : option string;
  resp_json : pyval
}.

Inductive net_result : Type :=
| Answered (r : response)
| TimedOut
| Failed.

Module Session.

Record t : Type := mk { base_request : request -> net_result }.

(** [resp.raise_for_status()] raises for the 4xx and 5xx codes. *)
Definition is_error_status (code : Z) : bool :=
  (400 <=? code)%Z && (code <? 600)%Z.

Definition request (self : t) (req : request) : M response := fun w =>
  let w' := mkWorld (heap w) (sent w ++ [req])%list in
  match base_request self req with
  | Answered r =>
      if is_error_status (resp_status_code r)
      then (Raise (http_error_lookup (resp_status_code r) (resp_reason r)), w')
      else (Return r, w')
  | TimedOut => (Raise Timeout, w')
  | Failed => (Raise RequestsException, w')
  end.

Definition get (self : t) (url : list path_part) (params : gmap string pyval)
    : M response :=
  request self (mkRequest "GET" url params None).

Definition post (self : t) (url : list path_part) (json : pyval) : M response :=
  request self (mkRequest "POST" url ∅ (Some json)).

Definition head (self : t) (url : list path_part) : M response :=
request self (mkRequest "HEAD" url ∅ None).

(** [put(url, json=...)] *)
Definition put (self : t) (url : list path_part) (json : option pyval)
    : M response :=
request self (mkRequest "PUT" url ∅ json).

End Session.

(** ** [client.Document] *)

Module Document.

(** [Document(data)] is [dict(data)] in a subclass: a dict is copied, an
    empty sequence gives an empty dict, a value that cannot be iterated is
    a [TypeError], and a non-empty string is a [ValueError], its elements
    being single characters and no pairs.  Python accepts a non-empty list
    when every element is a pair; a response body of that shape is no
    document, and the model gives it [TypeError], the error of a list whose
    first element is no sequence. *)
Definition new (data : pyval) : outcome pydict :=
  match data with
  | PyDict entries => Return entries
  | PyList [] => Return []
  | PyStr EmptyString => Return []
  | PyStr _ => Raise ValueError
  | _ => Raise TypeError
  end.

(** The property [id]: [self.get('_id')]. *)
Definition id (self : pydict) : outcome pyval := Return (dict_get "_id" self).

(** The property [rev]: [self.get('_rev')]. *)
Definition rev (self : pydict) : outcome pyval := Return (dict_get "_rev" self).

End Document.

(** ** Names of views and functions *)

Definition slash : ascii := "/"%char.

(** [s.split('/', 1)]: [s] itself when it has no slash, otherwise what
    stands before the first slash and what stands after it. *)
Fixpoint split_first (s : string) : list string :=
  match s with
  | EmptyString => [EmptyString]
  | String c rest =>
      if Ascii.eqb c slash then [EmptyString; rest]
      else match split_first rest with
           | a :: tl => String c a :: tl
           | [] => [String c EmptyString]
           end
  end.

(** [s.split('/')] *)
Fixpoint split_all (s : string) : list string :=
  match s with
  | EmptyString => [EmptyString]
  | String c rest =>
      if Ascii.eqb c slash then EmptyString :: split_all rest
      else match split_all rest with
           | a :: tl => String c a :: tl
           | [] => [String c EmptyString]
           end
  end.

(** [a, b = parts]: any other number of parts is a [ValueError]. *)
Definition unpack_pair (parts : list string) : outcome (string * string) :=
  match parts with
  | [a; b] => Return (a, b)
  | _ => Raise ValueError
  end.

(** [client._path_from_name(name, type)] *)
Definition _path_from_name (name type : string) : outcome (list string) :=
  if String.prefix "_" name then Return (split_all name)
  else
    '(design, name) ← unpack_pair (split_first name);
    Return ["_design"; design; type; name].

(** The exceptions [except exceptions.RequestsException] catches: the class
    itself, [Timeout], and [HTTPError] with its subclasses. *)
Definition is_RequestsException (e : exn) : bool :=
  match e with
  | HTTPExn _ _ _ | Timeout | RequestsException => true
  | _ => false
  end.

(** ** [client.Database] *)


(** The keyword arguments of [Database.query_view], each bound to what the
    caller passed or to its default. *)
Module ViewArgs.

Record t : Type := mk {
  key : pyval;
  keys : pyval;
  startkey : pyval;
  endkey : pyval;
  skip : pyval;
  limit : pyval;
  sorted : pyval;
  descending : pyval;
  group : pyval;
  group_level : pyval;
  reduce : pyval;
  include_docs : pyval;
  update : pyval
}.

(** The defaults of the signature. *)
Definition defaults : t :=
  mk PyNone PyNone PyNone PyNone PyNone PyNone (PyBool true) (PyBool false)
     (PyBool false) PyNone PyNone (PyBool false) PyNone.

End ViewArgs.

(** The keyword arguments of [Database.get] after [id] and [default]. *)
Module GetArgs.

Record t : Type := mk {
  att_encoding_info : pyval;
  atts_since : pyval;
  conflicts : pyval;
  deleted_conflicts : pyval;
  latest : pyval;
  local_seq : pyval;
  meta : pyval;
  open_revs : pyval;
  rev : pyval;
  revs : pyval;
  revs_info : pyval
}.

Definition defaults : t :=
  mk PyNone PyNone PyNone PyNone PyNone PyNone PyNone PyNone PyNone PyNone
     PyNone.

End GetArgs.

(** One element of the list [Database.update] returns: the new revision or
    an exception instance in third place. *)
Inductive rev_or_exc : Type :=
| Rev (rev : pyval)
| Exc (e : exn).

Module Database.

Record t : Type := mk {
  session : Session.t;
  name : string
}.

(** [furl.Path(quote(self.name))] *)
Definition path (self : t) : list path_part := [Quoted (name self)].

(** [if cond: params[k] = v] *)
Definition setitem_if (cond : bool) (k : string) (v : pyval)
    (params : gmap string pyval) : gmap string pyval :=
  if cond then <[k := v]> params else params.

Definition jsons (v : pyval) : pyval := PyStr (_jsons v).

(** The values [update] may take: [update in ["true", "false", "lazy"]]. *)
Definition update_allowed (u : pyval) : bool :=
  existsb (fun s => is_str s u) ["true"; "false"; "lazy"].

(** The [params] dict of [query_view], built in the order of the source;
    the [assert] on [update] raises before anything is sent. *)
Definition query_view_params (a : ViewArgs.t) : outcome (gmap string pyval) :=
  let params : gmap string pyval := ∅ in
  let params := setitem_if (is_not_None (ViewArgs.startkey a))
                  "startkey" (jsons (ViewArgs.startkey a)) params in
  let params := setitem_if (is_not_None (ViewArgs.key a))
                  "key" (jsons (ViewArgs.key a)) params in
  let params := setitem_if (is_not_None (ViewArgs.keys a))
                  "keys" (jsons (ViewArgs.keys a)) params in
  let params := setitem_if (is_not_None (ViewArgs.endkey a))
                  "endkey" (jsons (ViewArgs.endkey a)) params in
  let params := setitem_if (is_not_None (ViewArgs.skip a))
                  "skip" (jsons (ViewArgs.skip a)) params in
  let params := setitem_if (is_not_None (ViewArgs.limit a))
                  "limit" (jsons (ViewArgs.limit a)) params in
  let params := setitem_if (negb (truthy (ViewArgs.sorted a)))
                  "sorted" (jsons (PyBool false)) params in
  let params := setitem_if (truthy (ViewArgs.descending a))
                  "descending" (jsons (PyBool true)) params in
  let params := setitem_if (truthy (ViewArgs.group a))
                  "group" (jsons (PyBool true)) params in
  let params := setitem_if (is_not_None (ViewArgs.group_level a))
                  "group_level" (jsons (ViewArgs.group_level a)) params in
  let params := setitem_if (is_not_None (ViewArgs.reduce a))
                  "reduce" (jsons (PyBool (truthy (ViewArgs.reduce a)))) params in
  let params := setitem_if (truthy (ViewArgs.include_docs a))
                  "include_docs" (jsons (PyBool true)) params in
  let params := setitem_if (truthy (ViewArgs.include_docs a))
                  "reduce" (jsons (PyBool false)) params in
  if is_not_None (ViewArgs.update a) then
    if update_allowed (ViewArgs.update a)
    then Return (<["update" := ViewArgs.update a]> params)
    else Raise AssertionError
  else Return params.

(** The path of the view: a reserved view directly under the database,
    any other one under its design document. *)
Definition query_view_path (self : t) (design_doc : option string)
    (view_name : string) : outcome (list path_part) :=
  match design_doc with
  | None =>
      if String.prefix "_" view_name
      then Return (path self ++ [Added view_name])%list
      else Raise AssertionError
  | Some d =>
      Return (path self ++ [Segment "_design"; Segment d; Segment "_view";
                            Segment view_name])%list
  end.

(** One row of the response: five [r.get(...)] handed to [views.Row]. *)
Definition decode_row (r : pyval) : outcome views.Row :=
  a ← get_method "id" PyNone r;
  b ← get_method "key" PyNone r;
  c ← get_method "value" PyNone r;
  d ← get_method "error" PyNone r;
  e ← get_method "doc" PyNone r;
  views.Row_new [a; b; c; d; e].

(** The [return views.ViewResult(...)] of [query_view], on the decoded
    body [data]. *)
Definition query_view_result (data : pyval) : outcome views.ViewResult :=
  rows_value ← get_method "rows" (PyList []) data;
  entries ← iter_values rows_value;
  rows ← comprehension decode_row entries;
  offset ← get_method "offset" PyNone data;
  total_rows ← get_method "total_rows" PyNone data;
  Return (views.mkViewResult rows offset total_rows).

Definition query_view (self : t) (design_doc : option string)
    (view_name : string) (a : ViewArgs.t) : M views.ViewResult :=
  params ← lift (query_view_params a);
  url ← lift (query_view_path self design_doc view_name);
  resp ← Session.get (session self) url params;
  lift (query_view_result (resp_json resp)).

(** *** [__getitem__] and [get] *)

(** [db[id]] *)
Definition __getitem__ (self : t) (id : string) : M pydict :=
  try_except
    (resp ← Session.get (session self) (path self ++ [Segment id])%list ∅;
     lift (Document.new (resp_json resp)))
    HTTPNotFound
    (raise (MissingDocument (PyStr "Document does not exist"))).

(** The [params] dict of [get]. *)
Definition get_params (a : GetArgs.t) : gmap string pyval :=
  let params : gmap string pyval := ∅ in
  let params := setitem_if (is_not_None (GetArgs.att_encoding_info a))
                  "att_encoding_info" (jsons (GetArgs.att_encoding_info a)) params in
  let params := setitem_if (is_not_None (GetArgs.atts_since a))
                  "atts_since" (jsons (PyBool (truthy (GetArgs.atts_since a)))) params in
  let params := setitem_if (is_not_None (GetArgs.conflicts a))
                  "conflicts" (jsons (PyBool (truthy (GetArgs.conflicts a)))) params in
  let params := setitem_if (is_not_None (GetArgs.deleted_conflicts a))
                  "deleted_conflicts"
                  (jsons (PyBool (truthy (GetArgs.deleted_conflicts a)))) params in
  let params := setitem_if (is_not_None (GetArgs.latest a))
                  "latest" (jsons (PyBool (truthy (GetArgs.latest a)))) params in
  let params := setitem_if (is_not_None (GetArgs.local_seq a))
                  "local_seq" (jsons (PyBool (truthy (GetArgs.local_seq a)))) params in
  let params := setitem_if (is_not_None (GetArgs.meta a))
                  "meta" (jsons (PyBool (truthy (GetArgs.meta a)))) params in
  let params := setitem_if (is_not_None (GetArgs.open_revs a))
                  "open_revs" (jsons (GetArgs.open_revs a)) params in
  let params := setitem_if (is_not_None (GetArgs.rev a))
                  "rev" (GetArgs.rev a) params in
  let params := setitem_if (is_not_None (GetArgs.revs a))
                  "revs" (jsons (PyBool (truthy (GetArgs.revs a)))) params in
  let params := setitem_if (is_not_None (GetArgs.revs_info a))
                  "revs_info" (jsons (PyBool (truthy (GetArgs.revs_info a)))) params in
  params.

(** [db.get(id, default, ...)] *)
Definition get (self : t) (id : string) (default : pyval) (a : GetArgs.t)
    : M pyval :=
  try_except
    (resp ← Session.get (session self) (path self ++ [Segment id])%list
              (get_params a);
     mret (resp_json resp))
    HTTPNotFound
    (mret default).

(** *** [update] *)

(** The first loop of [update]: a dict goes into the payload as it is, an
    object with [items()] as [dict(doc.items())], anything else is a
    [TypeError].  A reference always names a live object; one that does
    not is treated as an object that is no document. *)
Definition payload_doc (h : gmap loc pyobj) (doc : loc) : outcome pyval :=
  match h !! doc with
  | Some (DictObj d) => Return (PyDict d)
  | Some (ItemsObj items) => Return (PyDict (dict_of_items items))
  | _ => Raise TypeError
  end.

Definition payload_docs (documents : list loc) : M (list pyval) := fun w =>
  (comprehension (payload_doc (heap w)) documents, w).

(** [documents[idx]] *)
Definition documents_at (documents : list loc) (idx : nat) : outcome loc :=
  match documents !! idx with
  | Some doc => Return doc
  | None => Raise IndexError
  end.

(** [if isinstance(doc, dict): doc.update({'_id': id, '_rev': rev})] *)
Definition update_if_dict (doc : loc) (id rev : pyval) : M unit := fun w =>
  match heap w !! doc with
  | Some (DictObj d) =>
      (Return tt,
       mkWorld (<[doc := DictObj (dict_set "_rev" rev (dict_set "_id" id d))]> (heap w))
               (sent w))
  | _ => (Return tt, w)
  end.

Definition is_dict (h : gmap loc pyobj) (doc : loc) : bool :=
  match h !! doc with Some (DictObj _) => true | _ => false end.

(** The body of the second loop of [update], for the entry [result] of
    the response at position [idx]. *)
Definition update_entry (documents : list loc) (idx : nat) (result : pyval)
    : M (bool * pyval * rev_or_exc) :=
  has_error ← lift (contains "error" result);
  if (has_error : bool) then
    error ← lift (getitem "error" result);
    let exc_type := if is_str "conflict" error then UpdateConflict
                    else CouchDBException in
    id ← lift (getitem "id" result);
    reason ← lift (getitem "reason" result);
    mret (false, id, Exc (exc_type reason))
  else
    doc ← lift (documents_at documents idx);
    dict_doc ← (fun w => (Return (is_dict (heap w) doc), w));
    _ ← (if (dict_doc : bool) then
           id ← lift (getitem "id" result);
           rev ← lift (getitem "rev" result);
           update_if_dict doc id rev
         else mret tt);
    id ← lift (getitem "id" result);
    rev ← lift (getitem "rev" result);
    mret (true, id, Rev rev).

(** [for idx, result in enumerate(data): ...], from position [idx] on. *)
Fixpoint update_loop (documents : list loc) (idx : nat) (data : list pyval)
    (results : list (bool * pyval * rev_or_exc))
    : M (list (bool * pyval * rev_or_exc)) :=
  match data with
  | [] => mret results
  | result :: rest =>
      r ← update_entry documents idx result;
      update_loop documents (S idx) rest (results ++ [r])%list
  end.

Definition update (self : t) (documents : list loc) (new_edits : pyval)
    : M (list (bool * pyval * rev_or_exc)) :=
  docs ← payload_docs documents;
  let payload := PyDict [("docs", PyList docs); ("new_edits", new_edits)] in
  resp ← Session.post (session self) (path self ++ [Added "_bulk_docs"])%list
           payload;
  data ← lift (iter_values (resp_json resp));
  update_loop documents 0 data [].

(** *** [view], [__contains__] and [__setitem__] *)

(** [db.view(name, **options)] *)
Definition view (self : t) (name : string) (a : ViewArgs.t)
    : M views.ViewResult :=
if String.prefix "_" name then query_view self None name a
else
  '(design_doc_name, view_name) ← lift (unpack_pair (split_first name));
  query_view self (Some design_doc_name) view_name a.

(** [id in db] *)
Definition __contains__ (self : t) (id : string) : M bool :=
try_except
  (_ ← Session.head (session self) (path self ++ [Segment id])%list;
   mret true)
  HTTPNotFound
  (mret false).

(** What [requests] makes of [json=obj] for an object of the store: a dict
    is serialised; the other objects of the store are no JSON values, and
    [json.dumps] raises [TypeError] on them before anything is sent. *)
Definition json_body (h : gmap loc pyobj) (obj : loc) : outcome pyval :=
match h !! obj with
| Some (DictObj d) => Return (PyDict d)
| _ => Raise TypeError
end.

(** [db[id] = content] *)
Definition __setitem__ (self : t) (id : string) (content : loc) : M unit :=
body ← (fun w => (json_body (heap w) content, w));
resp ← Session.put (session self) (path self ++ [Segment id])%list (Some body);
let data := resp_json resp in
new_id ← lift (getitem "id" data);
new_rev ← lift (getitem "rev" data);
update_if_dict content new_id new_rev.

End Database.

(** ** [client.Server] *)

Module Server.

Record t : Type := mk {
  session : Session.t;
  url : string
}.

(** [name in server] *)
Definition __contains__ (self : t) (name : string) : M bool :=
try_except
  (_ ← Session.head (session self) [Quoted name];
   mret true)
  HTTPNotFound
  (mret false).

(** [bool(server)]: [__nonzero__], which [__bool__] calls. *)
Definition __nonzero__ (self : t) : M bool := fun w =>
match Session.head (session self) [Added "/"] w with
| (Return _, w') => (Return true, w')
| (Raise e, w') =>
    if is_RequestsException e then (Return false, w') else (Raise e, w')
end.

End Server.

(** ** [query_view] on arguments of any type

    [query_view] hands whatever the caller passes as [key], [keys],
    [startkey], [endkey], [skip], [limit] or [group_level] to [json.dumps],
    and takes the truth value of the flags.  The values above are the ones
    JSON has; a caller can pass others: floats, tuples, dicts whose keys
    are not strings, containers that hold themselves, and objects
    [json.dumps] has no encoding for.  This section is [query_view] again,
    statement by statement, over all of these. *)

(** A float: a finite one is given by [repr], the text [float.__repr__]
    returns for it. *)
Inductive pyfloat : Type :=
| Finite (repr : string)
| NaN
| Infinity (negative : bool).

(** A key of a dict; [KeyOther] is any other hashable object. *)
Inductive pykey : Type :=
| KeyStr (s : string)
| KeyInt (n : Z)
| KeyBool (b : bool)
| KeyNone
| KeyFloat (x : pyfloat)
| KeyOther.

(** [AnyCycle] is a reference, inside a list or dict, to a list or dict
    that encloses it; [AnyObject] is an object of any other type, with the
    truth value [bool] gives it. *)
Inductive pyany : Type :=
| AnyNone
| AnyBool (b : bool)
| AnyInt (n : Z)
| AnyFloat (x : pyfloat)
| AnyStr (s : string)
| AnyList (items : list pyany)
| AnyTuple (items : list pyany)
| AnyDict (entries : list (pykey * pyany))
| AnyCycle
| AnyObject (truth : bool).

(** A JSON-like value among all values. *)
Fixpoint of_pyval (v : pyval) : pyany :=
  match v with
  | PyNone => AnyNone
  | PyBool b => AnyBool b
  | PyInt n => AnyInt n
  | PyStr s => AnyStr s
  | PyList items => AnyList (map of_pyval items)
  | PyDict entries =>
      AnyDict (map (fun kv => (KeyStr (fst kv), of_pyval (snd kv))) entries)
  end.

Module AnyArgs.

(** The keyword arguments of [Database.query_view]. *)
Record t : Type := mk {
  key : pyany;
  keys : pyany;
  startkey : pyany;
  endkey : pyany;
  skip : pyany;
  limit : pyany;
  sorted : pyany;
  descending : pyany;
  group : pyany;
  group_level : pyany;
  reduce : pyany;
  include_docs : pyany;
  update : pyany
}.

Definition of_args (a : ViewArgs.t) : t :=
  mk (of_pyval (ViewArgs.key a)) (of_pyval (ViewArgs.keys a))
     (of_pyval (ViewArgs.startkey a)) (of_pyval (ViewArgs.endkey a))
     (of_pyval (ViewArgs.skip a)) (of_pyval (ViewArgs.limit a))
     (of_pyval (ViewArgs.sorted a)) (of_pyval (ViewArgs.descending a))
     (of_pyval (ViewArgs.group a)) (of_pyval (ViewArgs.group_level a))
     (of_pyval (ViewArgs.reduce a)) (of_pyval (ViewArgs.include_docs a))
     (of_pyval (ViewArgs.update a)).

(** The defaults of the signature. *)
Definition defaults : t := of_args ViewArgs.defaults.

End AnyArgs.

Module Any.

(** [bool(v)]: a float is false when it is zero, whose [repr] is [0.0] or
    [-0.0]. *)
Definition truthy (v : pyany) : bool :=
  match v with
  | AnyNone => false
  | AnyBool b => b
  | AnyInt n => negb (n =? 0)%Z
  | AnyFloat (Finite repr) =>
      negb (String.eqb repr "0.0" || String.eqb repr "-0.0")
  | AnyFloat _ => true
  | AnyStr s => negb (String.eqb s "")
  | AnyList items | AnyTuple items =>
      match items with [] => false | _ => true end
  | AnyDict entries => match entries with [] => false | _ => true end
  | AnyCycle => true
  | AnyObject truth => truth
  end.

(** [v is not None] *)
Definition is_not_None (v : pyany) : bool :=
  match v with AnyNone => false | _ => true end.

(** [json.encoder.floatstr] with [allow_nan=True]. *)
Definition floatstr (x : pyfloat) : string :=
  match x with
  | Finite repr => repr
  | NaN => "NaN"
  | Infinity false => "Infinity"
  | Infinity true => "-Infinity"
  end.

(** The text of a dict key: [json] takes a [str], a float, a bool, [None]
    or an [int], and raises [TypeError] on any other key. *)
Definition key_text (k : pykey) : outcome string :=
  match k with
  | KeyStr s => Return s
  | KeyFloat x => Return (floatstr x)
  | KeyBool true => Return "true"
  | KeyBool false => Return "false"
  | KeyNone => Return "null"
  | KeyInt n => Return (pretty n)
  | KeyOther => Raise TypeError
  end.

(** [json.dumps(v, ensure_ascii=False)]: lists and tuples are written
    alike, items and members are encoded from left to right, a member's key
    before its value, and the first thing that cannot be encoded raises:
    [TypeError] for an object or key without an encoding, [ValueError] for
    a circular reference. *)
Fixpoint dumps (v : pyany) : outcome string :=
  match v with
  | AnyNone => Return "null"
  | AnyBool true => Return "true"
  | AnyBool false => Return "false"
  | AnyInt n => Return (pretty n)
  | AnyFloat x => Return (floatstr x)
  | AnyStr s => Return (dumps_str s)
  | AnyList items | AnyTuple items =>
      parts ← comprehension dumps items;
      Return ("[" +:+ join_comma parts +:+ "]")
  | AnyDict entries =>
      parts ← comprehension
                (fun kv => k ← key_text (fst kv);
                           text ← dumps (snd kv);
                           Return (dumps_str k +:+ ": " +:+ text))
                entries;
      Return ("{" +:+ join_comma parts +:+ "}")
  | AnyCycle => Raise ValueError
  | AnyObject _ => Raise TypeError
  end.

(** [client._jsons(data)] with the default [indent=None]. *)
Definition _jsons (data : pyany) : outcome string := dumps data.

(** [if cond: params[k] = _jsons(v)] *)
Definition setitem_jsons (cond : bool) (k : string) (v : pyany)
    (params : gmap string pyval) : outcome (gmap string pyval) :=
  if cond then text ← _jsons v; Return (<[k := PyStr text]> params)
  else Return params.

(** [update in ["true", "false", "lazy"]], and the string it is then. *)
Definition update_allowed (u : pyany) : option string :=
  match u with
  | AnyStr s =>
      if existsb (String.eqb s) ["true"; "false"; "lazy"] then Some s
      else None
  | _ => None
  end.

(** The [params] dict of [query_view], built in the order of the source. *)
Definition query_view_params (a : AnyArgs.t) : outcome (gmap string pyval) :=
  let params : gmap string pyval := ∅ in
  params ← setitem_jsons (is_not_None (AnyArgs.startkey a))
             "startkey" (AnyArgs.startkey a) params;
  params ← setitem_jsons (is_not_None (AnyArgs.key a))
             "key" (AnyArgs.key a) params;
  params ← setitem_jsons (is_not_None (AnyArgs.keys a))
             "keys" (AnyArgs.keys a) params;
  params ← setitem_jsons (is_not_None (AnyArgs.endkey a))
             "endkey" (AnyArgs.endkey a) params;
  params ← setitem_jsons (is_not_None (AnyArgs.skip a))
             "skip" (AnyArgs.skip a) params;
  params ← setitem_jsons (is_not_None (AnyArgs.limit a))
             "limit" (AnyArgs.limit a) params;
  params ← setitem_jsons (negb (truthy (AnyArgs.sorted a)))
             "sorted" (AnyBool false) params;
  params ← setitem_jsons (truthy (AnyArgs.descending a))
             "descending" (AnyBool true) params;
  params ← setitem_jsons (truthy (AnyArgs.group a))
             "group" (AnyBool true) params;
  params ← setitem_jsons (is_not_None (AnyArgs.group_level a))
             "group_level" (AnyArgs.group_level a) params;
  params ← setitem_jsons (is_not_None (AnyArgs.reduce a))
             "reduce" (AnyBool (truthy (AnyArgs.reduce a))) params;
  params ← setitem_jsons (truthy (AnyArgs.include_docs a))
             "include_docs" (AnyBool true) params;
  params ← setitem_jsons (truthy (AnyArgs.include_docs a))
             "reduce" (AnyBool false) params;
  if is_not_None (AnyArgs.update a) then
    match update_allowed (AnyArgs.update a) with
    | Some s => Return (<["update" := PyStr s]> params)
    | None => Raise AssertionError
    end
  else Return params.

Definition query_view (self : Database.t) (design_doc : option string)
    (view_name : string) (a : AnyArgs.t) : M views.ViewResult :=
  params ← lift (query_view_params a);
  url ← lift (Database.query_view_path self design_doc view_name);
  resp ← Session.get (Database.session self) url params;
  lift (Database.query_view_result (resp_json resp)).

End Any.


(** * Specification-side notions

    The words of the specification as definitions, to compare the code
    with, and the small servers and worlds the examples run in. *)

(** The mapping of status codes to specific kinds, as the specification
    lists it. *)
Definition specific_kind (status_code : Z) : option http_class :=
  if (status_code =? 400)%Z then Some HTTPBadRequest
  else if (status_code =? 401)%Z then Some HTTPUnauthorized
  else if (status_code =? 403)%Z then Some HTTPForbidden
  else if (status_code =? 404)%Z then Some HTTPNotFound
  else if (status_code =? 409)%Z then Some HTTPConflict
  else if (status_code =? 412)%Z then Some HTTPPreconditionFailed
  else None.

(** The response of the specification's example:
    rows [[{id: a, key: 1, value: 10}]], offset 0, total_rows 1. *)
Definition example_view_response : pyval :=
  PyDict [("rows", PyList [PyDict [("id", PyStr "a"); ("key", PyInt 1);
                                   ("value", PyInt 10)]]);
          ("offset", PyInt 0);
          ("total_rows", PyInt 1)].

(** The requests a call adds to the ones already sent. *)
Definition issued {A : Type} (call : M A) (w : world) : list request :=
  drop (length (sent w)) (sent (snd (call w))).

(** A server that answers every request with an empty view result. *)
Definition empty_view_session : Session.t :=
  Session.mk (fun _ =>
    Answered (mkResponse 200 (Some "OK")
                (PyDict [("total_rows", PyInt 0); ("offset", PyInt 0);
                         ("rows", PyList [])]))).

Definition example_db : Database.t := Database.mk empty_view_session "db".

Definition empty_world : world := mkWorld ∅ [].

(** What the server holds under a document id. *)
Inductive doc_state : Type :=
| Absent
| Present (d : pydict).

(** The server's side of the contract: a [GET] of the document's path is
    answered with status 404 when the document is absent and with status
    200 and the document as body when it is present, whatever the query
    parameters. *)
Definition serves (self : Database.t) (id : string) (st : doc_state) : Prop :=
  forall params, exists r,
    Session.base_request (Database.session self)
      (mkRequest "GET" (Database.path self ++ [Segment id]) params None)
    = Answered r /\
    match st with
    | Absent => resp_status_code r = 404
    | Present d => resp_status_code r = 200 /\ resp_json r = PyDict d
    end.

(** A server with one document, [a], in every database. *)
Definition one_doc_session : Session.t :=
  Session.mk (fun req =>
    match req_url req with
    | [Quoted _; Segment id] =>
        if String.eqb id "a"
        then Answered (mkResponse 200 (Some "OK")
                         (PyDict [("_id", PyStr "a"); ("_rev", PyStr "1-x");
                                  ("type", PyStr "A")]))
        else Answered (mkResponse 404 (Some "Object Not Found")
                         (PyDict [("error", PyStr "not_found");
                                  ("reason", PyStr "missing")]))
    | _ => Failed
    end).

(** The element of the returned list the specification expects for one
    report [r] of the server: a report with an [error] field is a failure,
    an update conflict when the error says so; any other report is a
    success carrying the new revision. *)
Definition expected_result (r : pydict) : option (bool * pyval * rev_or_exc) :=
  match dict_lookup "error" r with
  | Some error =>
      id ← dict_lookup "id" r;
      reason ← dict_lookup "reason" r;
      Some (false, id, Exc (if is_str "conflict" error then UpdateConflict reason
                            else CouchDBException reason))
  | None =>
      id ← dict_lookup "id" r;
      rev ← dict_lookup "rev" r;
      Some (true, id, Rev rev)
  end.

(** The input object after the report [r]: a dict whose update succeeded
    has its [_id] and [_rev] set, every other object is as it was. *)
Definition expected_object (r : pydict) (o : pyobj) : pyobj :=
  match dict_lookup "error" r, o with
  | None, DictObj d =>
      DictObj (dict_set "_rev" (dict_get "rev" r)
                 (dict_set "_id" (dict_get "id" r) d))
  | _, _ => o
  end.

Definition expected_heap (pairs : list (loc * pydict)) (h : gmap loc pyobj)
    : gmap loc pyobj :=
  foldl (fun h p => alter (expected_object (snd p)) (fst p) h) h pairs.

(** The server's side of a bulk update: the [POST] to [_bulk_docs] is
    answered, with a status that is no error, by the list [data] of
    reports. *)
Definition reports (self : Database.t) (data : list pydict) : Prop :=
  forall payload, exists r,
    Session.base_request (Database.session self)
      (mkRequest "POST" (Database.path self ++ [Added "_bulk_docs"]) ∅
                 (Some payload))
    = Answered r /\
    Session.is_error_status (resp_status_code r) = false /\
    resp_json r = PyList (PyDict <$> data).

(** A server that answers every request with the reports [data]. *)
Definition bulk_session (data : list pydict) : Session.t :=
  Session.mk (fun _ =>
    Answered (mkResponse 201 (Some "Created") (PyList (PyDict <$> data)))).

Definition report_ok (id rev : string) : pydict :=
  [("ok", PyBool true); ("id", PyStr id); ("rev", PyStr rev)].

Definition report_conflict (id : string) : pydict :=
  [("id", PyStr id); ("error", PyStr "conflict");
   ("reason", PyStr "Document update conflict.")].

(** [s] contains a slash. *)
Fixpoint has_slash (s : string) : bool :=
  match s with
  | EmptyString => false
  | String c rest => Ascii.eqb c slash || has_slash rest
  end.

(** ["/".join(parts)] *)
Fixpoint join_slash (parts : list string) : string :=
  match parts with
  | [] => ""
  | [p] => p
  | p :: rest => p +:+ String slash (join_slash rest)
  end.

(** The object at [doc] is one [update] accepts: a dict or an object with
    [items()]. *)
Definition is_document (h : gmap loc pyobj) (doc : loc) : bool :=
  match h !! doc with
  | Some (DictObj _) | Some (ItemsObj _) => true
  | _ => false
  end.

(** The names [query_view] may send, and what it is for a [params] dict to
    hold only those names, each with a string. *)
Definition view_param_names : list string :=
  ["startkey"; "key"; "keys"; "endkey"; "skip"; "limit"; "sorted";
   "descending"; "group"; "group_level"; "reduce"; "include_docs"; "update"].

Definition string_params (params : gmap string pyval) : Prop :=
  forall k v, params !! k = Some v ->
              k ∈ view_param_names /\ exists s, v = PyStr s.

(** What a call makes of the transport's answer when it sends one request,
    handles [HTTPNotFound] with [handler] and continues with [k] on a
    response. *)
Definition not_found_handled {A : Type} (self : Session.t) (req : request)
    (k : response -> outcome A) (handler : outcome A) : outcome A :=
  match Session.base_request self req with
  | Answered r =>
      if (resp_status_code r =? 404)%Z then handler
      else if Session.is_error_status (resp_status_code r)
      then Raise (http_error_lookup (resp_status_code r) (resp_reason r))
      else k r
  | TimedOut => Raise Timeout
  | Failed => Raise RequestsException
  end.

(** A computation that sends nothing. *)
Definition keeps_sent {A : Type} (c : M A) : Prop :=
  forall w, sent (snd (c w)) = sent w.

(** The JSON object [update] puts into its payload for the object [o]. *)
Definition payload_of (o : option pyobj) (json : pyval) : Prop :=
  match o with
  | Some (DictObj d) => json = PyDict d
  | Some (ItemsObj items) => json = PyDict (dict_of_items items)
  | _ => False
  end.

(** ** Reading JSON

    A reader for JSON texts, written from the grammar of RFC 8259 and not
    from [dumps]: what a server that parses a parameter as JSON makes of
    it.  A number with a fraction or an exponent is read as the float with
    that text; an escape [\uXXXX] is read when it stands for one of the 256
    characters a string here can hold. *)

Definition dquote : ascii := ascii_of_N 34.
Definition backslash : ascii := ascii_of_N 92.

Definition is_ws (c : ascii) : bool :=
  let n := N_of_ascii c in
  ((n =? 32) || (n =? 9) || (n =? 10) || (n =? 13))%N.

Fixpoint skip_ws (s : string) : string :=
  match s with
  | String c rest => if is_ws c then skip_ws rest else s
  | EmptyString => s
  end.

Fixpoint strip_prefix (p s : string) : option string :=
  match p, s with
  | EmptyString, _ => Some s
  | String a p', String b s' => if Ascii.eqb a b then strip_prefix p' s' else None
  | String _ _, EmptyString => None
  end.

Definition is_digit (c : ascii) : bool :=
  ((48 <=? N_of_ascii c) && (N_of_ascii c <=? 57))%N.

Definition digit_value (c : ascii) : N := (N_of_ascii c - 48)%N.

Fixpoint read_digits (acc : N) (s : string) : N * string :=
  match s with
  | String c rest =>
      if is_digit c then read_digits (acc * 10 + digit_value c) rest
      else (acc, s)
  | EmptyString => (acc, s)
  end.

(** The integer part of a number: [0], or a digit that is not [0] and the
    digits that follow it. *)
Definition read_nat (s : string) : option (N * string) :=
  match s with
  | String c rest =>
      if Ascii.eqb c "0" then Some (0%N, rest)
      else if is_digit c then Some (read_digits 0 s)
      else None
  | EmptyString => None
  end.

(** The digits [s] starts with, and the rest. *)
Fixpoint take_digits (s : string) : string * string :=
  match s with
  | String c rest =>
      if is_digit c
      then let (digits, rest') := take_digits rest in (String c digits, rest')
      else ("", s)
  | EmptyString => ("", s)
  end.

(** The fraction of a number, if there is one: a point and at least one
    digit. *)
Definition read_frac (s : string) : option (string * string) :=
  match s with
  | String c rest =>
      if Ascii.eqb c "." then
        match take_digits rest with
        | (EmptyString, _) => None
        | (digits, rest') => Some (String c digits, rest')
        end
      else Some ("", s)
  | EmptyString => Some ("", s)
  end.

(** The exponent of a number, if there is one: [e] or [E], a sign or
    none, and at least one digit. *)
Definition read_exp (s : string) : option (string * string) :=
  match s with
  | String c rest =>
      if Ascii.eqb c "e" || Ascii.eqb c "E" then
        let (sign, rest1) :=
          match rest with
          | String d rest' =>
              if Ascii.eqb d "+" || Ascii.eqb d "-"
              then (String d "", rest') else ("", rest)
          | EmptyString => ("", rest)
          end in
        match take_digits rest1 with
        | (EmptyString, _) => None
        | (digits, rest2) => Some (String c (sign +:+ digits), rest2)
        end
      else Some ("", s)
  | EmptyString => Some ("", s)
  end.

(** A number after its sign: an integer when it has neither fraction nor
    exponent. *)
Definition read_unsigned (negative : bool) (s : string)
    : option (pyany * string) :=
  match read_nat s with
  | Some (n, s2) =>
      match read_frac s2 with
      | Some (frac, s3) =>
          match read_exp s3 with
          | Some (exp, s4) =>
              match frac, exp with
              | EmptyString, EmptyString =>
                  Some (AnyInt (if negative then - Z.of_N n else Z.of_N n), s4)
              | _, _ =>
                  Some (AnyFloat
                          (Finite ((if negative then "-" else "") +:+
                                   pretty n +:+ frac +:+ exp)), s4)
              end
          | None => None
          end
      | None => None
      end
  | None => None
  end.

Definition read_number (s : string) : option (pyany * string) :=
  match s with
  | String c rest =>
      if Ascii.eqb c "-" then read_unsigned true rest
      else read_unsigned false s
  | EmptyString => None
  end.

Definition hex_value (c : ascii) : option N :=
  let n := N_of_ascii c in
  if ((48 <=? n) && (n <=? 57))%N then Some (n - 48)%N
  else if ((97 <=? n) && (n <=? 102))%N then Some (n - 87)%N
  else if ((65 <=? n) && (n <=? 70))%N then Some (n - 55)%N
  else None.

(** The character four hexadecimal digits stand for, when it is below
    256. *)
Definition read_hex4 (a b c d : ascii) : option ascii :=
  match hex_value a, hex_value b, hex_value c, hex_value d with
  | Some x, Some y, Some z, Some t =>
      let n := (((x * 16 + y) * 16 + z) * 16 + t)%N in
      if (n <? 256)%N then Some (ascii_of_N n) else None
  | _, _, _, _ => None
  end.

Definition push (c : ascii) (r : option (string * string))
    : option (string * string) :=
  match r with
  | Some (s, rest) => Some (String c s, rest)
  | None => None
  end.

(** The characters of a string literal after its opening quote, up to the
    closing quote, and what follows that. *)
Fixpoint read_chars (s : string) : option (string * string) :=
  match s with
  | EmptyString => None
  | String c rest =>
      if Ascii.eqb c dquote then Some (EmptyString, rest)
      else if Ascii.eqb c backslash then
        match rest with
        | String e rest1 =>
            if Ascii.eqb e dquote then push dquote (read_chars rest1)
            else if Ascii.eqb e backslash then push backslash (read_chars rest1)
            else if Ascii.eqb e "/" then push "/" (read_chars rest1)
            else if Ascii.eqb e "b" then push (ascii_of_N 8) (read_chars rest1)
            else if Ascii.eqb e "f" then push (ascii_of_N 12) (read_chars rest1)
            else if Ascii.eqb e "n" then push (ascii_of_N 10) (read_chars rest1)
            else if Ascii.eqb e "r" then push (ascii_of_N 13) (read_chars rest1)
            else if Ascii.eqb e "t" then push (ascii_of_N 9) (read_chars rest1)
            else if Ascii.eqb e "u" then
              match rest1 with
              | String h1 (String h2 (String h3 (String h4 rest2))) =>
                  match read_hex4 h1 h2 h3 h4 with
                  | Some x => push x (read_chars rest2)
                  | None => None
                  end
              | _ => None
              end
            else None
        | EmptyString => None
        end
      else if (N_of_ascii c <? 32)%N then None
      else push c (read_chars rest)
  end.

(** A value, the items of an array after its bracket, the members of an
    object after its brace; [fuel] bounds the number of values read. *)
Fixpoint read_value (fuel : nat) (s : string) {struct fuel}
    : option (pyany * string) :=
  match fuel with
  | O => None
  | S fuel =>
      match s with
      | EmptyString => None
      | String c rest =>
          if Ascii.eqb c "n" then
            match strip_prefix "ull" rest with
            | Some rest' => Some (AnyNone, rest')
            | None => None
            end
          else if Ascii.eqb c "t" then
            match strip_prefix "rue" rest with
            | Some rest' => Some (AnyBool true, rest')
            | None => None
            end
          else if Ascii.eqb c "f" then
            match strip_prefix "alse" rest with
            | Some rest' => Some (AnyBool false, rest')
            | None => None
            end
          else if Ascii.eqb c dquote then
            match read_chars rest with
            | Some (str, rest') => Some (AnyStr str, rest')
            | None => None
            end
          else if Ascii.eqb c "[" then
            match skip_ws rest with
            | String c' rest' =>
                if Ascii.eqb c' "]" then Some (AnyList [], rest')
                else match read_items fuel (skip_ws rest) with
                     | Some (items, rest'') => Some (AnyList items, rest'')
                     | None => None
                     end
            | EmptyString => None
            end
          else if Ascii.eqb c "{" then
            match skip_ws rest with
            | String c' rest' =>
                if Ascii.eqb c' "}" then Some (AnyDict [], rest')
                else match read_members fuel (skip_ws rest) with
                     | Some (entries, rest'') => Some (AnyDict entries, rest'')
                     | None => None
                     end
            | EmptyString => None
            end
          else read_number s
      end
  end
with read_items (fuel : nat) (s : string) {struct fuel}
    : option (list pyany * string) :=
  match fuel with
  | O => None
  | S fuel =>
      match read_value fuel s with
      | Some (v, rest) =>
          match skip_ws rest with
          | String c rest' =>
              if Ascii.eqb c "," then
                match read_items fuel (skip_ws rest') with
                | Some (vs, rest'') => Some (v :: vs, rest'')
                | None => None
                end
              else if Ascii.eqb c "]" then Some ([v], rest')
              else None
          | EmptyString => None
          end
      | None => None
      end
  end
with read_members (fuel : nat) (s : string) {struct fuel}
    : option (list (pykey * pyany) * string) :=
  match fuel with
  | O => None
  | S fuel =>
      match s with
      | String q rest =>
          if Ascii.eqb q dquote then
            match read_chars rest with
            | Some (k, rest1) =>
                match skip_ws rest1 with
                | String c1 rest2 =>
                    if Ascii.eqb c1 ":" then
                      match read_value fuel (skip_ws rest2) with
                      | Some (v, rest3) =>
                          match skip_ws rest3 with
                          | String c3 rest4 =>
                              if Ascii.eqb c3 "," then
                                match read_members fuel (skip_ws rest4) with
                                | Some (kvs, rest5) =>
                                    Some ((KeyStr k, v) :: kvs, rest5)
                                | None => None
                                end
                              else if Ascii.eqb c3 "}"
                              then Some ([(KeyStr k, v)], rest4)
                              else None
                          | EmptyString => None
                          end
                      | None => None
                      end
                    else None
                | EmptyString => None
                end
            | None => None
            end
          else None
      | EmptyString => None
      end
  end.

(** The value a JSON text stands for; [None] when the text is not JSON. *)
Definition read_json (text : string) : option pyany :=
  match read_value (S (String.length text)) (skip_ws text) with
  | Some (v, rest) =>
      match skip_ws rest with
      | EmptyString => Some v
      | String _ _ => None
      end
  | None => None
  end.

(** The value a reader of JSON gets back: a tuple comes back as a list and
    a dict key as a string, the decimal numeral for an [int], [true],
    [false] or [null] for a bool or [None], and for a float the text written
    for it. *)
Definition as_key (k : pykey) : pykey :=
  match k with
  | KeyStr s => KeyStr s
  | KeyInt n => KeyStr (pretty n)
  | KeyBool true => KeyStr "true"
  | KeyBool false => KeyStr "false"
  | KeyNone => KeyStr "null"
  | KeyFloat (Finite repr) => KeyStr repr
  | KeyFloat NaN => KeyStr "NaN"
  | KeyFloat (Infinity false) => KeyStr "Infinity"
  | KeyFloat (Infinity true) => KeyStr "-Infinity"
  | KeyOther => KeyOther
  end.

Fixpoint as_json (v : pyany) : pyany :=
  match v with
  | AnyList items | AnyTuple items => AnyList (map as_json items)
  | AnyDict entries =>
      AnyDict (map (fun kv => (as_key (fst kv), as_json (snd kv))) entries)
  | _ => v
  end.

(** The text [float.__repr__] gives a finite float is a number with a
    fraction or an exponent. *)
Definition is_float_text (repr : string) : bool :=
  match read_number repr with
  | Some (AnyFloat (Finite text), EmptyString) => String.eqb text repr
  | _ => false
  end.

Definition is_finite (x : pyfloat) : bool :=
  match x with
  | Finite repr => is_float_text repr
  | _ => false
  end.

(** No float in [v], at any depth, is a NaN or an infinity. *)
Fixpoint finite_floats (v : pyany) : bool :=
  match v with
  | AnyFloat x => is_finite x
  | AnyList items | AnyTuple items => forallb finite_floats items
  | AnyDict entries => forallb (fun kv => finite_floats (snd kv)) entries
  | _ => true
  end.

(** What may follow a number: nothing, or a character that cannot
    continue it. *)
Definition number_end (rest : string) : Prop :=
  match rest with
  | String c _ =>
      is_digit c = false /\ Ascii.eqb c "." = false /\
      Ascii.eqb c "e" = false /\ Ascii.eqb c "E" = false
  | EmptyString => True
  end.

(** A part of a number was read up to [left] for a reason that adding
    [rest] at the end does not change. *)
Definition stops (left rest : string) : Prop :=
  match left with
  | EmptyString => number_end rest
  | String _ _ => True
  end.

(** The first character of a value, as [dumps] writes it: no white space
    and no closing bracket. *)
Definition value_start (s : string) : Prop :=
  match s with
  | String c _ =>
      is_ws c = false /\ Ascii.eqb c "]" = false /\ Ascii.eqb c "}" = false
  | EmptyString => False
  end.

(** [text], followed by anything that may follow a number, reads as [v]. *)
Definition reads_as (text : string) (v : pyany) : Prop :=
  forall fuel rest,
    (String.length text < fuel)%nat -> number_end rest ->
    read_value fuel (text +:+ rest) = Some (v, rest).

(** One member of a dict, as [dumps] writes it. *)
Definition dumps_member (kv : pykey * pyany) : outcome string :=
  k ← Any.key_text (fst kv);
  text ← Any.dumps (snd kv);
  Return (dumps_str k +:+ ": " +:+ text).

(** What [dumps] writes for [v], when it has only finite floats, reads as
    [as_json v]. *)
Definition reads_back (v : pyany) : Prop :=
  forall text,
    Any.dumps v = Return text -> finite_floats v = true ->
    reads_as text (as_json v).

(** * Properties *)

(** ** Dictionaries *)

Lemma dict_lookup_set_eq (k : string) (v : pyval) (d : pydict) :
  dict_lookup k (dict_set k v d) = Some v.
Proof.
  induction d as [|[k' v'] rest IH]; simpl.
  - by rewrite String.eqb_refl.
  - destruct (String.eqb k k') eqn:E; simpl.
    + by rewrite String.eqb_refl.
    + by rewrite E.
Qed.

Lemma dict_lookup_set_ne (k k' : string) (v : pyval) (d : pydict) :
  k ≠ k' -> dict_lookup k' (dict_set k v d) = dict_lookup k' d.
Proof.
  intros Hne. induction d as [|[k0 v0] rest IH]; simpl.
  - destruct (String.eqb_spec k' k); [congruence | done].
  - destruct (String.eqb_spec k k0) as [->|Hk]; simpl.
    + destruct (String.eqb_spec k' k0); [congruence | done].
    + by rewrite IH.
Qed.

(** ** The error taxonomy *)

Lemma _http_error_lookup_specific (status_code : Z) :
  _http_error_lookup !! status_code = specific_kind status_code.
Proof.
  unfold _http_error_lookup, specific_kind; simpl.
  repeat match goal with
  | |- context [(status_code =? ?c)%Z] =>
      destruct (Z.eqb_spec status_code c) as [->|?]; [by vm_compute|]
  end.
  by rewrite !lookup_insert_ne, lookup_empty by done.
Qed.

Lemma specific_kind_status_code (status_code : Z) (cls : http_class) :
  specific_kind status_code = Some cls -> class_status_code cls = Some status_code.
Proof.
  unfold specific_kind.
  repeat match goal with
  | |- context [(status_code =? ?c)%Z] =>
      destruct (Z.eqb_spec status_code c) as [->|?]; [by intros [= <-]|]
  end.
  done.
Qed.

Lemma http_error_lookup_specific (status_code : Z) (cls : http_class)
    (message : option string) :
  specific_kind status_code = Some cls ->
  exists m, class_default_message cls = Some m /\ m <> "" /\
            http_error_lookup status_code message = HTTPExn cls status_code m.
Proof.
  intros Hk. unfold http_error_lookup.
  rewrite _http_error_lookup_specific, Hk.
  unfold subclass_new. rewrite (specific_kind_status_code _ _ Hk).
  destruct cls; simpl; try (by apply specific_kind_status_code in Hk);
    eexists; (split; [reflexivity|]); split; done.
Qed.

Lemma http_error_lookup_generic (status_code : Z) (message : option string) :
  specific_kind status_code = None ->
  http_error_lookup status_code message
  = HTTPExn HTTPError status_code (message_or_default status_code message).
Proof.
  intros Hk. unfold http_error_lookup.
  by rewrite _http_error_lookup_specific, Hk.
Qed.

(** C2, as stated, fails: a generic error does not carry a supplied message
    that is the empty string.  Status 500 is outside the six mapped codes,
    and with the reason [""] the error's message is the default text. *)
Lemma http_error_lookup_empty_message_replaced :
  specific_kind 500 = None /\
  http_error_lookup 500 (Some "") = HTTPExn HTTPError 500 "HTTP error 500" /\
  exn_message (http_error_lookup 500 (Some "")) <> Some "".
Proof. by vm_compute. Qed.

(** C2, amended: each of the codes 400, 401, 403, 404, 409, 412 gives an
    error of its specific kind with that status code; every other code gives
    a generic [HTTPError] with exactly that code, whose message is the
    supplied one when that is a non-empty string and ["HTTP error <code>"]
    when no message or an empty one is supplied. *)
Theorem http_error_lookup_taxonomy (status_code : Z) (message : option string) :
  let e := http_error_lookup status_code message in
  match specific_kind status_code with
  | Some cls => exn_class e = Some cls /\ exn_status_code e = Some status_code
  | None =>
      exn_class e = Some HTTPError /\ exn_status_code e = Some status_code /\
      exn_message e
      = Some (match message with
              | Some m => if decide (m = "") then "HTTP error " +:+ pretty status_code
                          else m
              | None => "HTTP error " +:+ pretty status_code
              end)
  end.
Proof.
  simpl. destruct (specific_kind status_code) as [cls|] eqn:Hk.
  - destruct (http_error_lookup_specific _ _ message Hk) as (m & _ & _ & ->).
    done.
  - rewrite (http_error_lookup_generic _ _ Hk). simpl. repeat split.
    destruct message as [m|]; simpl; [|done].
    destruct (String.eqb_spec m ""), (decide (m = "")); congruence.
Qed.

Lemma http_error_lookup_404 (message : option string) :
  http_error_lookup 404 message = HTTPExn HTTPNotFound 404 "Not Found".
Proof. by vm_compute. Qed.

(** C9: for each of the six mapped codes the returned error carries the
    fixed default message of its class whatever reason is supplied (404
    always says ["Not Found"]), while for a code outside the set a supplied
    non-empty reason is the message of the error. *)
Theorem http_error_lookup_discards_reason (message : option string) :
  http_error_lookup 400 message = HTTPExn HTTPBadRequest 400 "Bad Request" /\
  http_error_lookup 401 message = HTTPExn HTTPUnauthorized 401 "Unauthorized" /\
  http_error_lookup 403 message = HTTPExn HTTPForbidden 403 "Forbidden" /\
  http_error_lookup 404 message = HTTPExn HTTPNotFound 404 "Not Found" /\
  http_error_lookup 409 message = HTTPExn HTTPConflict 409 "Conflict" /\
  http_error_lookup 412 message
  = HTTPExn HTTPPreconditionFailed 412 "Precondition failed" /\
  (forall status_code reason,
     specific_kind status_code = None -> reason <> "" ->
     exn_message (http_error_lookup status_code (Some reason)) = Some reason).
Proof.
  repeat split; try by vm_compute.
  intros status_code reason Hk Hne.
  rewrite (http_error_lookup_generic _ _ Hk). simpl.
  by destruct (String.eqb_spec reason "").
Qed.

(** ** Decoding a view response *)

(** A row that is a JSON object never decodes: [views.Row] has four fields
    and [decode_row] calls it with five arguments. *)
Lemma decode_row_dict_raises (entries : pydict) :
  Database.decode_row (PyDict entries) = Raise TypeError.
Proof. reflexivity. Qed.

(** C1: on the example response the decoder of [query_view] raises
    [TypeError] at the first row instead of returning a [ViewResult] with
    one [Row]; only a response without rows decodes. *)
Theorem query_view_result_example_raises :
  Database.query_view_result example_view_response = Raise TypeError /\
  Database.query_view_result
    (PyDict [("rows", PyList []); ("offset", PyInt 0); ("total_rows", PyInt 0)])
  = Return (views.mkViewResult [] (PyInt 0) (PyInt 0)).
Proof. split; reflexivity. Qed.

(** ** Documents *)

(** C10: a document without the key [_id] has [id] equal to [None], one
    without [_rev] has [rev] equal to [None], and neither property raises
    [KeyError] (or anything else) on any document. *)
Theorem document_id_rev_absent (self : pydict) :
  (dict_lookup "_id" self = None -> Document.id self = Return PyNone) /\
  (dict_lookup "_rev" self = None -> Document.rev self = Return PyNone) /\
  (forall e, Document.id self <> Raise e /\ Document.rev self <> Raise e).
Proof.
  unfold Document.id, Document.rev, dict_get. repeat split; try done.
  - by intros ->.
  - by intros ->.
Qed.

(** ** Query parameters of [query_view] *)

Lemma lookup_setitem_if (cond : bool) (k k' : string) (v : pyval)
    (params : gmap string pyval) :
  Database.setitem_if cond k v params !! k'
  = if String.eqb k k' && cond then Some v else params !! k'.
Proof.
  unfold Database.setitem_if.
  destruct (String.eqb_spec k k') as [->|Hne], cond; simpl; try done.
  - apply lookup_insert_eq.
  - by apply lookup_insert_ne.
Qed.

(** What [query_view_params] returns, one key at a time. *)
Lemma query_view_params_lookup (a : ViewArgs.t) (params : gmap string pyval)
    (k : string) :
  Database.query_view_params a = Return params ->
  params !! k
  = if String.eqb "update" k && is_not_None (ViewArgs.update a)
    then Some (ViewArgs.update a)
    else if String.eqb "reduce" k && truthy (ViewArgs.include_docs a)
    then Some (PyStr "false")
    else if String.eqb "include_docs" k && truthy (ViewArgs.include_docs a)
    then Some (PyStr "true")
    else if String.eqb "reduce" k && is_not_None (ViewArgs.reduce a)
    then Some (Database.jsons (PyBool (truthy (ViewArgs.reduce a))))
    else if String.eqb "group_level" k && is_not_None (ViewArgs.group_level a)
    then Some (Database.jsons (ViewArgs.group_level a))
    else if String.eqb "group" k && truthy (ViewArgs.group a)
    then Some (PyStr "true")
    else if String.eqb "descending" k && truthy (ViewArgs.descending a)
    then Some (PyStr "true")
    else if String.eqb "sorted" k && negb (truthy (ViewArgs.sorted a))
    then Some (PyStr "false")
    else if String.eqb "limit" k && is_not_None (ViewArgs.limit a)
    then Some (Database.jsons (ViewArgs.limit a))
    else if String.eqb "skip" k && is_not_None (ViewArgs.skip a)
    then Some (Database.jsons (ViewArgs.skip a))
    else if String.eqb "endkey" k && is_not_None (ViewArgs.endkey a)
    then Some (Database.jsons (ViewArgs.endkey a))
    else if String.eqb "keys" k && is_not_None (ViewArgs.keys a)
    then Some (Database.jsons (ViewArgs.keys a))
    else if String.eqb "key" k && is_not_None (ViewArgs.key a)
    then Some (Database.jsons (ViewArgs.key a))
    else if String.eqb "startkey" k && is_not_None (ViewArgs.startkey a)
    then Some (Database.jsons (ViewArgs.startkey a))
    else None.
Proof.
  unfold Database.query_view_params.
  destruct (is_not_None (ViewArgs.update a)) eqn:Hu.
  - destruct (Database.update_allowed (ViewArgs.update a)); [|done].
    intros [= <-]. rewrite andb_true_r.
    destruct (String.eqb_spec "update" k) as [<-|Hne].
    + apply lookup_insert_eq.
    + rewrite lookup_insert_ne by done.
      by rewrite !lookup_setitem_if, lookup_empty.
  - intros [= <-]. rewrite andb_false_r.
    by rewrite !lookup_setitem_if, lookup_empty.
Qed.

(** [query_view_params] raises only through the [assert] on [update]. *)
Lemma query_view_params_returns (a : ViewArgs.t) :
  ViewArgs.update a = PyNone \/ Database.update_allowed (ViewArgs.update a) = true ->
  exists params, Database.query_view_params a = Return params.
Proof.
  unfold Database.query_view_params. intros [->| ->]; simpl.
  - eauto.
  - destruct (is_not_None _); eauto.
Qed.

(** ** What a call sends *)

Lemma request_world (self : Session.t) (req : request) (w : world) :
  snd (Session.request self req w) = mkWorld (heap w) (sent w ++ [req]).
Proof.
  unfold Session.request.
  destruct (Session.base_request self req) as [r| |]; try done.
  by destruct (Session.is_error_status _).
Qed.

Lemma query_view_world (self : Database.t) (design_doc : option string)
    (view_name : string) (a : ViewArgs.t) (w : world) :
  snd (Database.query_view self design_doc view_name a w)
  = match Database.query_view_params a,
          Database.query_view_path self design_doc view_name with
    | Return params, Return url =>
        mkWorld (heap w) (sent w ++ [mkRequest "GET" url params None])
    | _, _ => w
    end.
Proof.
  unfold Database.query_view, mbind, M_bind, lift; simpl.
  destruct (Database.query_view_params a) as [params|e]; [|done].
  destruct (Database.query_view_path self design_doc view_name) as [url|e];
    [|done].
  unfold Session.get.
  pose proof (request_world (Database.session self)
                (mkRequest "GET" url params None) w) as Hw.
  destruct (Session.request _ _ w) as [[resp|e] w']; simpl in *; by subst.
Qed.

Lemma query_view_issued (self : Database.t) (design_doc : option string)
    (view_name : string) (a : ViewArgs.t) (w : world) :
  issued (Database.query_view self design_doc view_name a) w
  = match Database.query_view_params a,
          Database.query_view_path self design_doc view_name with
    | Return params, Return url => [mkRequest "GET" url params None]
    | _, _ => []
    end.
Proof.
  unfold issued. rewrite query_view_world.
  destruct (Database.query_view_params a) as [params|e];
    [destruct (Database.query_view_path self design_doc view_name) as [url|e]|];
    simpl.
  - by rewrite drop_app_length.
  - by rewrite drop_all.
  - by rewrite drop_all.
Qed.

Lemma query_view_issued_params (self : Database.t) (design_doc : option string)
    (view_name : string) (a : ViewArgs.t) (w : world) (req : request) :
  req ∈ issued (Database.query_view self design_doc view_name a) w ->
  Database.query_view_params a = Return (req_params req).
Proof.
  rewrite query_view_issued.
  destruct (Database.query_view_params a) as [params|e];
    [destruct (Database.query_view_path self design_doc view_name) as [url|e]|];
    intros Hin; try by apply elem_of_nil in Hin.
  by apply list_elem_of_singleton in Hin as ->.
Qed.

(** C3: when [include_docs] is truthy, every request [query_view] sends
    carries [reduce=false] and [include_docs=true], whatever [reduce] the
    caller passed. *)
Theorem query_view_include_docs_forces_reduce_false (self : Database.t)
    (design_doc : option string) (view_name : string) (a : ViewArgs.t)
    (w : world) (req : request) :
  truthy (ViewArgs.include_docs a) = true ->
  req ∈ issued (Database.query_view self design_doc view_name a) w ->
  req_params req !! "reduce" = Some (PyStr "false") /\
  req_params req !! "include_docs" = Some (PyStr "true").
Proof.
  intros Hdocs Hreq. apply query_view_issued_params in Hreq.
  rewrite !(query_view_params_lookup _ _ _ Hreq), Hdocs. simpl.
  split; by destruct (is_not_None (ViewArgs.update a)).
Qed.

(** [query_view("_all_docs", reduce=True, include_docs=True)] sends one
    request, and that one says [reduce=false]. *)
Lemma query_view_include_docs_forces_reduce_false_witness :
  let a := ViewArgs.mk PyNone PyNone PyNone PyNone PyNone PyNone (PyBool true)
             (PyBool false) (PyBool false) PyNone (PyBool true) (PyBool true)
             PyNone in
  let sent := issued (Database.query_view example_db None "_all_docs" a)
                empty_world in
  length sent = 1%nat /\
  Forall (fun req => req_params req !! "reduce" = Some (PyStr "false") /\
                     req_params req !! "include_docs" = Some (PyStr "true")) sent.
Proof.
  split; [reflexivity|].
  apply Forall_forall. intros req Hreq.
  eapply query_view_include_docs_forces_reduce_false; [|exact Hreq].
  reflexivity.
Defined.

(** C4, as stated, fails: passing [descending=False] and [group=False]
    explicitly sends neither [descending=false] nor [group=false]; both
    parameters are left out. *)
Lemma query_view_explicit_false_flags_omitted :
  let a := ViewArgs.mk PyNone PyNone PyNone PyNone PyNone PyNone (PyBool true)
             (PyBool false) (PyBool false) PyNone PyNone (PyBool false) PyNone in
  (params ← Database.query_view_params a;
   Return (params !! "descending", params !! "group"))
  = Return (None, None) /\
  issued (Database.query_view example_db None "_all_docs" a) empty_world
  = [mkRequest "GET" [Quoted "db"; Added "_all_docs"] ∅ None].
Proof. split; reflexivity. Qed.

(** C4, amended: in every request [query_view] sends, [descending] and
    [group] are present, as [true], exactly when the argument is truthy;
    [sorted] is present, as [false], exactly when the argument is falsy;
    [include_docs] is present, as [true], exactly when the argument is
    truthy; and [reduce] is [false] when [include_docs] is truthy, otherwise
    the JSON boolean of its truth value when it is not [None], otherwise
    absent. *)
Theorem query_view_boolean_flags (self : Database.t) (design_doc : option string)
    (view_name : string) (a : ViewArgs.t) (w : world) (req : request) :
  req ∈ issued (Database.query_view self design_doc view_name a) w ->
  req_params req !! "descending"
  = (if truthy (ViewArgs.descending a) then Some (PyStr "true") else None) /\
  req_params req !! "group"
  = (if truthy (ViewArgs.group a) then Some (PyStr "true") else None) /\
  req_params req !! "sorted"
  = (if truthy (ViewArgs.sorted a) then None else Some (PyStr "false")) /\
  req_params req !! "include_docs"
  = (if truthy (ViewArgs.include_docs a) then Some (PyStr "true") else None) /\
  req_params req !! "reduce"
  = (if truthy (ViewArgs.include_docs a) then Some (PyStr "false")
     else match ViewArgs.reduce a with
          | PyNone => None
          | v => Some (PyStr (if truthy v then "true" else "false"))
          end).
Proof.
  intros Hreq. apply query_view_issued_params in Hreq.
  rewrite !(query_view_params_lookup _ _ _ Hreq). simpl.
  destruct (is_not_None (ViewArgs.update a)); simpl;
    destruct (truthy (ViewArgs.include_docs a)); simpl;
    repeat split;
    try (by destruct (truthy (ViewArgs.descending a)));
    try (by destruct (truthy (ViewArgs.group a)));
    try (by destruct (truthy (ViewArgs.sorted a)));
    destruct (ViewArgs.reduce a) as [|[]|n|s|l|d]; simpl; try done;
    unfold Database.jsons, _jsons; simpl;
    match goal with |- context [if ?c then _ else _] => by destruct c end.
Qed.

(** [query_view("_all_docs", sorted=False, descending=True, reduce=0)] sends
    [sorted=false], [descending=true], [reduce=false] and no [group]. *)
Lemma query_view_boolean_flags_witness :
  let a := ViewArgs.mk PyNone PyNone PyNone PyNone PyNone PyNone (PyBool false)
             (PyBool true) (PyBool false) PyNone (PyInt 0) (PyBool false)
             PyNone in
  let sent := issued (Database.query_view example_db None "_all_docs" a)
                empty_world in
  length sent = 1%nat /\
  Forall (fun req =>
            req_params req !! "descending" = Some (PyStr "true") /\
            req_params req !! "group" = None /\
            req_params req !! "sorted" = Some (PyStr "false") /\
            req_params req !! "include_docs" = None /\
            req_params req !! "reduce" = Some (PyStr "false")) sent.
Proof.
  split; [reflexivity|].
  apply Forall_forall. intros req Hreq.
  exact (query_view_boolean_flags example_db None "_all_docs" _ empty_world req
           Hreq).
Defined.

(** ** Strings

    stdpp keeps [+:+] from reducing under [simpl]; these are its
    equations. *)

Lemma string_app_cons (x : ascii) (a b : string) :
  String x a +:+ b = String x (a +:+ b).
Proof. reflexivity. Qed.

Lemma string_app_nil (b : string) : "" +:+ b = b.
Proof. reflexivity. Qed.

Lemma string_app_nil_r (a : string) : a +:+ "" = a.
Proof.
  induction a as [|x a IH]; [done|]. by rewrite string_app_cons, IH.
Qed.

Lemma string_app_assoc (a b c : string) : (a +:+ b) +:+ c = a +:+ b +:+ c.
Proof.
  induction a as [|x a IH]; [done|].
  by rewrite !string_app_cons, IH.
Qed.

Lemma string_length_cons (c : ascii) (s : string) :
  String.length (String c s) = S (String.length s).
Proof. reflexivity. Qed.

Lemma string_length_app (a b : string) :
  String.length (a +:+ b) = (String.length a + String.length b)%nat.
Proof.
  induction a as [|x a IH]; [done|].
  rewrite string_app_cons. simpl. by rewrite IH.
Qed.


(** ** Reading back what [json.dumps] wrote *)

(** *** Numbers *)

Lemma pretty_N_char_digit (k : N) :
  (k < 10)%N ->
  is_digit (pretty_N_char k) = true /\ digit_value (pretty_N_char k) = k /\
  (k <> 0%N -> Ascii.eqb (pretty_N_char k) "0" = false).
Proof.
  intros Hk.
  assert (k = 0 \/ k = 1 \/ k = 2 \/ k = 3 \/ k = 4 \/ k = 5 \/ k = 6 \/
          k = 7 \/ k = 8 \/ k = 9)%N as Hcases by lia.
  repeat destruct Hcases as [->|Hcases]; try subst k; by vm_compute.
Qed.

Lemma pretty_N_go_app (x : N) :
  forall s t, pretty_N_go x s +:+ t = pretty_N_go x (s +:+ t).
Proof.
  induction (N.lt_wf_0 x) as [x _ IH]; intros s t.
  destruct (decide (x = 0%N)) as [->|Hx]; [by rewrite !pretty_N_go_0|].
  rewrite (pretty_N_go_step x s), (pretty_N_go_step x (s +:+ t)) by lia.
  rewrite IH by (apply N.div_lt; lia). reflexivity.
Qed.

Lemma read_digits_pretty (x : N) :
  exists m, forall acc t,
    read_digits acc (pretty_N_go x t) = read_digits (acc * m + x) t.
Proof.
  induction (N.lt_wf_0 x) as [x _ IH].
  destruct (decide (x = 0%N)) as [->|Hx].
  - exists 1%N. intros acc t. rewrite pretty_N_go_0. f_equal. lia.
  - destruct (IH (x `div` 10)%N) as [m Hm]; [apply N.div_lt; lia|].
    exists (m * 10)%N. intros acc t.
    rewrite pretty_N_go_step by lia. rewrite Hm. simpl.
    destruct (pretty_N_char_digit (x `mod` 10)%N) as (-> & -> & _);
      [apply N.mod_lt; lia|].
    f_equal. pose proof (N.div_mod x 10). pose proof (N.mod_lt x 10). lia.
Qed.

Lemma pretty_N_go_head (x : N) (s : string) :
  (0 < x)%N ->
  exists c t, pretty_N_go x s = String c t /\ is_digit c = true /\
              Ascii.eqb c "0" = false.
Proof.
  revert s. induction (N.lt_wf_0 x) as [x _ IH]; intros s Hx.
  rewrite pretty_N_go_step by done.
  destruct (decide (x `div` 10 = 0)%N) as [Hsmall|Hbig].
  - rewrite Hsmall, pretty_N_go_0.
    assert (x < 10)%N.
    { apply N.div_small_iff in Hsmall; [done|done]. }
    rewrite N.mod_small by done.
    destruct (pretty_N_char_digit x) as (Hd & _ & Hz); [done|].
    eexists _, _. split; [done|]. split; [done|]. apply Hz. lia.
  - apply IH; [apply N.div_lt; lia|by apply N.neq_0_lt_0].
Qed.

Lemma pretty_N_head (x : N) :
  (0 < x)%N ->
  exists c t, pretty x = String c t /\ is_digit c = true /\
              Ascii.eqb c "0" = false.
Proof.
  intros Hx. unfold pretty, pretty_N.
  destruct (decide (x = 0%N)); [lia|]. by apply pretty_N_go_head.
Qed.

Lemma read_digits_all (x : N) :
  (0 < x)%N -> read_digits 0 (pretty x) = (x, "").
Proof.
  intros Hx. unfold pretty, pretty_N.
  destruct (decide (x = 0%N)); [lia|].
  destruct (read_digits_pretty x) as [m Hm]. by rewrite Hm.
Qed.

Lemma read_nat_pretty (x : N) : read_nat (pretty x) = Some (x, "").
Proof.
  destruct (decide (x = 0%N)) as [->|Hx]; [done|].
  destruct (pretty_N_head x) as (c & t & Hhead & Hdigit & Hzero); [lia|].
  unfold read_nat. rewrite Hhead, Hzero, Hdigit, <- Hhead.
  by rewrite read_digits_all by lia.
Qed.

(** Adding [rest] after a complete part of a number. *)
Lemma read_digits_stops (s : string) (acc : N) (rest : string) :
  stops (read_digits acc s).2 rest ->
  read_digits acc (s +:+ rest)
  = ((read_digits acc s).1, (read_digits acc s).2 +:+ rest).
Proof.
  revert acc. induction s as [|c s IH]; intros acc Hstop.
  - destruct rest as [|c rest]; [done|]. simpl in *.
    by destruct Hstop as (-> & _).
  - rewrite string_app_cons. simpl in *.
    destruct (is_digit c); [by apply IH|done].
Qed.

Lemma take_digits_stops (s rest : string) :
  stops (take_digits s).2 rest ->
  take_digits (s +:+ rest)
  = ((take_digits s).1, (take_digits s).2 +:+ rest).
Proof.
  induction s as [|c s IH]; intros Hstop.
  - destruct rest as [|c rest]; [done|]. simpl in *.
    by destruct Hstop as (-> & _).
  - rewrite string_app_cons. simpl in *.
    destruct (is_digit c); [|done].
    destruct (take_digits s) as [digits left]. by rewrite IH.
Qed.

Lemma read_nat_stops (s : string) (n : N) (left rest : string) :
  read_nat s = Some (n, left) -> stops left rest ->
  read_nat (s +:+ rest) = Some (n, left +:+ rest).
Proof.
  destruct s as [|c s]; [done|]. rewrite string_app_cons. unfold read_nat.
  destruct (Ascii.eqb c "0"); [by intros [= <- <-]|].
  destruct (is_digit c); [|done]. intros Hread Hstop.
  assert (read_digits 0 (String c s) = (n, left)) as Hread' by congruence.
  rewrite <- string_app_cons, read_digits_stops; by rewrite Hread'.
Qed.

Lemma read_frac_stops (s frac left rest : string) :
  read_frac s = Some (frac, left) -> stops left rest ->
  read_frac (s +:+ rest) = Some (frac, left +:+ rest).
Proof.
  destruct s as [|c s].
  - intros [= <- <-] Hstop. destruct rest as [|c rest]; [done|].
    simpl in *. by destruct Hstop as (_ & -> & _).
  - rewrite string_app_cons. unfold read_frac.
    destruct (Ascii.eqb c "."); [|by intros [= <- <-]].
    intros Hread Hstop. rewrite take_digits_stops.
    + destruct (take_digits s) as [[|d digits] left']; [done|].
      by injection Hread as <- <-.
    + destruct (take_digits s) as [[|d digits] left']; [done|].
      by injection Hread as <- <-.
Qed.

Lemma read_exp_stops (s exp left rest : string) :
  read_exp s = Some (exp, left) -> stops left rest ->
  read_exp (s +:+ rest) = Some (exp, left +:+ rest).
Proof.
  destruct s as [|c s].
  - intros [= <- <-] Hstop. destruct rest as [|c rest]; [done|].
    simpl in *. by destruct Hstop as (_ & _ & -> & ->).
  - rewrite string_app_cons. unfold read_exp.
    destruct (Ascii.eqb c "e" || Ascii.eqb c "E"); [|by intros [= <- <-]].
    destruct s as [|d s].
    + done.
    + rewrite string_app_cons.
      destruct (Ascii.eqb d "+" || Ascii.eqb d "-").
      * intros Hread Hstop.
        assert (stops (take_digits s).2 rest) as Hstop'.
        { destruct (take_digits s) as [[|x digits] left']; [done|].
          by injection Hread as <- <-. }
        rewrite take_digits_stops by done.
        destruct (take_digits s) as [[|x digits] left']; [done|].
        by injection Hread as <- <-.
      * intros Hread Hstop. rewrite <- string_app_cons.
        assert (stops (take_digits (String d s)).2 rest) as Hstop'.
        { destruct (take_digits (String d s)) as [[|x digits] left'];
            [done|]. by injection Hread as <- <-. }
        rewrite take_digits_stops by done.
        destruct (take_digits (String d s)) as [[|x digits] left']; [done|].
        by injection Hread as <- <-.
Qed.

Lemma read_unsigned_stops (negative : bool) (s : string) (v : pyany)
    (rest : string) :
  read_unsigned negative s = Some (v, "") -> number_end rest ->
  read_unsigned negative (s +:+ rest) = Some (v, rest).
Proof.
  unfold read_unsigned.
  destruct (read_nat s) as [[n s2]|] eqn:Hn; [|done].
  destruct (read_frac s2) as [[frac s3]|] eqn:Hf; [|done].
  destruct (read_exp s3) as [[exp s4]|] eqn:He; [|done].
  intros Hv Hend.
  assert (s4 = "") as -> by (destruct frac, exp; congruence).
  assert (stops s3 rest) as H3.
  { destruct s3; [done|]. done. }
  assert (stops s2 rest) as H2.
  { destruct s2; [done|]. done. }
  rewrite (read_nat_stops _ _ _ _ Hn H2), (read_frac_stops _ _ _ _ Hf H3),
    (read_exp_stops _ _ _ _ He Hend).
  rewrite string_app_nil. by destruct frac, exp; injection Hv as <-.
Qed.

Lemma read_number_stops (s : string) (v : pyany) (rest : string) :
  read_number s = Some (v, "") -> number_end rest ->
  read_number (s +:+ rest) = Some (v, rest).
Proof.
  destruct s as [|c s]; [done|]. rewrite string_app_cons. unfold read_number.
  destruct (Ascii.eqb c "-"); [apply read_unsigned_stops|].
  rewrite <- string_app_cons. apply read_unsigned_stops.
Qed.

Lemma read_number_head (c : ascii) (t : string) (r : pyany * string) :
  read_number (String c t) = Some r -> is_digit c = true \/ c = "-"%char.
Proof.
  unfold read_number. destruct (Ascii.eqb_spec c "-"%char); [by right|].
  unfold read_unsigned, read_nat. intros Hread. left.
  destruct (Ascii.eqb_spec c "0"%char) as [->|]; [done|].
  by destruct (is_digit c).
Qed.

Lemma read_unsigned_pretty (negative : bool) (x : N) :
  read_unsigned negative (pretty x)
  = Some (AnyInt (if negative then - Z.of_N x else Z.of_N x), "").
Proof. unfold read_unsigned. by rewrite read_nat_pretty. Qed.

Lemma digit_not_dash (c : ascii) :
  is_digit c = true -> Ascii.eqb c "-" = false.
Proof.
  intros Hd. destruct (Ascii.eqb_spec c "-"%char) as [->|]; [|done].
  by vm_compute in Hd.
Qed.

Lemma read_number_pretty (n : Z) : read_number (pretty n) = Some (AnyInt n, "").
Proof.
  destruct n as [|p|p].
  - done.
  - change (pretty (Z.pos p)) with (pretty (N.pos p)).
    pose proof (read_unsigned_pretty false (N.pos p)) as Hread.
    destruct (pretty_N_head (N.pos p)) as (c & t & Hhead & Hd & _); [lia|].
    rewrite Hhead in *. unfold read_number.
    by rewrite (digit_not_dash c Hd), Hread.
  - change (pretty (Z.neg p)) with ("-" +:+ pretty (N.pos p)).
    change (read_number ("-" +:+ pretty (N.pos p)))
      with (read_unsigned true (pretty (N.pos p))).
    by rewrite read_unsigned_pretty.
Qed.

Lemma pretty_Z_head (n : Z) :
  exists c t, pretty n = String c t /\
              (is_digit c = true \/ c = "-"%char).
Proof.
  pose proof (read_number_pretty n) as Hread.
  destruct (pretty n) as [|c t]; [done|].
  exists c, t. split; [done|]. by eapply read_number_head.
Qed.

Lemma is_float_text_spec (repr : string) :
  is_float_text repr = true ->
  read_number repr = Some (AnyFloat (Finite repr), "").
Proof.
  unfold is_float_text.
  destruct (read_number repr) as [[v left]|]; [|done].
  destruct v as [| | |[text| |]| | | | | |]; try done.
  destruct left; [|done]. by intros ->%String.eqb_eq.
Qed.

(** *** String literals *)

Lemma read_chars_escape_char (c : ascii) (t : string) :
  read_chars (escape_char c +:+ t) = push c (read_chars t).
Proof.
  destruct c as [b0 b1 b2 b3 b4 b5 b6 b7].
  destruct b0, b1, b2, b3, b4, b5, b6, b7; reflexivity.
Qed.

Lemma read_chars_escape_string (s rest : string) :
  read_chars (escape_string s +:+ String dquote rest) = Some (s, rest).
Proof.
  induction s as [|c s IH]; [reflexivity|].
  change (escape_string (String c s))
    with (escape_char c +:+ escape_string s).
  by rewrite string_app_assoc, read_chars_escape_char, IH.
Qed.

Lemma dumps_str_app (s rest : string) :
  dumps_str s +:+ rest = String dquote (escape_string s +:+ String dquote rest).
Proof.
  unfold dumps_str, quote_char. by rewrite !string_app_assoc.
Qed.

(** *** The first character of a value *)

Lemma value_start_app (s t : string) : value_start s -> value_start (s +:+ t).
Proof. destruct s; [done|]. by rewrite string_app_cons. Qed.

Lemma skip_ws_value_start (s : string) : value_start s -> skip_ws s = s.
Proof. destruct s as [|c s]; [done|]. simpl. by intros (-> & _). Qed.

Lemma digit_value_start (c : ascii) (t : string) :
  is_digit c = true -> value_start (String c t).
Proof.
  intros Hd. simpl. repeat split.
  - unfold is_digit in Hd. unfold is_ws.
    apply andb_true_iff in Hd as [H1%N.leb_le H2%N.leb_le].
    rewrite !orb_false_iff, !N.eqb_neq. lia.
  - destruct (Ascii.eqb_spec c "]"%char) as [->|]; [|done].
    by vm_compute in Hd.
  - destruct (Ascii.eqb_spec c "}"%char) as [->|]; [|done].
    by vm_compute in Hd.
Qed.

Lemma join_comma_cons (p q : string) (rest : list string) :
  join_comma (p :: q :: rest) = p +:+ ", " +:+ join_comma (q :: rest).
Proof. reflexivity. Qed.

Lemma join_comma_value_start (p : string) (rest : list string) :
  value_start p -> value_start (join_comma (p :: rest)).
Proof.
  intros Hp. destruct rest as [|q rest]; [done|].
  rewrite join_comma_cons. by apply value_start_app.
Qed.


Lemma number_start_value_start (c : ascii) (t : string) :
  is_digit c = true \/ c = "-"%char -> value_start (String c t).
Proof. intros [Hd| ->]; [by apply digit_value_start|by vm_compute]. Qed.

Lemma comprehension_cons {A B : Type} (f : A -> outcome B) (a : A)
    (l : list A) (parts : list B) :
  comprehension f (a :: l) = Return parts ->
  exists b bs, f a = Return b /\ comprehension f l = Return bs /\
               parts = b :: bs.
Proof.
  cbn [comprehension]. unfold mbind, outcome_bind.
  destruct (f a) as [b|e]; [|done].
  destruct (comprehension f l) as [bs|e]; [|done].
  intros [= <-]. by exists b, bs.
Qed.

Lemma dumps_value_start (v : pyany) (text : string) :
  Any.dumps v = Return text -> finite_floats v = true -> value_start text.
Proof.
  destruct v as [|[]|n|x|s|items|items|entries| |truth]; simpl;
    try (by intros [= <-]); try done.
  - intros [= <-] _. destruct (pretty_Z_head n) as (c & t & -> & Hc).
    by apply number_start_value_start.
  - destruct x as [repr| |]; try done. intros [= <-] Hrepr.
    apply is_float_text_spec in Hrepr. destruct repr as [|c t]; [done|].
    eapply number_start_value_start, read_number_head, Hrepr.
  - unfold mbind, outcome_bind.
    destruct (comprehension Any.dumps items); by intros [= <-].
  - unfold mbind, outcome_bind.
    destruct (comprehension Any.dumps items); by intros [= <-].
  - unfold mbind at 1, outcome_bind at 1.
    destruct (comprehension _ entries); by intros [= <-].
Qed.

(** *** Values *)

Lemma read_value_S (fuel : nat) (c : ascii) (rest : string) :
  read_value (S fuel) (String c rest) =
  if Ascii.eqb c "n" then
    match strip_prefix "ull" rest with
    | Some rest' => Some (AnyNone, rest')
    | None => None
    end
  else if Ascii.eqb c "t" then
    match strip_prefix "rue" rest with
    | Some rest' => Some (AnyBool true, rest')
    | None => None
    end
  else if Ascii.eqb c "f" then
    match strip_prefix "alse" rest with
    | Some rest' => Some (AnyBool false, rest')
    | None => None
    end
  else if Ascii.eqb c dquote then
    match read_chars rest with
    | Some (str, rest') => Some (AnyStr str, rest')
    | None => None
    end
  else if Ascii.eqb c "[" then
    match skip_ws rest with
    | String c' rest' =>
        if Ascii.eqb c' "]" then Some (AnyList [], rest')
        else match read_items fuel (skip_ws rest) with
             | Some (items, rest'') => Some (AnyList items, rest'')
             | None => None
             end
    | EmptyString => None
    end
  else if Ascii.eqb c "{" then
    match skip_ws rest with
    | String c' rest' =>
        if Ascii.eqb c' "}" then Some (AnyDict [], rest')
        else match read_members fuel (skip_ws rest) with
             | Some (entries, rest'') => Some (AnyDict entries, rest'')
             | None => None
             end
    | EmptyString => None
    end
  else read_number (String c rest).
Proof. reflexivity. Qed.

Lemma read_items_S (fuel : nat) (s : string) :
  read_items (S fuel) s =
  match read_value fuel s with
  | Some (v, rest) =>
      match skip_ws rest with
      | String c rest' =>
          if Ascii.eqb c "," then
            match read_items fuel (skip_ws rest') with
            | Some (vs, rest'') => Some (v :: vs, rest'')
            | None => None
            end
          else if Ascii.eqb c "]" then Some ([v], rest')
          else None
      | EmptyString => None
      end
  | None => None
  end.
Proof. reflexivity. Qed.

Lemma read_members_S (fuel : nat) (rest : string) :
  read_members (S fuel) (String dquote rest) =
  match read_chars rest with
  | Some (k, rest1) =>
      match skip_ws rest1 with
      | String c1 rest2 =>
          if Ascii.eqb c1 ":" then
            match read_value fuel (skip_ws rest2) with
            | Some (v, rest3) =>
                match skip_ws rest3 with
                | String c3 rest4 =>
                    if Ascii.eqb c3 "," then
                      match read_members fuel (skip_ws rest4) with
                      | Some (kvs, rest5) => Some ((KeyStr k, v) :: kvs, rest5)
                      | None => None
                      end
                    else if Ascii.eqb c3 "}" then Some ([(KeyStr k, v)], rest4)
                    else None
                | EmptyString => None
                end
            | None => None
            end
          else None
      | EmptyString => None
      end
  | None => None
  end.
Proof. reflexivity. Qed.

Lemma read_value_number (fuel : nat) (c : ascii) (t : string) :
  is_digit c = true \/ c = "-"%char ->
  read_value (S fuel) (String c t) = read_number (String c t).
Proof.
  intros Hc.
  assert (forall x : ascii, is_digit x = false -> Ascii.eqb x "-" = false ->
                            Ascii.eqb c x = false) as Hne.
  { intros x Hx Hdash. destruct (Ascii.eqb_spec c x) as [->|]; [|done].
    destruct Hc as [Hd| ->]; [congruence|]. by vm_compute in Hdash. }
  rewrite read_value_S. by rewrite !Hne by reflexivity.
Qed.

Lemma read_value_str (fuel : nat) (s rest : string) :
  read_value (S fuel) (dumps_str s +:+ rest) = Some (AnyStr s, rest).
Proof.
  rewrite dumps_str_app, read_value_S.
  change (match read_chars (escape_string s +:+ String dquote rest) with
          | Some (str, rest') => Some (AnyStr str, rest')
          | None => None
          end = Some (AnyStr s, rest)).
  by rewrite read_chars_escape_string.
Qed.

Lemma read_value_list (fuel : nat) (s : string) :
  value_start s ->
  read_value (S fuel) (String "[" s) =
  match read_items fuel s with
  | Some (items, rest) => Some (AnyList items, rest)
  | None => None
  end.
Proof.
  intros Hs. rewrite read_value_S.
  change (match skip_ws s with
          | String c' rest' =>
              if Ascii.eqb c' "]" then Some (AnyList [], rest')
              else match read_items fuel (skip_ws s) with
                   | Some (items, rest'') => Some (AnyList items, rest'')
                   | None => None
                   end
          | EmptyString => None
          end = match read_items fuel s with
                | Some (items, rest) => Some (AnyList items, rest)
                | None => None
                end).
  rewrite (skip_ws_value_start s Hs).
  destruct s as [|c s]; [done|]. by destruct Hs as (_ & -> & _).
Qed.

Lemma read_value_dict (fuel : nat) (s : string) :
  value_start s ->
  read_value (S fuel) (String "{" s) =
  match read_members fuel s with
  | Some (entries, rest) => Some (AnyDict entries, rest)
  | None => None
  end.
Proof.
  intros Hs. rewrite read_value_S.
  change (match skip_ws s with
          | String c' rest' =>
              if Ascii.eqb c' "}" then Some (AnyDict [], rest')
              else match read_members fuel (skip_ws s) with
                   | Some (entries, rest'') => Some (AnyDict entries, rest'')
                   | None => None
                   end
          | EmptyString => None
          end = match read_members fuel s with
                | Some (entries, rest) => Some (AnyDict entries, rest)
                | None => None
                end).
  rewrite (skip_ws_value_start s Hs).
  destruct s as [|c s]; [done|]. by destruct Hs as (_ & _ & ->).
Qed.

Lemma read_items_last (fuel : nat) (s : string) (v : pyany) (rest : string) :
  read_value fuel s = Some (v, String "]" rest) ->
  read_items (S fuel) s = Some ([v], rest).
Proof. intros Hv. by rewrite read_items_S, Hv. Qed.

Lemma read_items_more (fuel : nat) (s : string) (v : pyany) (next : string)
    (vs : list pyany) (rest : string) :
  read_value fuel s = Some (v, String "," (String " " next)) ->
  value_start next ->
  read_items fuel next = Some (vs, rest) ->
  read_items (S fuel) s = Some (v :: vs, rest).
Proof.
  intros Hv Hnext Hvs. rewrite read_items_S, Hv.
  change (match read_items fuel (skip_ws next) with
          | Some (vs, rest'') => Some (v :: vs, rest'')
          | None => None
          end = Some (v :: vs, rest)).
  by rewrite (skip_ws_value_start next Hnext), Hvs.
Qed.

(** The text of one member of an object, and what follows it. *)
Lemma member_app (k : string) (text rest : string) :
  (dumps_str k +:+ ": " +:+ text) +:+ rest =
  String dquote
    (escape_string k +:+
     String dquote (String ":" (String " " (text +:+ rest)))).
Proof.
  rewrite string_app_assoc, dumps_str_app. by rewrite string_app_assoc.
Qed.

Lemma read_members_last (fuel : nat) (k : string) (s : string) (v : pyany)
    (rest : string) :
  value_start s ->
  read_value fuel s = Some (v, String "}" rest) ->
  read_members (S fuel)
    (String dquote
       (escape_string k +:+ String dquote (String ":" (String " " s)))) =
  Some ([(KeyStr k, v)], rest).
Proof.
  intros Hs Hv. rewrite read_members_S, read_chars_escape_string.
  change (match read_value fuel (skip_ws s) with
          | Some (v, rest3) =>
              match skip_ws rest3 with
              | String c3 rest4 =>
                  if Ascii.eqb c3 "," then
                    match read_members fuel (skip_ws rest4) with
                    | Some (kvs, rest5) => Some ((KeyStr k, v) :: kvs, rest5)
                    | None => None
                    end
                  else if Ascii.eqb c3 "}" then Some ([(KeyStr k, v)], rest4)
                  else None
              | EmptyString => None
              end
          | None => None
          end = Some ([(KeyStr k, v)], rest)).
  by rewrite (skip_ws_value_start s Hs), Hv.
Qed.

Lemma read_members_more (fuel : nat) (k : string) (s : string) (v : pyany)
    (next : string) (kvs : list (pykey * pyany)) (rest : string) :
  value_start s ->
  read_value fuel s = Some (v, String "," (String " " next)) ->
  value_start next ->
  read_members fuel next = Some (kvs, rest) ->
  read_members (S fuel)
    (String dquote
       (escape_string k +:+ String dquote (String ":" (String " " s)))) =
  Some ((KeyStr k, v) :: kvs, rest).
Proof.
  intros Hs Hv Hnext Hkvs. rewrite read_members_S, read_chars_escape_string.
  change (match read_value fuel (skip_ws s) with
          | Some (v, rest3) =>
              match skip_ws rest3 with
              | String c3 rest4 =>
                  if Ascii.eqb c3 "," then
                    match read_members fuel (skip_ws rest4) with
                    | Some (kvs, rest5) => Some ((KeyStr k, v) :: kvs, rest5)
                    | None => None
                    end
                  else if Ascii.eqb c3 "}" then Some ([(KeyStr k, v)], rest4)
                  else None
              | EmptyString => None
              end
          | None => None
          end = Some ((KeyStr k, v) :: kvs, rest)).
  rewrite (skip_ws_value_start s Hs), Hv.
  change (match read_members fuel (skip_ws next) with
          | Some (kvs, rest5) => Some ((KeyStr k, v) :: kvs, rest5)
          | None => None
          end = Some ((KeyStr k, v) :: kvs, rest)).
  by rewrite (skip_ws_value_start next Hnext), Hkvs.
Qed.

(** Induction over values, with the hypothesis for every item of a list or
    tuple and every value of a dict. *)
Lemma pyany_induction (P : pyany -> Prop) :
  P AnyNone ->
  (forall b, P (AnyBool b)) ->
  (forall n, P (AnyInt n)) ->
  (forall x, P (AnyFloat x)) ->
  (forall s, P (AnyStr s)) ->
  (forall items, Forall P items -> P (AnyList items)) ->
  (forall items, Forall P items -> P (AnyTuple items)) ->
  (forall entries, Forall (fun kv => P (snd kv)) entries ->
                   P (AnyDict entries)) ->
  P AnyCycle ->
  (forall truth, P (AnyObject truth)) ->
  forall v, P v.
Proof.
  intros HNone HBool HInt HFloat HStr HList HTuple HDict HCycle HObject.
  fix IH 1. intros [|b|n|x|s|items|items|entries| |truth].
  - exact HNone.
  - apply HBool.
  - apply HInt.
  - apply HFloat.
  - apply HStr.
  - apply HList. induction items as [|v items IHitems]; constructor.
    + apply IH.
    + exact IHitems.
  - apply HTuple. induction items as [|v items IHitems]; constructor.
    + apply IH.
    + exact IHitems.
  - apply HDict. induction entries as [|[k v] entries IHentries]; constructor.
    + apply IH.
    + exact IHentries.
  - exact HCycle.
  - apply HObject.
Qed.

Lemma number_end_comma (rest : string) :
  number_end (String "," rest).
Proof. by vm_compute. Qed.

Lemma number_end_bracket (rest : string) :
  number_end (String "]" rest).
Proof. by vm_compute. Qed.

Lemma number_end_brace (rest : string) :
  number_end (String "}" rest).
Proof. by vm_compute. Qed.

Lemma read_items_dumps (items : list pyany) :
  Forall reads_back items ->
  forall parts fuel rest,
    comprehension Any.dumps items = Return parts ->
    forallb finite_floats items = true -> items <> [] ->
    (S (String.length (join_comma parts)) < fuel)%nat ->
    read_items fuel (join_comma parts +:+ String "]" rest)
    = Some (map as_json items, rest).
Proof.
  induction 1 as [|v items Hv _ IH]; [done|].
  intros parts fuel rest Hparts Hfinite _ Hfuel.
  apply comprehension_cons in Hparts as (b & bs & Hb & Hbs & ->).
  apply andb_true_iff in Hfinite as [Hfv Hfitems].
  destruct fuel as [|fuel]; [lia|].
  destruct items as [|v' items].
  - injection Hbs as <-.
    apply read_items_last, (Hv b Hb Hfv); [simpl in Hfuel; lia|].
    apply number_end_bracket.
  - pose proof Hbs as Hbs'.
    apply comprehension_cons in Hbs' as (b' & bs' & Hb' & _ & ->).
    rewrite join_comma_cons in *.
    rewrite !string_length_app in Hfuel.
    change (String.length ", ") with 2%nat in Hfuel.
    rewrite !string_app_assoc.
    eapply read_items_more.
    + apply (Hv b Hb Hfv); [lia|]. apply number_end_comma.
    + apply value_start_app, join_comma_value_start.
      apply andb_true_iff in Hfitems as [Hfv' _].
      by apply (dumps_value_start v').
    + apply IH; [done|done|done|lia].
Qed.

Lemma as_key_text (k : pykey) (name : string) :
  Any.key_text k = Return name -> as_key k = KeyStr name.
Proof.
  destruct k as [s|n|[]| |[repr| |[]]|]; cbn [Any.key_text as_key Any.floatstr];
    congruence.
Qed.

Lemma dumps_member_inv (k : pykey) (v : pyany) (part : string) :
  dumps_member (k, v) = Return part ->
  exists name text,
    Any.key_text k = Return name /\ Any.dumps v = Return text /\
    part = dumps_str name +:+ ": " +:+ text.
Proof.
  unfold dumps_member, mbind, outcome_bind. cbn [fst snd].
  destruct (Any.key_text k) as [name|e]; [|done].
  destruct (Any.dumps v) as [text|e]; [|done].
  intros [= <-]. by exists name, text.
Qed.

Lemma dumps_member_value_start (kv : pykey * pyany) (part : string) :
  dumps_member kv = Return part -> value_start part.
Proof.
  destruct kv as [k v].
  intros (name & text & _ & _ & ->)%dumps_member_inv.
  rewrite dumps_str_app. by vm_compute.
Qed.

Lemma read_members_dumps (entries : list (pykey * pyany)) :
  Forall (fun kv => reads_back (snd kv)) entries ->
  forall parts fuel rest,
    comprehension dumps_member entries = Return parts ->
    forallb (fun kv => finite_floats (snd kv)) entries = true ->
    entries <> [] ->
    (S (String.length (join_comma parts)) < fuel)%nat ->
    read_members fuel (join_comma parts +:+ String "}" rest)
    = Some (map (fun kv => (as_key (fst kv), as_json (snd kv))) entries,
            rest).
Proof.
  induction 1 as [|[k v] entries Hv _ IH]; [done|].
  intros parts fuel rest Hparts Hfinite _ Hfuel. cbn [fst snd] in Hv.
  apply comprehension_cons in Hparts as (b & bs & Hb & Hbs & ->).
  apply dumps_member_inv in Hb as (name & text & Hname & Htext & ->).
  apply andb_true_iff in Hfinite as [Hfv Hfentries]. cbn [snd] in Hfv.
  destruct fuel as [|fuel]; [lia|].
  assert (as_key k = KeyStr name) as Hkey by by apply as_key_text.
  cbn [map fst snd]. rewrite Hkey.
  destruct entries as [|kv' entries].
  - injection Hbs as <-.
    change (join_comma [dumps_str name +:+ ": " +:+ text])
      with (dumps_str name +:+ ": " +:+ text) in *.
    rewrite member_app. rewrite !string_length_app in Hfuel.
    apply read_members_last.
    + by apply value_start_app, (dumps_value_start v).
    + apply (Hv text Htext Hfv); [lia|]. apply number_end_brace.
  - pose proof Hbs as Hbs'.
    apply comprehension_cons in Hbs' as (b' & bs' & Hb' & _ & ->).
    rewrite join_comma_cons in *.
    rewrite !string_length_app in Hfuel.
    change (String.length ", ") with 2%nat in Hfuel.
    rewrite string_app_assoc, member_app, !string_app_assoc.
    eapply read_members_more.
    + by apply value_start_app, (dumps_value_start v).
    + apply (Hv text Htext Hfv); [lia|]. apply number_end_comma.
    + apply value_start_app, join_comma_value_start.
      by apply (dumps_member_value_start kv').
    + apply IH; [done|done|done|lia].
Qed.

Lemma string_length_brackets (a b c : string) :
  String.length (a +:+ b +:+ c)
  = (String.length a + String.length b + String.length c)%nat.
Proof. rewrite !string_length_app. lia. Qed.

Lemma read_value_items (items : list pyany) (text : string) :
  Forall reads_back items ->
  (parts ← comprehension Any.dumps items;
   Return ("[" +:+ join_comma parts +:+ "]")) = Return text ->
  forallb finite_floats items = true ->
  reads_as text (AnyList (map as_json items)).
Proof.
  intros IH Htext Hfinite fuel rest Hfuel Hrest.
  unfold mbind, outcome_bind in Htext.
  destruct (comprehension Any.dumps items) as [parts|e] eqn:Hparts; [|done].
  injection Htext as <-. destruct fuel as [|fuel]; [lia|].
  destruct items as [|v items].
  - by injection Hparts as <-.
  - rewrite string_length_brackets in Hfuel.
    change (String.length "[") with 1%nat in Hfuel.
    change (String.length "]") with 1%nat in Hfuel.
    rewrite !string_app_assoc.
    change ("[" +:+ join_comma parts +:+ "]" +:+ rest)
      with (String "[" (join_comma parts +:+ String "]" rest)).
    pose proof Hparts as Hparts'.
    apply comprehension_cons in Hparts' as (b & bs & Hb & _ & ->).
    apply andb_true_iff in Hfinite as [Hfv Hfitems].
    rewrite read_value_list.
    + rewrite (read_items_dumps (v :: items) IH (b :: bs)); try done.
      * simpl. by rewrite Hfv.
      * lia.
    + apply value_start_app, join_comma_value_start.
      by apply (dumps_value_start v).
Qed.

Lemma dumps_reads_back (v : pyany) : reads_back v.
Proof.
  induction v as [|b|n|x|s|items IH|items IH|entries IH| |truth]
    using pyany_induction; intros text Htext Hfinite.
  - injection Htext as <-. intros [|fuel] rest Hfuel Hrest; [simpl in *; lia|].
    reflexivity.
  - destruct b; injection Htext as <-;
      (intros [|fuel] rest Hfuel Hrest; [simpl in *; lia|]); reflexivity.
  - injection Htext as <-. intros [|fuel] rest Hfuel Hrest; [lia|].
    pose proof (read_number_stops _ _ rest (read_number_pretty n) Hrest)
      as Hread.
    destruct (pretty_Z_head n) as (c & t & Hhead & Hc).
    rewrite Hhead in *. rewrite string_app_cons in *.
    by rewrite read_value_number.
  - destruct x as [repr| |]; try done. injection Htext as <-.
    intros [|fuel] rest Hfuel Hrest; [lia|]. cbn [as_json].
    apply is_float_text_spec in Hfinite.
    pose proof (read_number_stops _ _ rest Hfinite Hrest) as Hread.
    destruct repr as [|c t]; [done|].
    rewrite string_app_cons in *.
    rewrite read_value_number; [done|].
    eapply read_number_head, Hfinite.
  - injection Htext as <-. intros [|fuel] rest Hfuel Hrest; [lia|].
    apply read_value_str.
  - by apply read_value_items.
  - by apply read_value_items.
  - intros fuel rest Hfuel Hrest. cbn [as_json].
    change (Any.dumps (AnyDict entries))
      with (parts ← comprehension dumps_member entries;
            Return ("{" +:+ join_comma parts +:+ "}")) in Htext.
    unfold mbind, outcome_bind in Htext.
    destruct (comprehension dumps_member entries) as [parts|e] eqn:Hparts;
      [|done].
    injection Htext as <-. destruct fuel as [|fuel]; [lia|].
    destruct entries as [|kv entries].
    + by injection Hparts as <-.
    + rewrite string_length_brackets in Hfuel.
      change (String.length "{") with 1%nat in Hfuel.
      change (String.length "}") with 1%nat in Hfuel.
      rewrite !string_app_assoc.
      change ("{" +:+ join_comma parts +:+ "}" +:+ rest)
        with (String "{" (join_comma parts +:+ String "}" rest)).
      pose proof Hparts as Hparts'.
      apply comprehension_cons in Hparts' as (b & bs & Hb & _ & ->).
      rewrite read_value_dict.
      * rewrite (read_members_dumps (kv :: entries) IH (b :: bs));
          try done. lia.
      * apply value_start_app, join_comma_value_start.
        by apply (dumps_member_value_start kv).
  - done.
  - done.
Qed.

(** Whatever [json.dumps] writes for a value whose floats are all finite is
    a JSON text, and reads back as the value. *)
Lemma read_json_dumps (v : pyany) (text : string) :
  Any.dumps v = Return text -> finite_floats v = true ->
  read_json text = Some (as_json v).
Proof.
  intros Htext Hfinite. unfold read_json.
  rewrite (skip_ws_value_start text (dumps_value_start v text Htext Hfinite)).
  rewrite <- (string_app_nil_r text) at 2.
  rewrite (dumps_reads_back v text Htext Hfinite); [done|lia|done].
Qed.
Lemma pyval_induction (P : pyval -> Prop) :
  P PyNone ->
  (forall b, P (PyBool b)) ->
  (forall n, P (PyInt n)) ->
  (forall s, P (PyStr s)) ->
  (forall items, Forall P items -> P (PyList items)) ->
  (forall entries, Forall (fun kv => P (snd kv)) entries ->
                   P (PyDict entries)) ->
  forall v, P v.
Proof.
  intros HNone HBool HInt HStr HList HDict.
  fix IH 1. intros [|b|n|s|items|entries].
  - exact HNone.
  - apply HBool.
  - apply HInt.
  - apply HStr.
  - apply HList. induction items as [|v items IHitems]; constructor.
    + apply IH.
    + exact IHitems.
  - apply HDict. induction entries as [|[k v] entries IHentries]; constructor.
    + apply IH.
    + exact IHentries.
Qed.


(** *** JSON-like values among all values *)

Lemma comprehension_map {A B C : Type} (f : B -> outcome C) (g : A -> B)
    (h : A -> C) (l : list A) :
  Forall (fun a => f (g a) = Return (h a)) l ->
  comprehension f (map g l) = Return (map h l).
Proof.
  induction 1 as [|a l Ha _ IH]; [done|].
  cbn [map comprehension]. by rewrite Ha, IH.
Qed.

Lemma dumps_of_pyval (j : pyval) : Any.dumps (of_pyval j) = Return (dumps j).
Proof.
  induction j as [|[]|n|s|items IH|entries IH] using pyval_induction;
    try done.
  - cbn [of_pyval Any.dumps dumps].
    by rewrite (comprehension_map Any.dumps of_pyval dumps items IH).
  - cbn [of_pyval Any.dumps dumps].
    rewrite (comprehension_map _ _
               (fun kv => dumps_str (fst kv) +:+ ": " +:+ dumps (snd kv)));
      [done|].
    eapply Forall_impl; [exact IH|]. intros [k v] Hv. cbn [fst snd] in *.
    by rewrite Hv.
Qed.

Lemma finite_floats_of_pyval (j : pyval) : finite_floats (of_pyval j) = true.
Proof.
  induction j as [|b|n|s|items IH|entries IH] using pyval_induction;
    try done.
  - cbn [of_pyval finite_floats]. apply forallb_forall.
    intros v (j & <- & Hj)%in_map_iff.
    by eapply (proj1 (List.Forall_forall _ _) IH), Hj.
  - cbn [of_pyval finite_floats]. apply forallb_forall.
    intros kv ([k j] & <- & Hj)%in_map_iff.
    by apply (proj1 (List.Forall_forall _ _) IH (k, j)).
Qed.

Lemma as_json_of_pyval (j : pyval) : as_json (of_pyval j) = of_pyval j.
Proof.
  induction j as [|b|n|s|items IH|entries IH] using pyval_induction;
    try done.
  - cbn [of_pyval as_json]. f_equal. rewrite map_map.
    apply map_ext_in. intros v Hv.
    by apply (proj1 (List.Forall_forall _ _) IH).
  - cbn [of_pyval as_json]. f_equal. rewrite map_map.
    apply map_ext_in. intros [k v] Hv. cbn [fst snd]. f_equal.
    by apply (proj1 (List.Forall_forall _ _) IH (k, v)).
Qed.

(** A JSON-like value is written as [_jsons] writes it, and what is written
    reads back as the value. *)
Lemma read_json_jsons (j : pyval) : read_json (_jsons j) = Some (of_pyval j).
Proof.
  rewrite <- (as_json_of_pyval j).
  apply read_json_dumps; [apply dumps_of_pyval|apply finite_floats_of_pyval].
Qed.

(** *** What [json.dumps] raises *)



(** *** The parameters of [query_view] on any arguments *)












(** On JSON-like arguments this is [Database.query_view]. *)
Lemma truthy_of_pyval (v : pyval) : Any.truthy (of_pyval v) = truthy v.
Proof. by destruct v as [| | | |[]|[]]. Qed.

Lemma is_not_None_of_pyval (v : pyval) :
  Any.is_not_None (of_pyval v) = is_not_None v.
Proof. by destruct v. Qed.

Lemma setitem_jsons_of_pyval (cond : bool) (k : string) (v : pyval)
    (params : gmap string pyval) :
  Any.setitem_jsons cond k (of_pyval v) params
  = Return (Database.setitem_if cond k (Database.jsons v) params).
Proof.
  unfold Any.setitem_jsons, Any._jsons, Database.setitem_if, Database.jsons,
    _jsons.
  destruct cond; [|done]. by rewrite dumps_of_pyval.
Qed.

Lemma setitem_jsons_bool (cond : bool) (k : string) (b : bool)
    (params : gmap string pyval) :
  Any.setitem_jsons cond k (AnyBool b) params
  = Return (Database.setitem_if cond k (Database.jsons (PyBool b)) params).
Proof. exact (setitem_jsons_of_pyval cond k (PyBool b) params). Qed.

Lemma update_allowed_of_pyval (u : pyval) :
  Any.update_allowed (of_pyval u)
  = if Database.update_allowed u
    then match u with PyStr s => Some s | _ => None end
    else None.
Proof.
  unfold Any.update_allowed, Database.update_allowed, is_str.
  destruct u as [| | |s| |]; try done.
  cbn [of_pyval existsb]. by rewrite !(String.eqb_sym s).
Qed.

Lemma query_view_params_of_args (a : ViewArgs.t) :
  Any.query_view_params (AnyArgs.of_args a) = Database.query_view_params a.
Proof.
  unfold Any.query_view_params, Database.query_view_params, AnyArgs.of_args.
  cbn [AnyArgs.key AnyArgs.keys AnyArgs.startkey AnyArgs.endkey AnyArgs.skip
       AnyArgs.limit AnyArgs.sorted AnyArgs.descending AnyArgs.group
       AnyArgs.group_level AnyArgs.reduce AnyArgs.include_docs
       AnyArgs.update].
  rewrite !truthy_of_pyval, !is_not_None_of_pyval, update_allowed_of_pyval.
  do 13 (rewrite ?setitem_jsons_of_pyval, ?setitem_jsons_bool;
         unfold mbind at 1, outcome_bind at 1; cbv beta iota).
  cbv zeta.
  destruct (is_not_None (ViewArgs.update a)) eqn:Hu; [|done].
  destruct (Database.update_allowed (ViewArgs.update a)) eqn:Hallowed;
    [|done].
  destruct (ViewArgs.update a) as [| | |s| |]; done.
Qed.

Lemma query_view_of_args (self : Database.t) (design_doc : option string)
    (view_name : string) (a : ViewArgs.t) :
  Any.query_view self design_doc view_name (AnyArgs.of_args a)
  = Database.query_view self design_doc view_name a.
Proof.
  unfold Any.query_view, Database.query_view.
  by rewrite query_view_params_of_args.
Qed.




(** ** The [update] option *)

Lemma update_allowed_spec (u : pyval) :
  Database.update_allowed u = true <->
  u = PyStr "true" \/ u = PyStr "false" \/ u = PyStr "lazy".
Proof.
  unfold Database.update_allowed, existsb, is_str. split.
  - destruct u as [| | |s| |]; try done.
    destruct (String.eqb_spec "true" s) as [<-|_]; [by left|].
    destruct (String.eqb_spec "false" s) as [<-|_]; [by right; left|].
    destruct (String.eqb_spec "lazy" s) as [<-|_]; [by right; right|done].
  - by intros [->|[->| ->]].
Qed.

(** C8: with an [update] that is not [None], a literal ["true"], ["false"]
    or ["lazy"] passes the check and is the [update] parameter, unchanged,
    of every request the call sends, and the call does send one when the
    view can be addressed; any other value makes the call raise before
    anything is sent, leaving the world as it was. *)
Theorem query_view_update_checked (self : Database.t) (design_doc : option string)
    (view_name : string) (a : ViewArgs.t) (w : world) :
  ViewArgs.update a <> PyNone ->
  (ViewArgs.update a = PyStr "true" \/ ViewArgs.update a = PyStr "false" \/
   ViewArgs.update a = PyStr "lazy" ->
   (exists params, Database.query_view_params a = Return params /\
                   params !! "update" = Some (ViewArgs.update a)) /\
   (forall req, req ∈ issued (Database.query_view self design_doc view_name a) w ->
                req_params req !! "update" = Some (ViewArgs.update a)) /\
   (forall url, Database.query_view_path self design_doc view_name = Return url ->
                exists params,
                  issued (Database.query_view self design_doc view_name a) w
                  = [mkRequest "GET" url params None])) /\
  (~ (ViewArgs.update a = PyStr "true" \/ ViewArgs.update a = PyStr "false" \/
      ViewArgs.update a = PyStr "lazy") ->
   Database.query_view self design_doc view_name a w = (Raise AssertionError, w) /\
   issued (Database.query_view self design_doc view_name a) w = []).
Proof.
  intros Hnone.
  assert (is_not_None (ViewArgs.update a) = true) as Hnn
    by by destruct (ViewArgs.update a).
  split.
  - intros Hok. apply update_allowed_spec in Hok.
    destruct (query_view_params_returns a (or_intror Hok)) as [params Hp].
    assert (params !! "update" = Some (ViewArgs.update a)) as Hu.
    { rewrite (query_view_params_lookup _ _ _ Hp). simpl. by rewrite Hnn. }
    split; [by exists params|]. split.
    + intros req Hreq. apply query_view_issued_params in Hreq.
      rewrite Hp in Hreq. by injection Hreq as <-.
    + intros url Hurl. exists params. by rewrite query_view_issued, Hp, Hurl.
  - intros Hbad.
    assert (Database.query_view_params a = Raise AssertionError) as Hp.
    { unfold Database.query_view_params. rewrite Hnn.
      destruct (Database.update_allowed (ViewArgs.update a)) eqn:E; [|done].
      by apply update_allowed_spec in E. }
    split.
    + unfold Database.query_view, mbind, M_bind, lift. by rewrite Hp.
    + by rewrite query_view_issued, Hp.
Qed.

(** [update="lazy"] is sent as it is; [update=True] is refused and nothing
    is sent. *)
Lemma query_view_update_checked_witness :
  let lazy := ViewArgs.mk PyNone PyNone PyNone PyNone PyNone PyNone (PyBool true)
                (PyBool false) (PyBool false) PyNone PyNone (PyBool false)
                (PyStr "lazy") in
  let flag := ViewArgs.mk PyNone PyNone PyNone PyNone PyNone PyNone (PyBool true)
                (PyBool false) (PyBool false) PyNone PyNone (PyBool false)
                (PyBool true) in
  (exists params,
     issued (Database.query_view example_db None "_all_docs" lazy) empty_world
     = [mkRequest "GET" [Quoted "db"; Added "_all_docs"] params None] /\
     params !! "update" = Some (PyStr "lazy")) /\
  Database.query_view example_db None "_all_docs" flag empty_world
  = (Raise AssertionError, empty_world).
Proof.
  split.
  - destruct (query_view_update_checked example_db None "_all_docs"
                (ViewArgs.mk PyNone PyNone PyNone PyNone PyNone PyNone
                   (PyBool true) (PyBool false) (PyBool false) PyNone PyNone
                   (PyBool false) (PyStr "lazy"))
                empty_world ltac:(discriminate)) as [Hok _].
    destruct (Hok ltac:(right; right; reflexivity)) as (_ & Hsent & Hone).
    destruct (Hone _ eq_refl) as [params Hparams].
    exists params. split; [exact Hparams|].
    apply (Hsent (mkRequest "GET" [Quoted "db"; Added "_all_docs"] params None)).
    rewrite Hparams. apply list_elem_of_singleton. reflexivity.
  - refine (proj1 (proj2 (query_view_update_checked example_db None "_all_docs"
                            _ empty_world _) _)).
    + discriminate.
    + intros [H|[H|H]]; discriminate H.
Defined.

(** ** Fetching a document *)

(** C7: for an id the server answers with 404, [db[id]] raises
    [MissingDocument] and [db.get(id, default)] returns [default]; for an id
    the server answers with the document, both return the document. *)
Theorem getitem_raises_get_defaults (self : Database.t) (id : string)
    (st : doc_state) (default : pyval) (a : GetArgs.t) (w : world) :
  serves self id st ->
  fst (Database.__getitem__ self id w)
  = match st with
    | Absent => Raise (MissingDocument (PyStr "Document does not exist"))
    | Present d => Return d
    end /\
  fst (Database.get self id default a w)
  = match st with
    | Absent => Return default
    | Present d => Return (PyDict d)
    end.
Proof.
  intros Hs.
  destruct (Hs ∅) as (r1 & Hr1 & Hst1).
  destruct (Hs (Database.get_params a)) as (r2 & Hr2 & Hst2).
  unfold Database.__getitem__, Database.get, try_except, mbind, M_bind,
    Session.get, Session.request, lift, raise, mret, M_ret.
  rewrite Hr1, Hr2.
  destruct st as [|d].
  - rewrite Hst1, Hst2. simpl.
    pose proof (http_error_lookup_404 (resp_reason r1)) as ->.
    pose proof (http_error_lookup_404 (resp_reason r2)) as ->.
    done.
  - destruct Hst1 as [E1 J1], Hst2 as [E2 J2].
    rewrite E1, E2. simpl. by rewrite J1, J2.
Qed.

(** On the server with the single document [a]: [b] is missing, [a] is
    returned. *)
Lemma getitem_raises_get_defaults_witness :
  let db := Database.mk one_doc_session "db" in
  let doc := [("_id", PyStr "a"); ("_rev", PyStr "1-x"); ("type", PyStr "A")] in
  (fst (Database.__getitem__ db "b" empty_world)
   = Raise (MissingDocument (PyStr "Document does not exist")) /\
   fst (Database.get db "b" (PyStr "none") GetArgs.defaults empty_world)
   = Return (PyStr "none")) /\
  (fst (Database.__getitem__ db "a" empty_world) = Return doc /\
   fst (Database.get db "a" (PyStr "none") GetArgs.defaults empty_world)
   = Return (PyDict doc)).
Proof.
  split.
  - apply (getitem_raises_get_defaults (Database.mk one_doc_session "db") "b"
             Absent).
    intros params. eexists. split; reflexivity.
  - apply (getitem_raises_get_defaults (Database.mk one_doc_session "db") "a"
             (Present [("_id", PyStr "a"); ("_rev", PyStr "1-x");
                       ("type", PyStr "A")])).
    intros params. eexists. split; [reflexivity|]. split; reflexivity.
Defined.

(** ** Bulk update *)

Lemma alter_lookup_Some (f : pyobj -> pyobj) (i : loc) (m : gmap loc pyobj)
    (x : pyobj) :
  m !! i = Some x -> alter f i m = <[i := f x]> m.
Proof.
  intros Hx. apply map_eq. intros j.
  rewrite lookup_alter, lookup_insert.
  case_decide; subst; by rewrite ?Hx.
Qed.

Lemma alter_fixed (f : pyobj -> pyobj) (i : loc) (m : gmap loc pyobj) :
  (forall x, m !! i = Some x -> f x = x) -> alter f i m = m.
Proof.
  intros Hf. apply map_eq. intros j. rewrite lookup_alter.
  case_decide; [subst|done].
  destruct (m !! j) as [x|] eqn:E; simpl; [|done]. by rewrite (Hf x).
Qed.

Lemma world_eta (w : world) : mkWorld (heap w) (sent w) = w.
Proof. by destruct w. Qed.

Lemma update_entry_spec (documents : list loc) (idx : nat) (r : pydict)
    (res : bool * pyval * rev_or_exc) (doc : loc) (w : world) :
  expected_result r = Some res ->
  documents !! idx = Some doc ->
  Database.update_entry documents idx (PyDict r) w
  = (Return res, mkWorld (alter (expected_object r) doc (heap w)) (sent w)).
Proof.
  intros Hres Hdoc.
  unfold Database.update_entry, expected_result, expected_object in *.
  unfold mbind, M_bind, lift, mret, M_ret, contains, dict_mem, getitem,
    Database.documents_at, Database.update_if_dict, Database.is_dict, dict_get.
  destruct (dict_lookup "error" r) as [error|] eqn:Herr.
  - destruct (dict_lookup "id" r) as [id|]; [|done].
    destruct (dict_lookup "reason" r) as [reason|]; [|done].
    simpl in Hres. injection Hres as <-.
    rewrite alter_fixed by (by intros []). rewrite world_eta.
    by destruct (is_str "conflict" error).
  - destruct (dict_lookup "id" r) as [id|]; [|done].
    destruct (dict_lookup "rev" r) as [rev|]; [|done].
    simpl in Hres. injection Hres as <-. rewrite Hdoc.
    destruct (heap w !! doc) as [[d|items|]|] eqn:Hobj; simpl; rewrite ?Hobj.
    + by rewrite (alter_lookup_Some _ _ _ _ Hobj).
    + rewrite alter_fixed; [by rewrite world_eta|].
      intros x. rewrite Hobj. by intros [= <-].
    + rewrite alter_fixed; [by rewrite world_eta|].
      intros x. rewrite Hobj. by intros [= <-].
    + rewrite alter_fixed; [by rewrite world_eta|].
      intros x. by rewrite Hobj.
Qed.

Lemma update_loop_spec (documents : list loc) (data : list pydict) :
  forall (idx : nat) (expected : list (bool * pyval * rev_or_exc))
         (results : list (bool * pyval * rev_or_exc)) (w : world),
    Forall2 (fun r res => expected_result r = Some res) data expected ->
    (idx + length data <= length documents)%nat ->
    Database.update_loop documents idx (PyDict <$> data) results w
    = (Return (results ++ expected),
       mkWorld (expected_heap (zip (drop idx documents) data) (heap w)) (sent w)).
Proof.
  induction data as [|r rest IH]; intros idx expected results w Hexp Hlen.
  - apply Forall2_nil_inv_l in Hexp as ->. simpl.
    rewrite app_nil_r, zip_with_nil_r. unfold expected_heap; simpl.
    by rewrite world_eta.
  - apply Forall2_cons_inv_l in Hexp as (res & expected' & Hres & Hexp & ->).
    simpl in Hlen.
    destruct (documents !! idx) as [doc|] eqn:Hdoc;
      [|apply lookup_ge_None in Hdoc; lia].
    rewrite (drop_S _ _ _ Hdoc). simpl.
    unfold mbind at 1, M_bind at 1.
    rewrite (update_entry_spec _ _ _ _ _ _ Hres Hdoc).
    rewrite (IH (S idx) expected' (results ++ [res]) _ Hexp) by lia.
    simpl. by rewrite <- app_assoc.
Qed.

Lemma expected_heap_frame (pairs : list (loc * pydict)) :
  forall (h : gmap loc pyobj) (l : loc),
    l ∉ pairs.*1 -> expected_heap pairs h !! l = h !! l.
Proof.
  induction pairs as [|[doc r] rest IH]; intros h l Hl; [done|].
  simpl in Hl. apply not_elem_of_cons in Hl as [Hne Hl].
  unfold expected_heap in *. simpl. rewrite IH by done.
  by rewrite lookup_alter_ne.
Qed.


Lemma payload_docs_returns (h : gmap loc pyobj) (documents : list loc) :
  (forall doc, doc ∈ documents ->
               exists o, h !! doc = Some o /\ o <> OtherObj) ->
  exists docs, comprehension (Database.payload_doc h) documents = Return docs.
Proof.
  induction documents as [|doc rest IH]; intros Hdocs; [by eexists|].
  destruct (Hdocs doc) as (o & Ho & Hne); [by left|].
  destruct IH as [docs Hrest].
  { intros d Hd. apply Hdocs. by right. }
  cbn [comprehension]. rewrite Hrest.
  unfold Database.payload_doc. rewrite Ho.
  destruct o; [by eexists|by eexists|done].
Qed.

Lemma is_str_spec (s : string) (v : pyval) : is_str s v = true <-> v = PyStr s.
Proof.
  destruct v as [| | |s'| |]; simpl; try (split; discriminate).
  destruct (String.eqb_spec s s'); split; congruence.
Qed.

(** C6, as stated, fails in two ways.  An input that is not a dict but an
    object with [items()] is reported as updated and yet is not mutated;
    and when one dict is passed twice and the server accepts the first and
    refuses the second, the object of the failed input has changed. *)
Lemma update_mutation_counterexamples :
  (let w := mkWorld {[ 1%positive := ItemsObj [("type", PyStr "A")] ]} [] in
   let db := Database.mk (bulk_session [report_ok "id1" "1-abc"]) "db" in
   let out := Database.update db [1%positive] (PyBool true) w in
   fst out = Return [(true, PyStr "id1", Rev (PyStr "1-abc"))] /\
   heap (snd out) !! 1%positive = Some (ItemsObj [("type", PyStr "A")])) /\
  (let d := [("_id", PyStr "x"); ("_rev", PyStr "1-a")] in
   let w := mkWorld {[ 1%positive := DictObj d ]} [] in
   let db := Database.mk (bulk_session [report_ok "x" "2-b"; report_conflict "x"])
               "db" in
   let out := Database.update db [1%positive; 1%positive] (PyBool true) w in
   fst out
   = Return [(true, PyStr "x", Rev (PyStr "2-b"));
             (false, PyStr "x",
              Exc (UpdateConflict (PyStr "Document update conflict.")))] /\
   heap (snd out) !! 1%positive
   = Some (DictObj [("_id", PyStr "x"); ("_rev", PyStr "2-b")]) /\
   heap (snd out) !! 1%positive <> heap w !! 1%positive).
Proof. by vm_compute. Qed.

(** What the reports do to one object, whatever else is in the input. *)

Lemma expected_heap_cons (doc : loc) (r : pydict) (pairs : list (loc * pydict))
    (h : gmap loc pyobj) :
  expected_heap ((doc, r) :: pairs) h
  = expected_heap pairs (alter (expected_object r) doc h).
Proof. reflexivity. Qed.

Lemma expected_heap_app (before after : list (loc * pydict))
    (h : gmap loc pyobj) :
  expected_heap (before ++ after) h
  = expected_heap after (expected_heap before h).
Proof. unfold expected_heap. apply foldl_app. Qed.

Lemma expected_heap_no_success (pairs : list (loc * pydict)) :
  forall (h : gmap loc pyobj) (doc : loc),
    (forall r, (doc, r) ∈ pairs -> is_Some (dict_lookup "error" r)) ->
    expected_heap pairs h !! doc = h !! doc.
Proof.
  induction pairs as [|[doc0 r0] rest IH]; intros h doc Hfail; [done|].
  rewrite expected_heap_cons, IH.
  - destruct (decide (doc0 = doc)) as [->|Hne];
      [|by rewrite lookup_alter_ne].
    rewrite lookup_alter_eq.
    destruct (Hfail r0) as [error Herror]; [by left|].
    unfold expected_object. rewrite Herror. by destruct (h !! doc).
  - intros r Hin. apply Hfail. by right.
Qed.

Lemma expected_heap_non_dict (pairs : list (loc * pydict)) :
  forall (h : gmap loc pyobj) (doc : loc),
    (forall d, h !! doc <> Some (DictObj d)) ->
    expected_heap pairs h !! doc = h !! doc.
Proof.
  induction pairs as [|[doc0 r0] rest IH]; intros h doc Hkind; [done|].
  assert (alter (expected_object r0) doc0 h !! doc = h !! doc) as Hstep.
  { destruct (decide (doc0 = doc)) as [->|Hne];
      [|by rewrite lookup_alter_ne].
    rewrite lookup_alter_eq. unfold expected_object.
    destruct (h !! doc) as [[d| |]|] eqn:Hobj; simpl;
      [by destruct (Hkind d)|..]; by destruct (dict_lookup "error" r0). }
  rewrite expected_heap_cons, IH; [done|].
  intros d. rewrite Hstep. apply Hkind.
Qed.

Lemma expected_heap_dict_kept (pairs : list (loc * pydict)) :
  forall (h : gmap loc pyobj) (doc : loc) (d : pydict),
    h !! doc = Some (DictObj d) ->
    exists d',
      expected_heap pairs h !! doc = Some (DictObj d') /\
      forall k, k <> "_id" -> k <> "_rev" -> dict_lookup k d' = dict_lookup k d.
Proof.
  induction pairs as [|[doc0 r0] rest IH]; intros h doc d Hobj;
    [by exists d|].
  rewrite expected_heap_cons.
  destruct (decide (doc0 = doc)) as [->|Hne].
  - destruct (IH (alter (expected_object r0) doc h) doc
                (match dict_lookup "error" r0 with
                 | None => dict_set "_rev" (dict_get "rev" r0)
                             (dict_set "_id" (dict_get "id" r0) d)
                 | Some _ => d
                 end)) as (d' & Hd' & Hkeys).
    { rewrite lookup_alter_eq, Hobj. unfold expected_object.
      by destruct (dict_lookup "error" r0). }
    exists d'. split; [done|]. intros k Hid Hrev. rewrite Hkeys by done.
    destruct (dict_lookup "error" r0); [done|].
    by rewrite !dict_lookup_set_ne.
  - apply IH. by rewrite lookup_alter_ne.
Qed.

Lemma expected_heap_last_success (before after : list (loc * pydict))
    (doc : loc) (r : pydict) (h : gmap loc pyobj) (d : pydict) :
  dict_lookup "error" r = None ->
  (forall r', (doc, r') ∈ after -> is_Some (dict_lookup "error" r')) ->
  h !! doc = Some (DictObj d) ->
  exists d',
    expected_heap (before ++ (doc, r) :: after) h !! doc = Some (DictObj d') /\
    dict_lookup "_id" d' = Some (dict_get "id" r) /\
    dict_lookup "_rev" d' = Some (dict_get "rev" r) /\
    forall k, k <> "_id" -> k <> "_rev" -> dict_lookup k d' = dict_lookup k d.
Proof.
  intros Hok Hafter Hobj.
  destruct (expected_heap_dict_kept before h doc d Hobj) as (d0 & Hd0 & Hkeys).
  rewrite expected_heap_app, expected_heap_cons.
  rewrite (expected_heap_no_success after _ doc Hafter).
  rewrite lookup_alter_eq, Hd0. unfold expected_object. rewrite Hok. simpl.
  eexists. split; [reflexivity|]. split; [|split].
  - rewrite dict_lookup_set_ne by done. apply dict_lookup_set_eq.
  - apply dict_lookup_set_eq.
  - intros k Hid Hrev. rewrite !dict_lookup_set_ne by done. by apply Hkeys.
Qed.

Lemma lookup_zip_pair {A B : Type} (l : list A) (k : list B) (i : nat)
    (x : A) (y : B) :
  zip l k !! i = Some (x, y) <-> l !! i = Some x /\ k !! i = Some y.
Proof.
  rewrite lookup_zip_with.
  destruct (l !! i) as [x'|]; simpl; [|by split; [|intros []]].
  destruct (k !! i) as [y'|]; simpl; [|by split; [|intros []]].
  split; [by intros [= -> ->]|by intros [[= ->] [= ->]]].
Qed.

Lemma elem_of_zip_lookup {A B : Type} (l : list A) (k : list B) (x : A) (y : B) :
  (x, y) ∈ zip l k <-> exists i, l !! i = Some x /\ k !! i = Some y.
Proof.
  rewrite list_elem_of_lookup. by setoid_rewrite lookup_zip_pair.
Qed.

(** C6, amended: for every input sequence of objects that are dicts or
    have [items()], the same object repeated or not, and a server that
    answers with one well-formed report per document, [update] returns a
    list aligned with the input whose i-th element is [(True, id, rev)] for
    a success and [(False, id, exc)] for a failure, [exc] being an
    [UpdateConflict] when the reported error is [conflict] and a
    [CouchDBException] otherwise.  A dict whose update succeeded then has
    the [_id] and [_rev] of the report of its last successful position (its
    only one, when the object is passed once) and its other keys as before;
    an object none of whose positions succeeded, and an object that is not
    a dict, are left unchanged. *)
Theorem update_outcomes (self : Database.t) (documents : list loc)
    (new_edits : pyval) (data : list pydict) (w : world) :
  (forall doc, doc ∈ documents ->
               exists o, heap w !! doc = Some o /\ o <> OtherObj) ->
  reports self data ->
  length data = length documents ->
  Forall (fun r => is_Some (expected_result r)) data ->
  exists results w',
    Database.update self documents new_edits w = (Return results, w') /\
    length results = length documents /\
    (forall (i : nat) (r : pydict),
       data !! i = Some r ->
       match dict_lookup "error" r with
       | Some error =>
           exists id reason,
             dict_lookup "id" r = Some id /\
             dict_lookup "reason" r = Some reason /\
             results !! i
             = Some (false, id,
                     Exc (if is_str "conflict" error then UpdateConflict reason
                          else CouchDBException reason))
       | None =>
           exists id rev,
             dict_lookup "id" r = Some id /\ dict_lookup "rev" r = Some rev /\
             results !! i = Some (true, id, Rev rev)
       end) /\
    (forall (i : nat) (doc : loc) (r d : pydict),
       documents !! i = Some doc -> data !! i = Some r ->
       dict_lookup "error" r = None ->
       heap w !! doc = Some (DictObj d) ->
       (forall j r', (i < j)%nat -> documents !! j = Some doc ->
                     data !! j = Some r' -> is_Some (dict_lookup "error" r')) ->
       exists d',
         heap w' !! doc = Some (DictObj d') /\
         dict_lookup "_id" d' = dict_lookup "id" r /\
         dict_lookup "_rev" d' = dict_lookup "rev" r /\
         forall k, k <> "_id" -> k <> "_rev" ->
                   dict_lookup k d' = dict_lookup k d) /\
    (forall doc,
       (forall i r, documents !! i = Some doc -> data !! i = Some r ->
                    is_Some (dict_lookup "error" r)) ->
       heap w' !! doc = heap w !! doc) /\
    (forall doc,
       (forall d, heap w !! doc <> Some (DictObj d)) ->
       heap w' !! doc = heap w !! doc).
Proof.
  intros Hdocs Hrep Hlen Hwf.
  destruct (payload_docs_returns _ _ Hdocs) as [docs Hpayload].
  destruct (Hrep (PyDict [("docs", PyList docs); ("new_edits", new_edits)]))
    as (resp & Hresp & Hstatus & Hjson).
  assert (exists expected,
            Forall2 (fun r res => expected_result r = Some res) data expected)
    as [expected Hexp].
  { clear -Hwf. induction Hwf as [|r rest [res Hres] _ [expected IH]].
    - by exists [].
    - exists (res :: expected). by constructor. }
  pose (w1 := mkWorld (heap w)
                (sent w ++ [mkRequest "POST"
                              (Database.path self ++ [Added "_bulk_docs"]) ∅
                              (Some (PyDict [("docs", PyList docs);
                                             ("new_edits", new_edits)]))])).
  exists expected,
    (mkWorld (expected_heap (zip documents data) (heap w)) (sent w1)).
  assert (Database.update self documents new_edits w
          = Database.update_loop documents 0 (PyDict <$> data) [] w1) as ->.
  { unfold Database.update, Database.payload_docs, mbind at 1 2 3, M_bind,
      Session.post, Session.request, lift.
    rewrite Hpayload, Hresp, Hstatus, Hjson. done. }
  rewrite (update_loop_spec documents data 0 expected [] w1 Hexp) by (simpl; lia).
  rewrite drop_0. split; [done|].
  split; [by rewrite <- (Forall2_length _ _ _ Hexp)|].
  simpl. split; [|split; [|split]].
  - intros i r Hr.
    destruct (Forall2_lookup_l _ _ _ _ _ Hexp Hr) as (res & Hres & Hres').
    unfold expected_result in Hres'.
    destruct (dict_lookup "error" r) as [error|].
    + destruct (dict_lookup "id" r) as [id|]; [|done].
      destruct (dict_lookup "reason" r) as [reason|]; [|done].
      simpl in Hres'. injection Hres' as <-. by exists id, reason.
    + destruct (dict_lookup "id" r) as [id|]; [|done].
      destruct (dict_lookup "rev" r) as [rev|]; [|done].
      simpl in Hres'. injection Hres' as <-. by exists id, rev.
  - intros i doc r d Hdoc Hr Hok Hobj Hlast.
    assert (zip documents data !! i = Some (doc, r)) as Hpair
      by by apply lookup_zip_pair.
    rewrite <- (take_drop_middle _ _ _ Hpair).
    destruct (expected_heap_last_success (take i (zip documents data))
                (drop (S i) (zip documents data)) doc r (heap w) d Hok)
      as (d' & Hd' & Hid & Hrev & Hkeys); [|done|].
    { intros r' Hin. apply list_elem_of_lookup in Hin as [j Hj].
      rewrite lookup_drop in Hj. apply lookup_zip_pair in Hj as [Hdoc' Hr'].
      apply (Hlast (S i + j)%nat); [lia|done|done]. }
    exists d'. split; [done|].
    destruct (Forall_lookup_1 _ _ _ _ Hwf Hr) as [res Hres].
    unfold expected_result, dict_get in *. rewrite Hok in Hres.
    destruct (dict_lookup "id" r) as [id|]; [|done].
    destruct (dict_lookup "rev" r) as [rev|]; [|done].
    done.
  - intros doc Hfail. apply expected_heap_no_success.
    intros r Hin. apply elem_of_zip_lookup in Hin as (i & Hdoc & Hr).
    by apply (Hfail i).
  - intros doc Hkind. by apply expected_heap_non_dict.
Qed.

(** The bulk update of the specification: two documents of types A and B,
    a conflict reported for the second. *)
Lemma update_outcomes_witness :
  let w := mkWorld {[ 1%positive := DictObj [("type", PyStr "A")];
                      2%positive := DictObj [("type", PyStr "B")] ]} [] in
  let db := Database.mk
              (bulk_session [report_ok "id1" "1-abc"; report_conflict "id2"])
              "db" in
  exists results w',
    Database.update db [1%positive; 2%positive] (PyBool true) w
    = (Return results, w') /\
    results !! 0%nat = Some (true, PyStr "id1", Rev (PyStr "1-abc")) /\
    results !! 1%nat
    = Some (false, PyStr "id2",
            Exc (UpdateConflict (PyStr "Document update conflict."))) /\
    (exists d', heap w' !! 1%positive = Some (DictObj d') /\
                dict_lookup "_rev" d' = Some (PyStr "1-abc")) /\
    heap w' !! 2%positive = Some (DictObj [("type", PyStr "B")]).
Proof.
  intros w db.
  destruct (update_outcomes db [1%positive; 2%positive] (PyBool true)
              [report_ok "id1" "1-abc"; report_conflict "id2"] w)
    as (results & w' & Hupdate & _ & Hresults & Hdone & Hfailed & _).
  - intros doc Hdoc.
    apply elem_of_cons in Hdoc as [->|Hdoc];
      [|apply list_elem_of_singleton in Hdoc as ->];
      eexists; (split; [reflexivity|discriminate]).
  - intros payload. eexists. repeat split.
  - reflexivity.
  - repeat constructor; eexists; reflexivity.
  - exists results, w'. split; [exact Hupdate|].
    pose proof (Hresults 0%nat _ eq_refl) as H1.
    pose proof (Hresults 1%nat _ eq_refl) as H2.
    simpl in H1, H2.
    destruct H1 as (id1 & rev1 & [= <-] & [= <-] & Hr1).
    destruct H2 as (id2 & reason & [= <-] & [= <-] & Hr2).
    split; [exact Hr1|]. split; [exact Hr2|]. split.
    + destruct (Hdone 0%nat 1%positive (report_ok "id1" "1-abc")
                  [("type", PyStr "A")] eq_refl eq_refl eq_refl eq_refl)
        as (d' & Hd' & _ & Hrev & _).
      * intros [|[|j]] r' Hlt Hdoc Hr; [lia|discriminate Hdoc|discriminate Hdoc].
      * exists d'. split; [exact Hd'|exact Hrev].
    + rewrite Hfailed; [reflexivity|].
      intros [|[|i]] r Hdoc Hr; [discriminate Hdoc| |discriminate Hdoc].
      injection Hr as <-. eexists. reflexivity.
Defined.

(** * Further properties *)

(** ** Errors and the session *)

Lemma http_error_lookup_shape (status_code : Z) (message : option string) :
  exists cls m,
    http_error_lookup status_code message = HTTPExn cls status_code m /\
    m <> "".
Proof.
  destruct (specific_kind status_code) as [cls|] eqn:Hk.
  - destruct (http_error_lookup_specific _ _ message Hk) as (m & _ & Hm & ->).
    by exists cls, m.
  - rewrite (http_error_lookup_generic _ _ Hk).
    exists HTTPError, (message_or_default status_code message).
    split; [done|]. unfold message_or_default.
    destruct message as [m|]; [|done].
    by destruct (String.eqb_spec m "").
Qed.

(** X1: whatever the status code and the reason, the error
    [http_error_lookup] builds is an [HTTPError] instance that carries
    exactly that status code and a message that is not empty, and its
    class is the generic [HTTPError] exactly when the code is none of the
    six mapped ones. *)
Theorem http_error_lookup_code_and_message (status_code : Z)
    (message : option string) :
  exists cls m,
    http_error_lookup status_code message = HTTPExn cls status_code m /\
    m <> "" /\
    (cls = HTTPError <->
     status_code ∉ [400; 401; 403; 404; 409; 412]).
Proof.
  destruct (specific_kind status_code) as [cls|] eqn:Hk.
  - destruct (http_error_lookup_specific _ _ message Hk) as (m & _ & Hm & ->).
    exists cls, m. split; [done|]. split; [done|].
    pose proof (specific_kind_status_code _ _ Hk) as Hc.
    split.
    + intros ->. discriminate Hc.
    + intros Hnot. exfalso. apply Hnot.
      destruct cls; simpl in Hc; try discriminate Hc;
        injection Hc as <-; set_solver.
  - rewrite (http_error_lookup_generic _ _ Hk).
    exists HTTPError, (message_or_default status_code message).
    split; [done|]. split.
    + unfold message_or_default.
      destruct message as [m|]; [|done].
      by destruct (String.eqb_spec m "").
    + split; [|done]. intros _ Hin. unfold specific_kind in Hk.
      repeat (apply elem_of_cons in Hin as [->|Hin]; [discriminate Hk|]).
      by apply elem_of_nil in Hin.
Qed.

(** X2: [Session.request] adds exactly the request it was given to the
    requests sent and leaves every object alone, whatever comes back.  It
    returns a response only when the transport answered with a status
    outside 400..599; otherwise it raises an exception of the
    [RequestsException] family, and an [HTTPError] among them carries the
    status code of the answer. *)
Theorem session_request_outcome (self : Session.t) (req : request) (w : world) :
  snd (Session.request self req w) = mkWorld (heap w) (sent w ++ [req]) /\
  match fst (Session.request self req w) with
  | Return r =>
      Session.base_request self req = Answered r /\
      ~ (400 <= resp_status_code r < 600)%Z
  | Raise e =>
      is_RequestsException e = true /\
      forall cls code m,
        e = HTTPExn cls code m ->
        exists r, Session.base_request self req = Answered r /\
                  resp_status_code r = code /\ (400 <= code < 600)%Z
  end.
Proof.
  unfold Session.request, Session.is_error_status.
  destruct (Session.base_request self req) as [r| |]; simpl.
  - destruct (Z.leb_spec 400 (resp_status_code r)),
             (Z.ltb_spec (resp_status_code r) 600); simpl;
      try (split; [done|]; split; [done|lia]).
    split; [done|].
    destruct (http_error_lookup_shape (resp_status_code r) (resp_reason r))
      as (cls & m & -> & _).
    split; [done|]. intros cls' code m' [= <- <- <-].
    exists r. repeat split; done.
  - repeat split; done.
  - repeat split; done.
Qed.

(** ** Views *)

Lemma decode_row_raises (r : pyval) :
  Database.decode_row r = Raise TypeError \/
  Database.decode_row r = Raise AttributeError.
Proof. destruct r; by (left + right). Qed.

Lemma comprehension_decode_row (entries : list pyval) (rows : list views.Row) :
  comprehension Database.decode_row entries = Return rows ->
  entries = [] /\ rows = [].
Proof.
  destruct entries as [|r rest]; simpl.
  - by intros [= <-].
  - by destruct (decode_row_raises r) as [-> | ->].
Qed.

Lemma comprehension_decode_row_error (entries : list pyval) (e : exn) :
  comprehension Database.decode_row entries = Raise e ->
  e = TypeError \/ e = AttributeError.
Proof.
  destruct entries as [|r rest]; simpl; [done|].
  destruct (decode_row_raises r) as [-> | ->]; intros [= <-]; by (left + right).
Qed.

Lemma query_view_result_error (data : pyval) (e : exn) :
  Database.query_view_result data = Raise e ->
  e = TypeError \/ e = AttributeError.
Proof.
  unfold Database.query_view_result.
  destruct data as [| | | | |entries]; simpl;
    try (intros [= <-]; by right).
  destruct (iter_values _) as [items|e'] eqn:Hiter; simpl.
  - destruct (comprehension Database.decode_row items) as [rows|e'] eqn:Hrows;
      simpl; [done|].
    intros [= <-]. by apply comprehension_decode_row_error in Hrows.
  - intros [= <-].
    destruct (match dict_lookup "rows" entries with
              | Some x => x | None => PyList []
              end); simpl in Hiter; try done; injection Hiter as <-; by left.
Qed.

(** X3: a [ViewResult] that the decoder of [query_view] returns never has
    a row and has length 0: the body was a JSON object whose [rows] held
    nothing, and
    [offset] and [total_rows] are the body's fields, [None] when the body
    has none. *)
Theorem query_view_result_has_no_rows (data : pyval) (result : views.ViewResult) :
  Database.query_view_result data = Return result ->
  views.rows result = [] /\
  views.__len__ result = 0%nat /\
  exists entries,
    data = PyDict entries /\
    views.offset result = dict_get "offset" entries /\
    views.total_rows result = dict_get "total_rows" entries.
Proof.
  unfold Database.query_view_result.
  destruct data as [| | | | |entries]; simpl; try done.
  destruct (iter_values _) as [items|e'] eqn:Hiter; simpl; [|done].
  destruct (comprehension Database.decode_row items) as [rows|e'] eqn:Hrows;
    simpl; [|done].
  apply comprehension_decode_row in Hrows as [-> ->].
  intros [= <-]. split; [done|]. split; [done|]. by exists entries.
Qed.

(** A sorted response without rows decodes; an unsorted one has neither
    [offset] nor [total_rows]. *)
Lemma query_view_result_has_no_rows_witness :
  let sorted := views.mkViewResult [] (PyInt 0) (PyInt 7) in
  let unsorted := views.mkViewResult [] PyNone PyNone in
  (views.rows sorted = [] /\
   views.__len__ sorted = 0%nat /\
   exists entries,
     PyDict [("total_rows", PyInt 7); ("offset", PyInt 0); ("rows", PyList [])]
     = PyDict entries /\
     views.offset sorted = dict_get "offset" entries /\
     views.total_rows sorted = dict_get "total_rows" entries) /\
  (views.rows unsorted = [] /\
   views.__len__ unsorted = 0%nat /\
   exists entries,
     PyDict [("rows", PyList [])] = PyDict entries /\
     views.offset unsorted = dict_get "offset" entries /\
     views.total_rows unsorted = dict_get "total_rows" entries).
Proof.
  split.
  - exact (query_view_result_has_no_rows
             (PyDict [("total_rows", PyInt 7); ("offset", PyInt 0);
                      ("rows", PyList [])])
             (views.mkViewResult [] (PyInt 0) (PyInt 7)) eq_refl).
  - exact (query_view_result_has_no_rows
             (PyDict [("rows", PyList [])])
             (views.mkViewResult [] PyNone PyNone) eq_refl).
Defined.

(** Membership in a list that is written out. *)
Ltac in_list :=
  unfold view_param_names;
  repeat first [apply list_elem_of_here | apply list_elem_of_further].

Lemma string_params_insert (k : string) (s : string)
    (params : gmap string pyval) :
  k ∈ view_param_names -> string_params params ->
  string_params (<[k := PyStr s]> params).
Proof.
  intros Hk Hp k' v. rewrite lookup_insert. case_decide; [|by apply Hp].
  subst. intros [= <-]. split; [done|by eexists].
Qed.

Lemma string_params_setitem_if (cond : bool) (k : string) (s : string)
    (params : gmap string pyval) :
  k ∈ view_param_names -> string_params params ->
  string_params (Database.setitem_if cond k (PyStr s) params).
Proof.
  intros Hk Hp. unfold Database.setitem_if.
  destruct cond; [by apply string_params_insert|done].
Qed.

(** X4: every parameter [query_view] builds has one of the thirteen known
    names and a value that is a string. *)
Theorem query_view_params_are_strings (a : ViewArgs.t)
    (params : gmap string pyval) (k : string) (v : pyval) :
  Database.query_view_params a = Return params ->
  params !! k = Some v ->
  k ∈ ["startkey"; "key"; "keys"; "endkey"; "skip"; "limit"; "sorted";
       "descending"; "group"; "group_level"; "reduce"; "include_docs";
       "update"] /\
  exists s, v = PyStr s.
Proof.
  intros Hp. revert k v. change (string_params params).
  unfold Database.query_view_params in Hp.
  assert (forall p, string_params p -> Return p = Return params ->
                    string_params params) as Hdone
    by (by intros p Hsp [= <-]).
  destruct (is_not_None (ViewArgs.update a)).
  - destruct (Database.update_allowed (ViewArgs.update a)) eqn:Hok; [|done].
    apply update_allowed_spec in Hok. revert Hp.
    destruct Hok as [-> |[-> | ->]]; apply Hdone;
      (apply string_params_insert; [in_list|]);
      unfold Database.jsons;
      repeat (apply string_params_setitem_if; [in_list|]); done.
  - revert Hp. apply Hdone. unfold Database.jsons.
    repeat (apply string_params_setitem_if; [in_list|]). done.
Qed.

(** With [key="foo"] and [update="lazy"], both parameters are strings. *)
Lemma query_view_params_are_strings_witness :
  let a := ViewArgs.mk (PyStr "foo") PyNone PyNone PyNone PyNone PyNone
             (PyBool true) (PyBool false) (PyBool false) PyNone PyNone
             (PyBool false) (PyStr "lazy") in
  exists params,
    Database.query_view_params a = Return params /\
    (exists s, params !! "key" = Some (PyStr s)) /\
    (exists s, params !! "update" = Some (PyStr s)).
Proof.
  intros a.
  destruct (Database.query_view_params a) as [params|e] eqn:Hp;
    [|vm_compute in Hp; discriminate Hp].
  exists params. split; [reflexivity|].
  assert (params !! "key" = Some (PyStr (quote_char +:+ "foo" +:+ quote_char)))
    as Hkey by (vm_compute in Hp; injection Hp as <-; reflexivity).
  assert (params !! "update" = Some (PyStr "lazy"))
    as Hupdate by (vm_compute in Hp; injection Hp as <-; reflexivity).
  split.
  - destruct (query_view_params_are_strings a params "key" _ Hp Hkey)
      as [_ [s Hs]].
    exists s. rewrite Hkey, Hs. reflexivity.
  - destruct (query_view_params_are_strings a params "update" _ Hp Hupdate)
      as [_ [s Hs]].
    exists s. rewrite Hupdate, Hs. reflexivity.
Defined.

Lemma split_first_spec (s : string) :
  if has_slash s
  then exists d v, s = d +:+ String slash v /\ has_slash d = false /\
                   split_first s = [d; v]
  else split_first s = [s].
Proof.
  induction s as [|c rest IH]; simpl; [done|].
  destruct (Ascii.eqb c slash) eqn:Hc; simpl.
  - apply Ascii.eqb_eq in Hc as ->. by exists "", rest.
  - destruct (has_slash rest).
    + destruct IH as (d & v & -> & Hd & ->).
      exists (String c d), v. simpl. by rewrite Hc, Hd.
    + by rewrite IH.
Qed.

Lemma split_first_slash (d v : string) :
  has_slash d = false -> split_first (d +:+ String slash v) = [d; v].
Proof.
  induction d as [|c d IH]; simpl.
  - done.
  - destruct (Ascii.eqb c slash); simpl; [done|].
    intros Hd. by rewrite IH.
Qed.

Lemma session_request_raises (self : Session.t) (req : request) (w : world)
    (e : exn) :
  fst (Session.request self req w) = Raise e -> is_RequestsException e = true.
Proof.
  unfold Session.request.
  destruct (Session.base_request self req) as [r| |]; simpl.
  - destruct (Session.is_error_status _); simpl; [|done].
    destruct (http_error_lookup_shape (resp_status_code r) (resp_reason r))
      as (cls & m & -> & _).
    by intros [= <-].
  - by intros [= <-].
  - by intros [= <-].
Qed.

Lemma query_view_no_assertion (self : Database.t) (design_doc : option string)
    (view_name : string) (a : ViewArgs.t) (w : world)
    (params : gmap string pyval) (url : list path_part) :
  Database.query_view_params a = Return params ->
  Database.query_view_path self design_doc view_name = Return url ->
  fst (Database.query_view self design_doc view_name a w) <> Raise AssertionError.
Proof.
  intros Hp Hurl.
  unfold Database.query_view, mbind, M_bind, lift, Session.get.
  rewrite Hp, Hurl.
  pose proof (session_request_raises (Database.session self)
                (mkRequest "GET" url params None) w) as Hraise.
  destruct (Session.request _ _ w) as [[resp|e] w']; simpl in *.
  - intros Hres. by apply query_view_result_error in Hres as [|].
  - intros [= ->]. by specialize (Hraise _ eq_refl).
Qed.

(** X5: [view] with a name that neither starts with an underscore nor
    contains a slash raises [ValueError] and sends nothing. *)
Theorem view_without_slash_raises (self : Database.t) (name : string)
    (a : ViewArgs.t) (w : world) :
  String.prefix "_" name = false ->
  has_slash name = false ->
  Database.view self name a w = (Raise ValueError, w).
Proof.
  intros Hreserved Hslash. unfold Database.view. rewrite Hreserved.
  pose proof (split_first_spec name) as Hsplit. rewrite Hslash in Hsplit.
  unfold mbind, M_bind, lift. by rewrite Hsplit.
Qed.

Lemma view_without_slash_raises_witness :
  Database.view example_db "by_type" ViewArgs.defaults empty_world
  = (Raise ValueError, empty_world).
Proof.
  apply view_without_slash_raises; reflexivity.
Defined.

(** X6: [view] addresses a name that starts with an underscore directly
    under the database, and any other name [design/view] under the design
    document [design]; the name is split at its first slash only, so the
    view name keeps any further slash. *)
Theorem view_dispatch (self : Database.t) (name : string) (a : ViewArgs.t)
    (w : world) :
  (String.prefix "_" name = true ->
   Database.view self name a w = Database.query_view self None name a w /\
   Database.query_view_path self None name
   = Return [Quoted (Database.name self); Added name]) /\
  (forall design view_name,
     String.prefix "_" name = false ->
     name = design +:+ String slash view_name ->
     has_slash design = false ->
     Database.view self name a w
     = Database.query_view self (Some design) view_name a w /\
     Database.query_view_path self (Some design) view_name
     = Return [Quoted (Database.name self); Segment "_design"; Segment design;
               Segment "_view"; Segment view_name]).
Proof.
  split.
  - intros Hreserved. unfold Database.view, Database.query_view_path.
    by rewrite Hreserved.
  - intros design view_name Hreserved -> Hdesign.
    unfold Database.view. rewrite Hreserved, (split_first_slash _ _ Hdesign).
    done.
Qed.

(** X7: when the options pass the check on [update], [view] never raises
    [AssertionError]: the assertion of [query_view] on the view path cannot
    fail for a path [view] has built. *)
Theorem view_never_fails_path_assertion (self : Database.t) (name : string)
    (a : ViewArgs.t) (w : world) (params : gmap string pyval) :
  Database.query_view_params a = Return params ->
  fst (Database.view self name a w) <> Raise AssertionError.
Proof.
  intros Hp. unfold Database.view.
  destruct (String.prefix "_" name) eqn:Hreserved.
  - apply (query_view_no_assertion _ _ _ _ _ params
             [Quoted (Database.name self); Added name]); [done|].
    unfold Database.query_view_path. by rewrite Hreserved.
  - unfold mbind, M_bind, lift.
    destruct (unpack_pair (split_first name)) as [[design view_name]|e] eqn:Hu.
    + by apply (query_view_no_assertion _ _ _ _ _ params
                  [Quoted (Database.name self); Segment "_design";
                   Segment design; Segment "_view"; Segment view_name]).
    + simpl. intros [= ->]. unfold unpack_pair in Hu.
      by destruct (split_first name) as [|? [|? [|]]].
Qed.

Lemma view_never_fails_path_assertion_witness :
  fst (Database.view example_db "docs/by_type" ViewArgs.defaults empty_world)
  <> Raise AssertionError /\
  fst (Database.view example_db "by_type" ViewArgs.defaults empty_world)
  <> Raise AssertionError.
Proof.
  split.
  - apply (view_never_fails_path_assertion example_db "docs/by_type"
             ViewArgs.defaults empty_world ∅). reflexivity.
  - apply (view_never_fails_path_assertion example_db "by_type"
             ViewArgs.defaults empty_world ∅). reflexivity.
Defined.

(** ** Paths of design-document functions *)

Lemma split_all_cons (s : string) : exists p rest, split_all s = p :: rest.
Proof.
  destruct s as [|c s]; simpl; [by eexists _, _|].
  destruct (Ascii.eqb c slash); [by eexists _, _|].
  destruct (split_all s); by eexists _, _.
Qed.

Lemma join_slash_cons (c : ascii) (p : string) (rest : list string) :
  join_slash (String c p :: rest) = String c (join_slash (p :: rest)).
Proof. by destruct rest. Qed.

Lemma join_split_all (s : string) : join_slash (split_all s) = s.
Proof.
  induction s as [|c s IH]; simpl; [done|].
  destruct (Ascii.eqb c slash) eqn:Hc.
  - apply Ascii.eqb_eq in Hc as ->.
    destruct (split_all_cons s) as (p & rest & Hs). rewrite Hs in *.
    simpl. by rewrite <- IH.
  - destruct (split_all_cons s) as (p & rest & Hs). rewrite Hs in *.
    by rewrite join_slash_cons, IH.
Qed.

Lemma split_all_no_slash (s : string) :
  Forall (fun p => has_slash p = false) (split_all s).
Proof.
  induction s as [|c s IH]; simpl; [by repeat constructor|].
  destruct (Ascii.eqb c slash) eqn:Hc; [by constructor|].
  destruct (split_all s) as [|p rest]; [by repeat constructor; simpl; rewrite Hc|].
  apply Forall_cons in IH as [Hp Hrest].
  constructor; [|done]. simpl. by rewrite Hc, Hp.
Qed.

(** X8: [_path_from_name] turns a name that starts with an underscore into
    its slash-separated segments, which joined by slashes give the name
    back; any other name [design/rest] becomes the four segments [_design],
    [design], the type and [rest], where [design] ends at the first slash;
    and it raises, a [ValueError], exactly for a name that neither starts
    with an underscore nor contains a slash. *)
Theorem path_from_name_segments (name type : string) :
  match _path_from_name name type with
  | Return segments =>
      if String.prefix "_" name
      then join_slash segments = name /\
           Forall (fun p => has_slash p = false) segments
      else exists design rest,
             segments = ["_design"; design; type; rest] /\
             name = design +:+ String slash rest /\
             has_slash design = false
  | Raise e =>
      e = ValueError /\ String.prefix "_" name = false /\ has_slash name = false
  end.
Proof.
  unfold _path_from_name.
  destruct (String.prefix "_" name) eqn:Hreserved.
  - split; [apply join_split_all|apply split_all_no_slash].
  - pose proof (split_first_spec name) as Hsplit.
    destruct (has_slash name).
    + destruct Hsplit as (design & rest & -> & Hdesign & ->). simpl.
      by exists design, rest.
    + rewrite Hsplit. simpl. done.
Qed.

(** ** Fetching and storing documents *)

Lemma request_fst (self : Session.t) (req : request) (w : world) :
  fst (Session.request self req w)
  = match Session.base_request self req with
    | Answered r =>
        if Session.is_error_status (resp_status_code r)
        then Raise (http_error_lookup (resp_status_code r) (resp_reason r))
        else Return r
    | TimedOut => Raise Timeout
    | Failed => Raise RequestsException
    end.
Proof.
  unfold Session.request.
  destruct (Session.base_request self req) as [r| |]; try done.
  by destruct (Session.is_error_status _).
Qed.

Lemma request_pair (self : Session.t) (req : request) (w : world) :
  Session.request self req w
  = (fst (Session.request self req w),
     mkWorld (heap w) (sent w ++ [req])).
Proof.
  pose proof (request_world self req w) as Hw.
  destruct (Session.request self req w) as [o w']. simpl in *. by subst.
Qed.

Lemma http_error_lookup_not_found (status_code : Z) (reason : option string) :
  exn_class (http_error_lookup status_code reason) = Some HTTPNotFound <->
  status_code = 404.
Proof.
  split.
  - destruct (specific_kind status_code) as [cls|] eqn:Hk.
    + destruct (http_error_lookup_specific _ _ reason Hk) as (m & _ & _ & ->).
      simpl. intros [= ->]. apply specific_kind_status_code in Hk.
      by injection Hk.
    + by rewrite (http_error_lookup_generic _ _ Hk).
  - intros ->. by rewrite http_error_lookup_404.
Qed.

Lemma try_except_not_found {A : Type} (self : Session.t) (req : request)
    (k : response -> outcome A) (handler : outcome A) (w : world) :
  (forall r cls code m, k r <> Raise (HTTPExn cls code m)) ->
  fst (try_except (resp ← Session.request self req; lift (k resp))
         HTTPNotFound (lift handler) w)
  = not_found_handled self req k handler.
Proof.
  intros Hk. unfold not_found_handled, try_except, mbind, M_bind, lift.
  rewrite request_pair, request_fst.
  destruct (Session.base_request self req) as [r| |]; try done.
  destruct (Z.eqb_spec (resp_status_code r) 404) as [->|Hne].
  - rewrite http_error_lookup_404.
    change (Session.is_error_status 404) with true. done.
  - destruct (Session.is_error_status (resp_status_code r)) eqn:Herr.
    + pose proof (http_error_lookup_not_found (resp_status_code r)
                    (resp_reason r)) as Hnf.
      destruct (http_error_lookup_shape (resp_status_code r) (resp_reason r))
        as (cls & m & Heq & _).
      rewrite Heq in *. simpl in *.
      case_decide; [subst; by destruct (proj1 Hnf eq_refl)|done].
    + simpl. specialize (Hk r).
      destruct (k r) as [x|e]; [done|].
      destruct e; try done. exfalso. by eapply Hk.
Qed.

(** X9: [get] and [__getitem__] single out the status 404 only.  When [get]
    returns, either the server answered 404 and the value is the default,
    or it answered outside 400..599 and the value is the body; when
    [__getitem__] raises [MissingDocument], the server answered 404; and an
    error answer with any other status reaches the caller of [get] as the
    error of the taxonomy, the default unused. *)
Theorem get_masks_only_not_found (self : Database.t) (id : string)
    (default : pyval) (a : GetArgs.t) (w : world) :
  let url := Database.path self ++ [Segment id] in
  (forall v,
     fst (Database.get self id default a w) = Return v ->
     exists r,
       Session.base_request (Database.session self)
         (mkRequest "GET" url (Database.get_params a) None) = Answered r /\
       ((resp_status_code r = 404 /\ v = default) \/
        (Session.is_error_status (resp_status_code r) = false /\
         v = resp_json r))) /\
  (forall arg,
     fst (Database.__getitem__ self id w) = Raise (MissingDocument arg) ->
     exists r,
       Session.base_request (Database.session self)
         (mkRequest "GET" url ∅ None) = Answered r /\
       resp_status_code r = 404) /\
  (forall r,
     Session.base_request (Database.session self)
       (mkRequest "GET" url (Database.get_params a) None) = Answered r ->
     Session.is_error_status (resp_status_code r) = true ->
     resp_status_code r <> 404 ->
     fst (Database.get self id default a w)
     = Raise (http_error_lookup (resp_status_code r) (resp_reason r))).
Proof.
  simpl.
  assert (fst (Database.get self id default a w)
          = not_found_handled (Database.session self)
              (mkRequest "GET" (Database.path self ++ [Segment id])
                 (Database.get_params a) None)
              (fun resp => Return (resp_json resp)) (Return default)) as Hget.
  { by apply (try_except_not_found (Database.session self)). }
  assert (fst (Database.__getitem__ self id w)
          = not_found_handled (Database.session self)
              (mkRequest "GET" (Database.path self ++ [Segment id]) ∅ None)
              (fun resp => Document.new (resp_json resp))
              (Raise (MissingDocument (PyStr "Document does not exist"))))
    as Hitem.
  { apply (try_except_not_found (Database.session self)).
    intros r cls code m. unfold Document.new.
    by destruct (resp_json r) as [| | |[|]|[|]|]. }
  unfold not_found_handled in *.
  rewrite Hget, Hitem. clear Hget Hitem.
  unfold Database.path. cbn [app]. repeat split.
  - intros v.
    destruct (Session.base_request _ _) as [r| |]; try done.
    destruct (Z.eqb_spec (resp_status_code r) 404) as [E|_].
    + intros [= <-]. exists r. split; [done|]. by left.
    + destruct (Session.is_error_status (resp_status_code r)) eqn:Herr; [done|].
      intros [= <-]. exists r. split; [done|]. by right.
  - intros arg.
    destruct (Session.base_request _ _) as [r| |]; try done.
    destruct (Z.eqb_spec (resp_status_code r) 404) as [E|_].
    + intros _. by exists r.
    + destruct (Session.is_error_status (resp_status_code r)); [|].
      * destruct (http_error_lookup_shape (resp_status_code r) (resp_reason r))
          as (cls & m & -> & _). done.
      * unfold Document.new.
        destruct (resp_json r) as [| | |[|]|[|]|]; done.
  - intros r -> Herr Hne. rewrite Herr.
    by destruct (Z.eqb_spec (resp_status_code r) 404).
Qed.

Lemma try_except_world {A : Type} (self : Session.t) (req : request)
    (k : response -> outcome A) (handler : outcome A) (w : world) :
  snd (try_except (resp ← Session.request self req; lift (k resp))
         HTTPNotFound (lift handler) w)
  = mkWorld (heap w) (sent w ++ [req]).
Proof.
  unfold try_except, mbind, M_bind, lift. rewrite request_pair.
  destruct (fst (Session.request self req w)) as [r|e]; simpl.
  - by destruct (k r) as [|[]]; simpl; try case_decide.
  - by destruct e; simpl; try case_decide.
Qed.

(** X10: [get] sends exactly one [GET], to the document's path.  Of its
    options, [rev] is passed on as it is, [open_revs] and
    [att_encoding_info] are JSON-encoded, and every other one is sent as the
    JSON boolean of its truth value; an option that is [None] is left
    out. *)
Theorem get_request (self : Database.t) (id : string) (default : pyval)
    (a : GetArgs.t) (w : world) :
  let params := Database.get_params a in
  let sent_if (v sent_value : pyval) :=
    if is_not_None v then Some sent_value else None in
  let flag (v : pyval) :=
    sent_if v (PyStr (if truthy v then "true" else "false")) in
  issued (Database.get self id default a) w
  = [mkRequest "GET" [Quoted (Database.name self); Segment id] params None] /\
  params !! "rev" = sent_if (GetArgs.rev a) (GetArgs.rev a) /\
  params !! "open_revs"
  = sent_if (GetArgs.open_revs a) (PyStr (_jsons (GetArgs.open_revs a))) /\
  params !! "att_encoding_info"
  = sent_if (GetArgs.att_encoding_info a)
      (PyStr (_jsons (GetArgs.att_encoding_info a))) /\
  params !! "atts_since" = flag (GetArgs.atts_since a) /\
  params !! "conflicts" = flag (GetArgs.conflicts a) /\
  params !! "deleted_conflicts" = flag (GetArgs.deleted_conflicts a) /\
  params !! "latest" = flag (GetArgs.latest a) /\
  params !! "local_seq" = flag (GetArgs.local_seq a) /\
  params !! "meta" = flag (GetArgs.meta a) /\
  params !! "revs" = flag (GetArgs.revs a) /\
  params !! "revs_info" = flag (GetArgs.revs_info a).
Proof.
  simpl. split.
  - unfold issued.
    assert (snd (Database.get self id default a w)
            = mkWorld (heap w)
                (sent w ++ [mkRequest "GET"
                              (Database.path self ++ [Segment id])
                              (Database.get_params a) None])) as Hw.
    { exact (try_except_world (Database.session self) _
               (fun resp => Return (resp_json resp)) (Return default) w). }
    rewrite Hw. simpl. by rewrite drop_app_length.
  - unfold Database.get_params, Database.jsons, _jsons.
    rewrite !lookup_setitem_if, !lookup_empty. simpl.
    repeat split;
      match goal with
      | |- (if is_not_None ?v then _ else _) = _ =>
          destruct (is_not_None v); [|done]; simpl;
          try (by destruct (truthy v)); done
      end.
Qed.

(** X11: [id in db] and [name in server] answer [False] exactly when the
    server answers the [HEAD] with status 404 and [True] exactly when it
    answers with a status outside 400..599; every other answer, a timeout
    and a failed connection reach the caller as an exception, which is
    never [HTTPNotFound]. *)
Theorem contains_outcome (db : Database.t) (server : Server.t)
    (name : string) (w : world) :
  let answers (self : Session.t) (url : list path_part) (P : Z -> Prop) :=
    exists r, Session.base_request self (mkRequest "HEAD" url ∅ None)
              = Answered r /\ P (resp_status_code r) in
  let correct (self : Session.t) (url : list path_part) (out : outcome bool) :=
    (out = Return false <-> answers self url (fun code => code = 404)) /\
    (out = Return true <->
     answers self url (fun code => Session.is_error_status code = false)) /\
    (forall e, out = Raise e ->
               is_RequestsException e = true /\
               exn_class e <> Some HTTPNotFound) in
  correct (Database.session db) [Quoted (Database.name db); Segment name]
    (fst (Database.__contains__ db name w)) /\
  correct (Server.session server) [Quoted name]
    (fst (Server.__contains__ server name w)).
Proof.
  assert (forall self url,
            let out := not_found_handled self (mkRequest "HEAD" url ∅ None)
                         (fun _ => Return true) (Return false) in
            (out = Return false <->
             exists r, Session.base_request self (mkRequest "HEAD" url ∅ None)
                       = Answered r /\ resp_status_code r = 404) /\
            (out = Return true <->
             exists r, Session.base_request self (mkRequest "HEAD" url ∅ None)
                       = Answered r /\
                       Session.is_error_status (resp_status_code r) = false) /\
            (forall e, out = Raise e ->
                       is_RequestsException e = true /\
                       exn_class e <> Some HTTPNotFound)) as Hcore.
  { intros self url. unfold not_found_handled. simpl.
    destruct (Session.base_request self _) as [r| |].
    - destruct (Z.eqb_spec (resp_status_code r) 404) as [E|Hne].
      + split; [|split].
        * split; [intros _; by exists r|done].
        * split; [done|]. intros (r' & [= <-] & Herr). by rewrite E in Herr.
        * done.
      + destruct (Session.is_error_status (resp_status_code r)) eqn:Herr.
        * split; [|split].
          -- split; [done|]. by intros (r' & [= <-] & E).
          -- split; [done|]. intros (r' & [= <-] & Herr'). congruence.
          -- intros e [= <-]. split.
             ++ by destruct (http_error_lookup_shape (resp_status_code r)
                               (resp_reason r)) as (cls & m & -> & _).
             ++ by rewrite http_error_lookup_not_found.
        * split; [|split].
          -- split; [done|]. by intros (r' & [= <-] & E).
          -- split; [intros _; by exists r|done].
          -- done.
    - split; [|split].
      + split; [done|]. by intros (r' & Hr & _).
      + split; [done|]. by intros (r' & Hr & _).
      + by intros e [= <-].
    - split; [|split].
      + split; [done|]. by intros (r' & Hr & _).
      + split; [done|]. by intros (r' & Hr & _).
      + by intros e [= <-]. }
  simpl. split.
  - assert (fst (Database.__contains__ db name w)
            = not_found_handled (Database.session db)
                (mkRequest "HEAD" (Database.path db ++ [Segment name]) ∅ None)
                (fun _ => Return true) (Return false)) as ->.
    { by apply (try_except_not_found (Database.session db)). }
    apply Hcore.
  - assert (fst (Server.__contains__ server name w)
            = not_found_handled (Server.session server)
                (mkRequest "HEAD" [Quoted name] ∅ None)
                (fun _ => Return true) (Return false)) as ->.
    { by apply (try_except_not_found (Server.session server)). }
    apply Hcore.
Qed.

Lemma setitem_raise_keeps_heap (self : Database.t) (id : string) (content : loc)
    (w w' : world) (e : exn) :
  Database.__setitem__ self id content w = (Raise e, w') -> heap w' = heap w.
Proof.
  unfold Database.__setitem__, mbind, M_bind, lift, Session.put.
  destruct (Database.json_body (heap w) content) as [body|e0]; simpl;
    [|by intros [= _ <-]].
  rewrite request_pair.
  destruct (fst (Session.request _ _ w)) as [resp|e0]; simpl;
    [|by intros [= _ <-]].
  destruct (getitem "id" (resp_json resp)) as [new_id|e0]; simpl;
    [|by intros [= _ <-]].
  destruct (getitem "rev" (resp_json resp)) as [new_rev|e0]; simpl;
    [|by intros [= _ <-]].
  unfold Database.update_if_dict. simpl.
  by destruct (heap w !! content) as [[]|].
Qed.

(** X12: [db[id] = content] for a dict [content] sends the dict in one
    [PUT].  An error answer reaches the caller as the error of the taxonomy
    (a 409 as [HTTPConflict], not as [UpdateConflict]) and leaves the dict as
    it was; on any other answer the dict gets the [id] and [rev] of the
    answer as [_id] and [_rev], its other keys unchanged. *)
Theorem setitem_outcome (self : Database.t) (id : string) (content : loc)
    (d : pydict) (r : response) (w : world) :
  heap w !! content = Some (DictObj d) ->
  Session.base_request (Database.session self)
    (mkRequest "PUT" [Quoted (Database.name self); Segment id] ∅
       (Some (PyDict d)))
  = Answered r ->
  let w1 := mkWorld (heap w)
              (sent w ++ [mkRequest "PUT"
                            [Quoted (Database.name self); Segment id] ∅
                            (Some (PyDict d))]) in
  (Session.is_error_status (resp_status_code r) = true ->
   Database.__setitem__ self id content w
   = (Raise (http_error_lookup (resp_status_code r) (resp_reason r)), w1) /\
   (resp_status_code r = 409 ->
    fst (Database.__setitem__ self id content w)
    = Raise (HTTPExn HTTPConflict 409 "Conflict"))) /\
  (Session.is_error_status (resp_status_code r) = false ->
   forall new_id new_rev,
     getitem "id" (resp_json r) = Return new_id ->
     getitem "rev" (resp_json r) = Return new_rev ->
     exists d',
       Database.__setitem__ self id content w
       = (Return tt, mkWorld (<[content := DictObj d']> (heap w)) (sent w1)) /\
       dict_lookup "_id" d' = Some new_id /\
       dict_lookup "_rev" d' = Some new_rev /\
       forall k, k <> "_id" -> k <> "_rev" ->
                 dict_lookup k d' = dict_lookup k d).
Proof.
  intros Hcontent Hanswer w1.
  assert (Database.__setitem__ self id content w
          = match (if Session.is_error_status (resp_status_code r)
                   then Raise (http_error_lookup (resp_status_code r)
                                 (resp_reason r))
                   else Return r) with
            | Return resp =>
                (new_id ← lift (getitem "id" (resp_json resp));
                 new_rev ← lift (getitem "rev" (resp_json resp));
                 Database.update_if_dict content new_id new_rev) w1
            | Raise e => (Raise e, w1)
            end) as Hrun.
  { unfold Database.__setitem__, Database.json_body, mbind at 1 2, M_bind,
      Session.put.
    rewrite Hcontent. simpl. rewrite request_pair, request_fst.
    unfold Database.path. simpl. rewrite Hanswer.
    by destruct (Session.is_error_status (resp_status_code r)). }
  rewrite Hrun. split.
  - intros ->. split; [done|]. intros ->. simpl.
    by vm_compute.
  - intros -> new_id new_rev Hid Hrev.
    exists (dict_set "_rev" new_rev (dict_set "_id" new_id d)).
    split; [|split; [|split]].
    + unfold mbind, M_bind, lift, Database.update_if_dict.
      rewrite Hid, Hrev. simpl. by rewrite Hcontent.
    + rewrite dict_lookup_set_ne by done. apply dict_lookup_set_eq.
    + apply dict_lookup_set_eq.
    + intros k Hk1 Hk2. by rewrite !dict_lookup_set_ne.
Qed.

(** Storing [{type: A}] under [a]: accepted, the dict has [_id] and [_rev];
    refused with 409, the caller sees [HTTPConflict]. *)
Lemma setitem_outcome_witness :
  let w := mkWorld {[ 1%positive := DictObj [("type", PyStr "A")] ]} [] in
  let ok := Database.mk
              (Session.mk (fun _ =>
                 Answered (mkResponse 201 (Some "Created")
                             (PyDict (report_ok "a" "1-abc"))))) "db" in
  let busy := Database.mk
                (Session.mk (fun _ =>
                   Answered (mkResponse 409 (Some "Conflict")
                               (PyDict (report_conflict "a"))))) "db" in
  (exists d' w',
     Database.__setitem__ ok "a" 1%positive w = (Return tt, w') /\
     heap w' !! 1%positive = Some (DictObj d') /\
     dict_lookup "_id" d' = Some (PyStr "a") /\
     dict_lookup "_rev" d' = Some (PyStr "1-abc") /\
     dict_lookup "type" d' = Some (PyStr "A")) /\
  fst (Database.__setitem__ busy "a" 1%positive w)
  = Raise (HTTPExn HTTPConflict 409 "Conflict").
Proof.
  intros w ok busy. split.
  - destruct (setitem_outcome ok "a" 1%positive [("type", PyStr "A")]
                (mkResponse 201 (Some "Created")
                   (PyDict (report_ok "a" "1-abc"))) w eq_refl eq_refl)
      as [_ Hok].
    destruct (Hok eq_refl (PyStr "a") (PyStr "1-abc") eq_refl eq_refl)
      as (d' & Hrun & Hid & Hrev & Hother).
    eexists d', _. split; [exact Hrun|]. split; [|split; [|split]].
    + simpl. apply lookup_insert_eq.
    + exact Hid.
    + exact Hrev.
    + rewrite Hother by discriminate. reflexivity.
  - destruct (setitem_outcome busy "a" 1%positive [("type", PyStr "A")]
                (mkResponse 409 (Some "Conflict")
                   (PyDict (report_conflict "a"))) w eq_refl eq_refl)
      as [Herr _].
    exact (proj2 (Herr eq_refl) eq_refl).
Defined.

(** X13: a [db[id] = content] that raises, for whatever reason, has left
    every object of the caller as it was. *)
Theorem setitem_raise_mutates_nothing (self : Database.t) (id : string)
    (content : loc) (w w' : world) (e : exn) :
  Database.__setitem__ self id content w = (Raise e, w') ->
  heap w' = heap w /\
  (sent w' = sent w \/ exists req, sent w' = sent w ++ [req]).
Proof.
  intros Hrun. split; [by eapply setitem_raise_keeps_heap|].
  revert Hrun.
  unfold Database.__setitem__, mbind, M_bind, lift, Session.put.
  destruct (Database.json_body (heap w) content) as [body|e0]; simpl;
    [|intros [= _ <-]; by left].
  rewrite request_pair.
  destruct (fst (Session.request _ _ w)) as [resp|e0]; simpl;
    [|intros [= _ <-]; right; by eexists].
  destruct (getitem "id" (resp_json resp)) as [new_id|e0]; simpl;
    [|intros [= _ <-]; right; by eexists].
  destruct (getitem "rev" (resp_json resp)) as [new_rev|e0]; simpl;
    [|intros [= _ <-]; right; by eexists].
  unfold Database.update_if_dict. simpl.
  by destruct (heap w !! content) as [[]|].
Qed.

(** An answer without [rev]: [KeyError], and the dict is as it was. *)
Lemma setitem_raise_mutates_nothing_witness :
  let w := mkWorld {[ 1%positive := DictObj [("type", PyStr "A")] ]} [] in
  let db := Database.mk
              (Session.mk (fun _ =>
                 Answered (mkResponse 202 (Some "Accepted")
                             (PyDict [("ok", PyBool true);
                                      ("id", PyStr "a")])))) "db" in
  fst (Database.__setitem__ db "a" 1%positive w) = Raise (KeyError "rev") /\
  heap (snd (Database.__setitem__ db "a" 1%positive w)) = heap w.
Proof.
  intros w db. split; [reflexivity|].
  destruct (Database.__setitem__ db "a" 1%positive w) as [o w'] eqn:Hrun.
  assert (o = Raise (KeyError "rev")) as ->
    by (apply (f_equal fst) in Hrun; symmetry; exact Hrun).
  exact (proj1 (setitem_raise_mutates_nothing db "a" 1%positive w w' _ Hrun)).
Defined.

(** ** The server *)

(** X14: [bool(server)] never raises: it is [True] exactly when the
    transport answers the [HEAD] of the root with a status outside
    400..599, and [False] for an error answer, a timeout and a failed
    connection alike; either way one request has been sent. *)
Theorem server_nonzero_never_raises (self : Server.t) (w : world) :
  exists b,
    Server.__nonzero__ self w
    = (Return b,
       mkWorld (heap w) (sent w ++ [mkRequest "HEAD" [Added "/"] ∅ None])) /\
    (b = true <->
     exists r,
       Session.base_request (Server.session self)
         (mkRequest "HEAD" [Added "/"] ∅ None) = Answered r /\
       Session.is_error_status (resp_status_code r) = false).
Proof.
  unfold Server.__nonzero__, Session.head.
  rewrite request_pair, request_fst.
  destruct (Session.base_request _ _) as [r| |].
  - destruct (Session.is_error_status (resp_status_code r)) eqn:Herr.
    + destruct (http_error_lookup_shape (resp_status_code r) (resp_reason r))
        as (cls & m & -> & _).
      exists false. split; [done|]. split; [done|].
      intros (r' & [= <-] & Herr'). congruence.
    + exists true. split; [done|]. split; [|done]. intros _. by exists r.
  - exists false. split; [done|]. split; [done|]. by intros (r' & Hr & _).
  - exists false. split; [done|]. split; [done|]. by intros (r' & Hr & _).
Qed.

(** ** More on bulk updates *)

Lemma keeps_sent_bind {A B : Type} (c : M A) (f : A -> M B) :
  keeps_sent c -> (forall a, keeps_sent (f a)) -> keeps_sent (c ≫= f).
Proof.
  intros Hc Hf w. unfold mbind, M_bind. specialize (Hc w).
  destruct (c w) as [[a|e] w']; simpl in *; [|done].
  by rewrite Hf.
Qed.

Lemma keeps_sent_lift {A : Type} (c : outcome A) : keeps_sent (lift c).
Proof. done. Qed.

Lemma keeps_sent_ret {A : Type} (a : A) : keeps_sent (mret a).
Proof. done. Qed.

Lemma keeps_sent_update_if_dict (doc : loc) (id rev : pyval) :
  keeps_sent (Database.update_if_dict doc id rev).
Proof.
  intros w. unfold Database.update_if_dict.
  by destruct (heap w !! doc) as [[]|].
Qed.

Lemma keeps_sent_update_entry (documents : list loc) (idx : nat)
    (result : pyval) :
  keeps_sent (Database.update_entry documents idx result).
Proof.
  unfold Database.update_entry.
  apply keeps_sent_bind; [apply keeps_sent_lift|]. intros [|].
  - repeat (apply keeps_sent_bind; [apply keeps_sent_lift|intros ?]).
    apply keeps_sent_ret.
  - apply keeps_sent_bind; [apply keeps_sent_lift|]. intros doc.
    apply keeps_sent_bind; [done|]. intros [|].
    + apply keeps_sent_bind.
      * repeat (apply keeps_sent_bind; [apply keeps_sent_lift|intros ?]).
        apply keeps_sent_update_if_dict.
      * intros _.
        repeat (apply keeps_sent_bind; [apply keeps_sent_lift|intros ?]).
        apply keeps_sent_ret.
    + apply keeps_sent_bind; [apply keeps_sent_ret|]. intros _.
      repeat (apply keeps_sent_bind; [apply keeps_sent_lift|intros ?]).
      apply keeps_sent_ret.
Qed.

Lemma keeps_sent_update_loop (documents : list loc) (data : list pyval) :
  forall idx results,
    keeps_sent (Database.update_loop documents idx data results).
Proof.
  induction data as [|result rest IH]; intros idx results; simpl.
  - apply keeps_sent_ret.
  - apply keeps_sent_bind; [apply keeps_sent_update_entry|].
    intros r. apply IH.
Qed.

Lemma payload_doc_spec (h : gmap loc pyobj) (doc : loc) :
  if is_document h doc
  then exists json, Database.payload_doc h doc = Return json /\
                    payload_of (h !! doc) json
  else Database.payload_doc h doc = Raise TypeError.
Proof.
  unfold is_document, Database.payload_doc, payload_of.
  destruct (h !! doc) as [[d|items|]|]; try done; by eexists.
Qed.

Lemma payload_docs_spec (h : gmap loc pyobj) (documents : list loc) :
  Forall (fun doc => is_document h doc = true) documents ->
  exists docs,
    comprehension (Database.payload_doc h) documents = Return docs /\
    Forall2 (fun doc json => payload_of (h !! doc) json) documents docs.
Proof.
  induction 1 as [|doc rest Hdoc _ (docs & Hrest & Hall)].
  - by exists [].
  - pose proof (payload_doc_spec h doc) as Hspec. rewrite Hdoc in Hspec.
    destruct Hspec as (json & Hjson & Hpayload).
    exists (json :: docs). cbn [comprehension]. rewrite Hjson, Hrest.
    split; [done|]. by constructor.
Qed.

Lemma payload_docs_raise (h : gmap loc pyobj) (documents : list loc) :
  Exists (fun doc => is_document h doc = false) documents ->
  comprehension (Database.payload_doc h) documents = Raise TypeError.
Proof.
  induction documents as [|doc rest IH]; intros Hex.
  - by apply Exists_nil in Hex.
  - cbn [comprehension].
    pose proof (payload_doc_spec h doc) as Hspec.
    destruct (is_document h doc) eqn:Hdoc.
    + destruct Hspec as (json & -> & _).
      apply Exists_cons in Hex as [Hbad|Hex]; [congruence|].
      by rewrite IH.
    + by rewrite Hspec.
Qed.

(** X15: when one of the inputs of [update] is neither a dict nor an
    object with [items()], the call raises [TypeError] before anything is
    sent, and no document is touched, however many valid documents stand
    before it. *)
Theorem update_rejects_non_document (self : Database.t) (documents : list loc)
    (new_edits : pyval) (w : world) :
  Exists (fun doc => is_document (heap w) doc = false) documents ->
  Database.update self documents new_edits w = (Raise TypeError, w).
Proof.
  intros Hex. unfold Database.update, Database.payload_docs, mbind, M_bind.
  by rewrite (payload_docs_raise _ _ Hex).
Qed.

Lemma update_rejects_non_document_witness :
  let w := mkWorld {[ 1%positive := DictObj [("type", PyStr "A")];
                      2%positive := OtherObj ]} [] in
  Database.update example_db [1%positive; 2%positive] (PyBool true) w
  = (Raise TypeError, w).
Proof.
  intros w. apply update_rejects_non_document.
  apply Exists_cons. right. apply Exists_cons. left. reflexivity.
Defined.

(** X16: [update] of documents that are all dicts or objects with [items()]
    sends exactly one request whatever the server answers: a [POST] to
    [_bulk_docs] whose body holds [new_edits] and, under [docs], one JSON
    object per input document, in the order of the input. *)
Theorem update_sends_one_request (self : Database.t) (documents : list loc)
    (new_edits : pyval) (w : world) :
  Forall (fun doc => is_document (heap w) doc = true) documents ->
  exists docs,
    issued (Database.update self documents new_edits) w
    = [mkRequest "POST" [Quoted (Database.name self); Added "_bulk_docs"] ∅
         (Some (PyDict [("docs", PyList docs); ("new_edits", new_edits)]))] /\
    Forall2 (fun doc json => payload_of (heap w !! doc) json) documents docs.
Proof.
  intros Hdocs.
  destruct (payload_docs_spec _ _ Hdocs) as (docs & Hpayload & Hall).
  exists docs. split; [|done].
  unfold issued, Database.update, Database.payload_docs, mbind at 1 2, M_bind,
    Session.post.
  rewrite Hpayload, request_pair.
  destruct (fst (Session.request _ _ w)) as [resp|e]; simpl;
    [|by rewrite drop_app_length].
  unfold mbind, M_bind, lift.
  destruct (iter_values (resp_json resp)) as [data|e]; simpl;
    [|by rewrite drop_app_length].
  rewrite keeps_sent_update_loop. simpl. by rewrite drop_app_length.
Qed.

(** Two documents, one of them an object with [items()], against a server
    that answers with something that is no list of reports: still one
    request, with both documents in it. *)
Lemma update_sends_one_request_witness :
  let w := mkWorld {[ 1%positive := DictObj [("type", PyStr "A")];
                      2%positive := ItemsObj [("type", PyStr "B");
                                              ("type", PyStr "C")] ]} [] in
  issued (Database.update example_db [1%positive; 2%positive] (PyBool true)) w
  = [mkRequest "POST" [Quoted "db"; Added "_bulk_docs"] ∅
       (Some (PyDict [("docs", PyList [PyDict [("type", PyStr "A")];
                                       PyDict [("type", PyStr "C")]]);
                      ("new_edits", PyBool true)]))].
Proof.
  intros w.
  destruct (update_sends_one_request example_db [1%positive; 2%positive]
              (PyBool true) w) as (docs & Hsent & Hdocs).
  - repeat constructor.
  - rewrite Hsent.
    apply Forall2_cons_inv_l in Hdocs as (j1 & rest & H1 & Hdocs & ->).
    apply Forall2_cons_inv_l in Hdocs as (j2 & rest' & H2 & Hdocs & ->).
    apply Forall2_nil_inv_l in Hdocs as ->.
    simpl in H1, H2. rewrite H1, H2. reflexivity.
Defined.

Lemma fst_zip_take {A B : Type} (l : list A) (k : list B) :
  (zip l k).*1 = take (length k) l.
Proof.
  revert k. induction l as [|x l IH]; intros [|y k]; simpl; try done.
  by rewrite IH.
Qed.

Lemma update_run (self : Database.t) (documents : list loc) (new_edits : pyval)
    (data : list pydict) (w : world) :
  Forall (fun doc => is_document (heap w) doc = true) documents ->
  reports self data ->
  exists req,
    Database.update self documents new_edits w
    = Database.update_loop documents 0 (PyDict <$> data) []
        (mkWorld (heap w) (sent w ++ [req])).
Proof.
  intros Hdocs Hrep.
  destruct (payload_docs_spec _ _ Hdocs) as (docs & Hpayload & _).
  destruct (Hrep (PyDict [("docs", PyList docs); ("new_edits", new_edits)]))
    as (resp & Hresp & Hstatus & Hjson).
  eexists.
  unfold Database.update, Database.payload_docs, mbind at 1 2 3, M_bind,
    Session.post, Session.request, lift.
  rewrite Hpayload, Hresp, Hstatus, Hjson. reflexivity.
Qed.

(** X17: the list [update] returns is as long as the list of reports the
    server sent, not as the input: with fewer reports than documents (none
    at all when every document of a [new_edits=False] update was stored)
    the documents past the last report are neither reported on nor
    touched. *)
Theorem update_follows_the_reports (self : Database.t) (documents : list loc)
    (new_edits : pyval) (data : list pydict) (w : world) :
  Forall (fun doc => is_document (heap w) doc = true) documents ->
  reports self data ->
  (length data <= length documents)%nat ->
  Forall (fun r => is_Some (expected_result r)) data ->
  exists results w',
    Database.update self documents new_edits w = (Return results, w') /\
    Forall2 (fun r res => expected_result r = Some res) data results /\
    forall doc, doc ∉ take (length data) documents ->
                heap w' !! doc = heap w !! doc.
Proof.
  intros Hdocs Hrep Hlen Hwf.
  destruct (update_run self documents new_edits data w Hdocs Hrep)
    as [req ->].
  assert (exists expected,
            Forall2 (fun r res => expected_result r = Some res) data expected)
    as [expected Hexp].
  { clear -Hwf. induction Hwf as [|r rest [res Hres] _ [expected IH]].
    - by exists [].
    - exists (res :: expected). by constructor. }
  rewrite (update_loop_spec documents data 0 expected [] _ Hexp) by (simpl; lia).
  eexists _, _. split; [reflexivity|]. split; [done|].
  intros doc Hdoc. simpl. rewrite drop_0.
  apply expected_heap_frame. by rewrite fst_zip_take.
Qed.

(** A [new_edits=False] update that the server answers with an empty list:
    nothing is returned and nothing is changed. *)
Lemma update_follows_the_reports_witness :
  let w := mkWorld {[ 1%positive := DictObj [("_id", PyStr "a");
                                             ("_rev", PyStr "3-x")] ]} [] in
  let db := Database.mk (bulk_session []) "db" in
  exists w',
    Database.update db [1%positive] (PyBool false) w = (Return [], w') /\
    heap w' !! 1%positive = heap w !! 1%positive.
Proof.
  intros w db.
  destruct (update_follows_the_reports db [1%positive] (PyBool false) [] w)
    as (results & w' & Hrun & Hres & Hkeep).
  - repeat constructor.
  - intros payload. eexists. repeat split.
  - simpl. lia.
  - constructor.
  - apply Forall2_nil_inv_l in Hres as ->.
    exists w'. split; [exact Hrun|]. apply Hkeep. simpl. apply not_elem_of_nil.
Defined.




